(** * MaxSam router service: routing engine, fallback executor and audit log

    A shallow embedding of [router-service/app]: the schemas
    ([schemas.py]), the three tier adapters ([adapters/*.py]), the registry
    writes ([supabase_logger.py]) and the routing engine
    ([router_engine.py]), followed by the properties of the routing and
    fallback pipeline.

    Conventions of the embedding.
    - A Python [str] is a [string], one character per element; [len] is
      [String.length].
    - A Python [int] is a [Z]; chain positions, which only index a list,
      are [nat].
    - A Python [float] is an IEEE 754 binary64 value, held as the
      Standard Library's [spec_float] (sign, mantissa, exponent, the two
      infinities, the zeros and NaN); products, differences and
      quotients are the library's correctly rounded ones, and the
      conversions Python adds ([int / int], [float(int)], [int(float)],
      [round(x, n)], decimal literals) are written out in [Py].
    - A Python [dict] with string keys is an association list read by
      [dict_get] (first binding wins).
    - Awaited I/O is explicit state passing over a [World]: the registry
      writes and the HTTP requests issued so far, newest first.  A
      registry write is recorded when it is called, whether or not the
      registry stores it.
    - A call that may raise returns an [Outcome]: the validation error
      of [RouterDecision(...)], whose field constraints are
      [RouterDecision_valid], the errors of float and int arithmetic,
      and what [json.loads] raises besides its decode error.
    - [json.loads] is a parameter ([JsonLoads]); the adapters' HTTP
      exchanges are answered by an oracle in [Env]. *)

From Stdlib Require Import ZArith QArith List String Ascii Bool Lia.
From Stdlib Require Import DecimalString SpecFloat Floats Sorted.
Import ListNotations.

Set Warnings "-register-all,-inexact-float".

Open Scope string_scope.
Open Scope Z_scope.

(** ** Python values used by the service *)

(** The exceptions the service can meet outside the adapters' own
    [try] blocks. *)
Inductive PyError : Type :=
| ValidationError
| OverflowError
| ValueError
| TypeError
| RecursionError.

(** What a call that may raise comes back with. *)
Inductive Outcome (A : Type) : Type :=
| Returned (a : A)
| Raised (e : PyError).

Arguments Returned {A} a.
Arguments Raised {A} e.

Module Py.

Definition len (s : string) : Z := Z.of_nat (String.length s).

(** [sys.maxsize] of a 64-bit build: no [str] is longer. *)
Definition maxsize : Z := 2 ^ 63 - 1.

(** [str(n)] for an integer. *)
Definition str_int (z : Z) : string := NilZero.string_of_int (Z.to_int z).

(** [f"{x}"] for an [Optional[str]]. *)
Definition str_opt (o : option string) : string :=
  match o with Some s => s | None => "None" end.

(** Truth value of a string and of an optional string. *)
Definition truthy (s : string) : bool := negb (s =? "")%string.

Definition truthy_opt (o : option string) : bool :=
  match o with Some s => truthy s | None => false end.

(** [o or ""] *)
Definition or_empty (o : option string) : string :=
  match o with Some s => if truthy s then s else "" | None => "" end.

Definition dict (V : Type) : Type := list (string * V).

(** [d.get(k, default)] *)
Fixpoint dict_get {V : Type} (d : dict V) (k : string) (default : V) : V :=
  match d with
  | [] => default
  | (k', v) :: d' => if (k' =? k)%string then v else dict_get d' k default
  end.

(** [range(n)] has [Z.to_nat n] elements: none when [n <= 0]. *)
Definition range_len (n : Z) : nat := Z.to_nat n.

(** Nearest integer, ties to the even one. *)
Definition round_half_even (x : Q) : Z :=
  let n := Qnum x in
  let d := Zpos (Qden x) in
  let q := n / d in
  match (2 * (n mod d) ?= d) with
  | Lt => q
  | Gt => q + 1
  | Eq => if Z.even q then q else q + 1
  end.

(** *** Floats *)

Definition float : Type := spec_float.

(** binary64: 53 bits of mantissa, infinities at exponent 1024. *)
Definition prec : Z := 53.
Definition emax : Z := 1024.

(** [x * y], [x - y], [x / y], [x < y] and [x <= y] on floats. *)
Definition fmul : float -> float -> float := SFmul prec emax.
Definition fsub : float -> float -> float := SFsub prec emax.
Definition fdiv : float -> float -> float := SFdiv prec emax.
Definition flt : float -> float -> bool := SFltb.
Definition fle : float -> float -> bool := SFleb.

(** The float nearest to [n / d], ties to even; an infinity when the
    quotient is beyond the largest float. *)
Definition nearest_quotient (n : Z) (d : positive) : float :=
  match n with
  | Z0 => S754_zero false
  | Zpos p =>
      let '(q, e, l) := SFdiv_core_binary prec emax (Zpos p) 0 (Zpos d) 0 in
      binary_round_aux prec emax false q e l
  | Zneg p =>
      let '(q, e, l) := SFdiv_core_binary prec emax (Zpos p) 0 (Zpos d) 0 in
      binary_round_aux prec emax true q e l
  end.

(** A decimal literal: [decimal 15 100] is [0.15]. *)
Definition decimal (n : Z) (d : positive) : float := nearest_quotient n d.

(** [n / d] for two ints: [OverflowError] when the quotient is too large
    for a float. *)
Definition true_div_int (n : Z) (d : positive) : Outcome float :=
  match nearest_quotient n d with
  | S754_infinity _ => Raised OverflowError
  | x => Returned x
  end.

(** [float(n)], also what [n * x] does to its int operand. *)
Definition float_of_int (n : Z) : Outcome float :=
  match binary_normalize prec emax n 0 false with
  | S754_infinity _ => Raised OverflowError
  | x => Returned x
  end.

(** [int(x)]: truncation toward zero; an infinity and NaN have no int. *)
Definition int_of_float (x : float) : Outcome Z :=
  match x with
  | S754_zero _ => Returned 0
  | S754_finite s m e =>
      let a := if 0 <=? e then Zpos m * 2 ^ e else Zpos m / 2 ^ (- e) in
      Returned (if s then - a else a)
  | S754_infinity _ => Raised OverflowError
  | S754_nan => Raised ValueError
  end.

(** The value of the mantissa [m] at the exponent [e]. *)
Definition magnitude (m : positive) (e : Z) : Q :=
  if 0 <=? e then inject_Z (Zpos m * 2 ^ e)
  else Qmake (Zpos m) (Z.to_pos (2 ^ (- e))).

(** [round(x, ndigits)] for the few digits the engine asks for: the
    exact value of [x] is rounded to the decimal grid, ties to even, and
    the float nearest to that decimal is returned; zeros, infinities and
    NaN round to themselves. *)
Definition round (x : float) (ndigits : nat) : float :=
  match x with
  | S754_finite s m e =>
      let unit := Z.to_pos (10 ^ Z.of_nat ndigits) in
      match round_half_even (magnitude m e * inject_Z (Zpos unit)) with
      | Zpos k => nearest_quotient (if s then Zneg k else Zpos k) unit
      | _ => S754_zero s
      end
  | _ => x
  end.

(** [max(a, b)]: the second argument only when it is strictly larger. *)
Definition max (a b : float) : float := if flt a b then b else a.

End Py.

(** ** schemas.py *)

Inductive Tier : Type := LOCAL | MARKET | PREMIUM.

Definition Tier_value (t : Tier) : string :=
  match t with
  | LOCAL => "local"
  | MARKET => "market"
  | PREMIUM => "premium"
  end.

Definition Tier_eqb (a b : Tier) : bool :=
  match a, b with
  | LOCAL, LOCAL | MARKET, MARKET | PREMIUM, PREMIUM => true
  | _, _ => false
  end.

Inductive Sensitivity : Type := LOW | NORMAL | HIGH.

Definition Sensitivity_value (s : Sensitivity) : string :=
  match s with
  | LOW => "low"
  | NORMAL => "normal"
  | HIGH => "high"
  end.

Definition Sensitivity_eqb (a b : Sensitivity) : bool :=
  match a, b with
  | LOW, LOW | NORMAL, NORMAL | HIGH, HIGH => true
  | _, _ => false
  end.

(** JSON documents, which are also the values an adapter may hand back as
    [output]: [JNull] is Python's [None].  A number is held by its
    literal; the router never computes with it. *)
Inductive Json : Type :=
| JNull
| JBool (b : bool)
| JNumber (literal : string)
| JString (s : string)
| JList (items : list Json)
| JDict (members : list (string * Json)).

(** The value an adapter hands back as [token_count]: what it found in
    the body's usage fields, or the sum of two such values.  OpenRouter's
    adapter hands on whatever JSON value sits under [total_tokens]; the
    two sums of the other adapters can be an int, a float, a str or a
    list. *)
Inductive TokenCount : Type :=
| TokInt (n : Z)
| TokBool (b : bool)
| TokFloat (x : Py.float)
| TokNone
| TokStr (s : string)
| TokList (items : list Json)
| TokDict (members : list (string * Json)).

(** POST /run.  [task_type] and [prompt] have [min_length=1]. *)
Record RunRequest : Type := {
  task_type : string;
  prompt : string;
  context : option string;
  sensitivity : Sensitivity;
  source : string;
  metadata : list (string * Json)
}.

Definition RunRequest_valid (r : RunRequest) : bool :=
  (1 <=? Py.len (task_type r)) && (1 <=? Py.len (prompt r)).

Record RouterDecision : Type := {
  route : Tier;
  model : string;
  reason : string;
  confidence : Py.float;
  escalation_level : Z;
  cost_estimate : Py.float
}.

(** The float literals [0.0] and [1.0]. *)
Definition zero : Py.float := S754_zero false.
Definition one : Py.float := Py.decimal 1 1.

(** The [Field] constraints of [RouterDecision]: [min_length=1] on the
    reason, [ge=0.0, le=1.0] on the confidence, [ge=0, le=3] on the
    escalation level and [ge=0.0] on the cost estimate.  A NaN fails
    every comparison; an infinite cost passes. *)
Definition RouterDecision_valid (d : RouterDecision) : bool :=
  (1 <=? Py.len (reason d))
  && Py.fle zero (confidence d) && Py.fle (confidence d) one
  && (0 <=? escalation_level d) && (escalation_level d <=? 3)
  && Py.fle zero (cost_estimate d).

(** [RouterDecision(...)]: the constructor validates its fields. *)
Definition new_RouterDecision (route : Tier) (model reason : string)
    (confidence : Py.float) (escalation_level : Z)
    (cost_estimate : Py.float) : Outcome RouterDecision :=
  let d := Build_RouterDecision route model reason confidence
             escalation_level cost_estimate in
  if RouterDecision_valid d then Returned d else Raised ValidationError.

Record RouterResult : Type := {
  res_task_id : string;
  res_decision : RouterDecision;
  res_output : Json;
  res_success : bool;
  res_tier_used : Tier;
  res_model_used : string;
  res_latency_ms : Z;
  res_error : option string
}.

Record EscalationRules : Type := {
  local_fail_count : Z;
  invalid_json_escalate : bool;
  context_overflow_escalate : bool
}.

Record RoutingPolicy : Type := {
  default_tier : Tier;
  local_ratio : Py.float;
  max_local_retries : Z;
  context_threshold_tokens : Z;
  escalation_rules : EscalationRules;
  premium_trigger : string;
  fallback_chain : list Tier;
  models : Py.dict string
}.

Record Governance : Type := {
  level : string;
  require_audit : bool;
  require_explanation : bool;
  max_cost_per_request : Py.float;
  premium_approval_required : bool
}.

(** The field defaults of the schemas, which are also the registry
    client's fallback policy and governance. *)
Definition default_EscalationRules : EscalationRules :=
  {| local_fail_count := 2;
     invalid_json_escalate := true;
     context_overflow_escalate := true |}.

Definition default_RoutingPolicy : RoutingPolicy :=
  {| default_tier := LOCAL;
     local_ratio := Py.decimal 80 100;
     max_local_retries := 2;
     context_threshold_tokens := 4000;
     escalation_rules := default_EscalationRules;
     premium_trigger := "sensitivity_high_only";
     fallback_chain := [LOCAL; MARKET; PREMIUM];
     models := [("local", "llama3.1:8b");
                ("market", "meta-llama/llama-3.1-70b-instruct");
                ("premium", "claude-sonnet-4-20250514")] |}.

Definition default_Governance : Governance :=
  {| level := "standard";
     require_audit := true;
     require_explanation := true;
     max_cost_per_request := Py.decimal 50 100;
     premium_approval_required := false |}.

(** ** router_engine.py: the decision engine *)

Definition COST_PER_1K : Py.dict Py.float :=
  [("local", zero);
   ("market", Py.decimal 8 10000);
   ("premium", Py.decimal 3 1000)].

Definition SYSTEM_PROMPT : string :=
  "You are a MaxSam AI worker. Respond ONLY with valid JSON. No markdown, no explanation, no preamble. Just a JSON object.".

Definition estimate_tokens (text : string) : Z :=
  Z.max 1 (Py.len text / 4).

(** [token_count / 1000]: an int or a bool is divided as an int, a
    float as a float, and anything else cannot be divided. *)
Definition per_thousand (token_count : TokenCount) : Outcome Py.float :=
  match token_count with
  | TokInt n => Py.true_div_int n 1000
  | TokBool b => Py.true_div_int (if b then 1 else 0) 1000
  | TokFloat x => Returned (Py.fdiv x (Py.decimal 1000 1))
  | TokNone | TokStr _ | TokList _ | TokDict _ => Raised TypeError
  end.

Definition estimate_cost (tier : string) (token_count : TokenCount)
    : Outcome Py.float :=
  let rate := Py.dict_get COST_PER_1K tier zero in
  match per_thousand token_count with
  | Raised e => Raised e
  | Returned thousands => Returned (Py.round (Py.fmul rate thousands) 6)
  end.

Definition compute_decision (request : RunRequest) (policy : RoutingPolicy)
    (governance : Governance) : Outcome RouterDecision :=
  let prompt_tokens := estimate_tokens (prompt request) in
  let context_tokens := estimate_tokens (Py.or_empty (context request)) in
  let total_tokens := prompt_tokens + context_tokens in
  if Sensitivity_eqb (sensitivity request) HIGH
     && (premium_trigger policy =? "sensitivity_high_only")%string
  then
    match estimate_cost "premium" (TokInt (total_tokens * 2)) with
    | Raised e => Raised e
    | Returned cost =>
        new_RouterDecision PREMIUM
          (Py.dict_get (models policy) "premium" "claude-sonnet-4-20250514")
          "Sensitivity=high triggers premium tier per policy"
          (Py.decimal 95 100) 2 cost
    end
  else if (context_threshold_tokens policy <? total_tokens)
          && context_overflow_escalate (escalation_rules policy)
  then
    match estimate_cost "market" (TokInt (total_tokens * 2)) with
    | Raised e => Raised e
    | Returned cost =>
        new_RouterDecision MARKET
          (Py.dict_get (models policy) "market"
             "meta-llama/llama-3.1-70b-instruct")
          ("Context size (" ++ Py.str_int total_tokens
             ++ " tokens) exceeds threshold ("
             ++ Py.str_int (context_threshold_tokens policy)
             ++ "), escalating to market tier")
          (Py.decimal 85 100) 1 cost
    end
  else
    match Py.int_of_float
            (Py.fmul (local_ratio policy) (Py.decimal 100 1)) with
    | Raised e => Raised e
    | Returned percent =>
        new_RouterDecision LOCAL
          (Py.dict_get (models policy) "local" "llama3.1:8b")
          ("Default routing to local tier (" ++ Py.str_int percent
             ++ "% local policy)")
          (Py.decimal 90 100) 0 zero
    end.

(** ** The world outside the process *)

(** How [json.loads] on a [str] ends: with the decoded value, with
    [json.JSONDecodeError], or with another exception (a
    [RecursionError] on text nested too deep, a [ValueError] on an
    integer too long to convert), given with its text. *)
Inductive Loaded : Type :=
| Parsed (v : Json)
| JSONDecodeError
| LoadsError (e : PyError) (message : string).

(** The parser belongs to the Python library, not to the service, so the
    development is parametric in it; [PyJson.loads] below is an instance
    used to run examples. *)
Class JsonLoads : Type := json_loads : string -> Loaded.

(** What an adapter's [generate] returns (a dict with these five keys). *)
Record AttemptResult : Type := {
  a_success : bool;
  a_output : Json;
  a_latency_ms : Z;
  a_token_count : TokenCount;
  a_error : option string
}.

Inductive Backend : Type := Ollama | OpenRouter | Anthropic.

(** One POST to a backend: the model and the messages of the payload. *)
Record HttpRequest : Type := {
  rq_backend : Backend;
  rq_model : string;
  rq_system : option string;
  rq_user : string
}.

(** How a POST ends, as the adapter's [try] block sees it.  [latency] is
    the adapter's own measurement in milliseconds.  [Response] carries the
    status, the body text, and for a 200 body the message content and the
    token count read out of it, with [late], the measurement the handler
    takes when decoding the content raises; a 200 body that cannot be
    read that way (a content that is no [str], usage fields that cannot
    be added) makes the adapter raise, which is [OtherException] with
    the exception's message. *)
Inductive HttpOutcome : Type :=
| Response (latency status : Z) (text content : string)
    (token_count : TokenCount) (late : Z)
| TimeoutException (latency : Z)
| OtherException (latency : Z) (message : string).

(** One row of [router_events], as [db.log_event] receives it.  The
    [response_preview] column, a printed prefix of the output, is left
    out. *)
Record Event : Type := {
  ev_task_id : string;
  ev_decision_id : option string;
  ev_type : string;
  ev_tier : string;
  ev_model : string;
  ev_success : bool;
  ev_latency_ms : Z;
  ev_token_count : TokenCount;
  ev_error_message : option string
}.

(** One row of [router_tasks], inserted with status [received]; the
    payload is the dict the caller builds. *)
Record TaskRow : Type := {
  t_task_type : string;
  t_payload : Py.dict Json;
  t_source : string;
  t_sensitivity : string
}.

(** The writes of [supabase_logger.py].  Each is best effort: the call is
    recorded whether or not the registry stores it. *)
Inductive DbWrite : Type :=
| InsertTask (row : TaskRow)
| PatchTaskStatus (task : string) (status : string)
| InsertDecision (task : string) (d : RouterDecision)
    (policy_snapshot : RoutingPolicy) (governance_level : string)
| InsertEvent (e : Event).

(** Everything the process reads from outside: the settings, the
    backends' answers (to a request, given how many requests were issued
    before it), what the registry returns, and the UUID minted when the
    task insert fails. *)
Record Env : Type := {
  OPENROUTER_API_KEY : string;
  ANTHROPIC_API_KEY : string;
  backend : HttpRequest -> nat -> HttpOutcome;
  registry_policy : option RoutingPolicy;
  registry_governance : option Governance;
  inserted_task_id : option string;
  inserted_decision_id : option string;
  uuid4 : string
}.

(** The effects so far, newest first.  [attempted] is ghost state: the
    chain position of every adapter call the fallback executor made. *)
Record World : Type := {
  db_writes : list DbWrite;
  http_requests : list HttpRequest;
  attempted : list nat
}.

Definition empty_World : World :=
  {| db_writes := []; http_requests := []; attempted := [] |}.

(** Awaited code: a function of the world that returns a value and the
    world after it. *)
Definition IO (A : Type) : Type := World -> A * World.

Definition ret {A : Type} (a : A) : IO A := fun w => (a, w).

Definition bind {A B : Type} (c : IO A) (k : A -> IO B) : IO B :=
  fun w => let (a, w') := c w in k a w'.

Notation "x <- c ;; k" := (bind c (fun x => k))
  (at level 61, c at next level, right associativity).
Notation "c ;;; k" := (bind c (fun _ => k))
  (at level 61, right associativity).

Definition db_write (x : DbWrite) : IO unit :=
  fun w => (tt, {| db_writes := x :: db_writes w;
                   http_requests := http_requests w;
                   attempted := attempted w |}).

Definition ghost_attempt (tier_idx : nat) : IO unit :=
  fun w => (tt, {| db_writes := db_writes w;
                   http_requests := http_requests w;
                   attempted := tier_idx :: attempted w |}).

(** The events among the registry writes, newest first. *)
Fixpoint events_of (l : list DbWrite) : list Event :=
  match l with
  | [] => []
  | InsertEvent e :: l' => e :: events_of l'
  | _ :: l' => events_of l'
  end.

Section Service.

Context {JL : JsonLoads}.
Variable env : Env.

(** *** supabase_logger.py *)

Definition get_routing_policy : IO RoutingPolicy :=
  ret (match registry_policy env with
       | Some p => p
       | None => default_RoutingPolicy
       end).

Definition get_governance : IO Governance :=
  ret (match registry_governance env with
       | Some g => g
       | None => default_Governance
       end).

Definition log_task (task_type : string) (payload : Py.dict Json)
    (source : string) (sensitivity : Sensitivity) : IO (option string) :=
  db_write (InsertTask {| t_task_type := task_type;
                          t_payload := payload;
                          t_source := source;
                          t_sensitivity := Sensitivity_value sensitivity |}) ;;;
  ret (inserted_task_id env).

Definition update_task_status (task_id status : string) : IO unit :=
  db_write (PatchTaskStatus task_id status).

Definition log_decision (task_id : string) (decision : RouterDecision)
    (policy_snapshot : RoutingPolicy) (governance_level : string)
    : IO (option string) :=
  db_write (InsertDecision task_id decision policy_snapshot governance_level) ;;;
  ret (inserted_decision_id env).

Definition log_event (task_id : string) (decision_id : option string)
    (event_type tier model : string) (success : bool)
    (latency_ms : Z) (token_count : TokenCount)
    (error_message : option string) : IO unit :=
  db_write (InsertEvent
    {| ev_task_id := task_id;
       ev_decision_id := decision_id;
       ev_type := event_type;
       ev_tier := tier;
       ev_model := model;
       ev_success := success;
       ev_latency_ms := latency_ms;
       ev_token_count := token_count;
       ev_error_message := error_message |}).

(** *** adapters *)

Definition http_post (rq : HttpRequest) : IO HttpOutcome :=
  fun w => (backend env rq (List.length (http_requests w)),
            {| db_writes := db_writes w;
               http_requests := rq :: http_requests w;
               attempted := attempted w |}).

Definition newline : string := String (ascii_of_nat 10) "".

(** The user message: the prompt, behind the context when there is one. *)
Definition user_content (prompt : string) (context : option string)
    : string :=
  match context with
  | Some c =>
      if Py.truthy c
      then "Context:" ++ newline ++ c ++ newline ++ newline
             ++ "Task:" ++ newline ++ prompt
      else prompt
  | None => prompt
  end.

Definition failed (latency : Z) (message : string) : AttemptResult :=
  {| a_success := false;
     a_output := JNull;
     a_latency_ms := latency;
     a_token_count := TokInt 0;
     a_error := Some message |}.

(** The tail shared by the three adapters once the POST has ended:
    [provider] is the name used in the error messages.  The inner [try]
    catches the decode error only; anything else [json.loads] raises is
    caught by the handler of the whole body. *)
Definition read_outcome (provider : string) (o : HttpOutcome)
    : AttemptResult :=
  match o with
  | Response latency status text content token_count late =>
      if negb (status =? 200)
      then failed latency
             (provider ++ " returned " ++ Py.str_int status ++ ": "
                ++ String.substring 0 200 text)
      else
        match json_loads content with
        | Parsed parsed =>
            {| a_success := true;
               a_output := parsed;
               a_latency_ms := latency;
               a_token_count := token_count;
               a_error := None |}
        | JSONDecodeError =>
            {| a_success := true;
               a_output := JString content;
               a_latency_ms := latency;
               a_token_count := token_count;
               a_error := None |}
        | LoadsError _ message => failed late message
        end
  | TimeoutException latency =>
      failed latency (provider ++ " request timed out")
  | OtherException latency message => failed latency message
  end.

Definition OllamaAdapter_generate (prompt model : string)
    (context system_prompt : option string) : IO AttemptResult :=
  o <- http_post {| rq_backend := Ollama;
                    rq_model := model;
                    rq_system := if Py.truthy_opt system_prompt
                                 then system_prompt else None;
                    rq_user := user_content prompt context |} ;;
  ret (read_outcome "Ollama" o).

Definition OpenRouterAdapter_is_configured : bool :=
  Py.truthy (OPENROUTER_API_KEY env).

Definition OpenRouterAdapter_generate (prompt model : string)
    (context system_prompt : option string) : IO AttemptResult :=
  if negb OpenRouterAdapter_is_configured
  then ret (failed 0 "OPENROUTER_API_KEY not configured")
  else
    o <- http_post {| rq_backend := OpenRouter;
                      rq_model := model;
                      rq_system := if Py.truthy_opt system_prompt
                                   then system_prompt else None;
                      rq_user := user_content prompt context |} ;;
    ret (read_outcome "OpenRouter" o).

Definition ClaudeAdapter_is_configured : bool :=
  Py.truthy (ANTHROPIC_API_KEY env).

Definition ClaudeAdapter_generate (prompt model : string)
    (context system_prompt : option string) : IO AttemptResult :=
  if negb ClaudeAdapter_is_configured
  then ret (failed 0 "ANTHROPIC_API_KEY not configured")
  else
    o <- http_post {| rq_backend := Anthropic;
                      rq_model := model;
                      rq_system := if Py.truthy_opt system_prompt
                                   then system_prompt else None;
                      rq_user := user_content prompt context |} ;;
    ret (read_outcome "Claude" o).

(** *** router_engine.py: execution with fallback *)

Definition execute_on_tier (tier : Tier) (model prompt : string)
    (context : option string) : IO AttemptResult :=
  match tier with
  | LOCAL => OllamaAdapter_generate prompt model context (Some SYSTEM_PROMPT)
  | MARKET => OpenRouterAdapter_generate prompt model context (Some SYSTEM_PROMPT)
  | PREMIUM => ClaudeAdapter_generate prompt model context (Some SYSTEM_PROMPT)
  end.

(** The [except] clause catches the decode error and [TypeError]; any
    other exception of [json.loads] leaves the function. *)
Definition _is_valid_json_output (output : Json) : Outcome bool :=
  match output with
  | JDict _ | JList _ => Returned true
  | JString s =>
      match json_loads s with
      | Parsed _ => Returned true
      | JSONDecodeError => Returned false
      | LoadsError TypeError _ => Returned false
      | LoadsError e _ => Raised e
      end
  | _ => Returned false
  end.

(** The local variables of [run_with_fallback] that outlive one
    attempt. *)
Record Locals : Type := {
  l_local_fail_count : Z;
  l_last_error : option string;
  l_total_latency : Z
}.

(** How a loop body, or a whole loop, hands control back: it ran to its
    end, it left the loop with [break], the function returned, or an
    exception escaped. *)
Inductive Flow : Type :=
| Continue (l : Locals)
| Break (l : Locals)
| Return (r : RouterResult)
| Raise (e : PyError).

(** The first position of [t] in the chain, counted from [i]; 0 when it
    does not occur. *)
Fixpoint find_start (t : Tier) (chain : list Tier) (i : nat) : nat :=
  match chain with
  | [] => 0%nat
  | t' :: chain' => if Tier_eqb t' t then i else find_start t chain' (S i)
  end.

Section Fallback.

(** The parameters of [run_with_fallback]; its [governance]
    parameter is never read and is left out. *)
Variables (request : RunRequest) (policy : RoutingPolicy)
          (decision : RouterDecision)
          (task_id : string) (decision_id : option string).

Definition start_idx : nat :=
  find_start (route decision) (fallback_chain policy) 0.

(** What the loops compute per tier. *)
Definition model_for (tier : Tier) : string :=
  Py.dict_get (models policy) (Tier_value tier) (model decision).

Definition max_attempts (tier : Tier) : Z :=
  if Tier_eqb tier LOCAL then max_local_retries policy else 1.

Definition escalation_at (tier_idx : nat) : Z :=
  Z.of_nat tier_idx - Z.of_nat start_idx.

(** The call [RouterDecision(...)] under [# Success]: its arguments are
    evaluated in order, the confidence before the cost estimate, and the
    constructor validates them. *)
Definition final_decision (tier : Tier) (tier_idx : nat)
    (token_count : TokenCount) : Outcome RouterDecision :=
  let escalation := escalation_at tier_idx in
  match Py.float_of_int escalation with
  | Raised e => Raised e
  | Returned steps =>
      let lowered :=
        Py.fsub (confidence decision)
          (Py.fmul steps (Py.decimal 15 100)) in
      match estimate_cost (Tier_value tier) token_count with
      | Raised e => Raised e
      | Returned cost =>
          new_RouterDecision tier (model_for tier)
            (reason decision
               ++ (if 0 <? escalation
                   then "; escalated " ++ Py.str_int escalation ++ "x"
                   else ""))
            (Py.max (Py.decimal 5 10) lowered)
            escalation cost
      end
  end.

(** The block under [# Success]. *)
Definition accept (tier : Tier) (tier_idx : nat) (result : AttemptResult)
    (total_latency : Z) : IO Flow :=
  match final_decision tier tier_idx (a_token_count result) with
  | Raised e => ret (Raise e)
  | Returned final =>
      update_task_status task_id "completed" ;;;
      ret (Return {| res_task_id := task_id;
                     res_decision := final;
                     res_output := a_output result;
                     res_success := true;
                     res_tier_used := tier;
                     res_model_used := model_for tier;
                     res_latency_ms := total_latency;
                     res_error := None |})
  end.

(** One pass through the body of [for attempt in range(max_attempts)].
    The gate is called on every successful result, whatever the policy;
    the policy decides what an invalid output leads to. *)
Definition attempt (tier : Tier) (tier_idx : nat) (loc : Locals)
    : IO Flow :=
  let tier_model := model_for tier in
  result <- execute_on_tier tier tier_model (prompt request)
              (context request) ;;
  ghost_attempt tier_idx ;;;
  let total_latency := l_total_latency loc + a_latency_ms result in
  log_event task_id decision_id "execution" (Tier_value tier) tier_model
    (a_success result) (a_latency_ms result) (a_token_count result)
    (a_error result) ;;;
  if a_success result then
    match _is_valid_json_output (a_output result) with
    | Raised e => ret (Raise e)
    | Returned valid =>
        if negb valid && invalid_json_escalate (escalation_rules policy)
        then
          log_event task_id decision_id "invalid_json_escalation"
            (Tier_value tier) tier_model false 0 (TokInt 0)
            (Some "Output is not valid JSON") ;;;
          ret (Break {| l_local_fail_count := l_local_fail_count loc;
                        l_last_error := Some "Invalid JSON output";
                        l_total_latency := total_latency |})
        else accept tier tier_idx result total_latency
    end
  else
    ret (Continue
           {| l_local_fail_count :=
                if Tier_eqb tier LOCAL
                then l_local_fail_count loc + 1
                else l_local_fail_count loc;
              l_last_error := a_error result;
              l_total_latency := total_latency |}).

(** [for attempt in range(n)] *)
Fixpoint attempts (n : nat) (tier : Tier) (tier_idx : nat)
    (loc : Locals) : IO Flow :=
  match n with
  | O => ret (Continue loc)
  | S n' =>
      f <- attempt tier tier_idx loc ;;
      match f with
      | Continue loc' => attempts n' tier tier_idx loc'
      | _ => ret f
      end
  end.

(** The code after the attempt loop of one tier. *)
Definition after_attempts (tier : Tier) (loc : Locals) : IO unit :=
  if Tier_eqb tier LOCAL
     && (local_fail_count (escalation_rules policy)
           <=? l_local_fail_count loc)
  then
    log_event task_id decision_id "escalation" (Tier_value tier)
      (model_for tier) false 0 (TokInt 0)
      (Some ("Local failed " ++ Py.str_int (l_local_fail_count loc)
               ++ " times"))
  else ret tt.

(** [for tier_idx in range(tier_idx, len(chain))], over the tiers
    [rest] still ahead. *)
Fixpoint tiers (rest : list Tier) (tier_idx : nat) (loc : Locals)
    : IO Flow :=
  match rest with
  | [] => ret (Continue loc)
  | tier :: rest' =>
      f <- attempts (Py.range_len (max_attempts tier)) tier tier_idx loc ;;
      match f with
      | Continue loc' | Break loc' =>
          after_attempts tier loc' ;;;
          tiers rest' (S tier_idx) loc'
      | _ => ret f
      end
  end.

Definition exhausted (loc : Locals) : RouterResult :=
  {| res_task_id := task_id;
     res_decision := decision;
     res_output := JNull;
     res_success := false;
     res_tier_used := route decision;
     res_model_used := model decision;
     res_latency_ms := l_total_latency loc;
     res_error := Some ("All tiers exhausted. Last error: "
                          ++ Py.str_opt (l_last_error loc)) |}.

Definition run_with_fallback : IO (Outcome RouterResult) :=
  f <- tiers (skipn start_idx (fallback_chain policy)) start_idx
         {| l_local_fail_count := 0;
            l_last_error := None;
            l_total_latency := 0 |} ;;
  match f with
  | Return r => ret (Returned r)
  | Raise e => ret (Raised e)
  | Continue loc | Break loc =>
      update_task_status task_id "failed" ;;;
      ret (Returned (exhausted loc))
  end.

End Fallback.

(** *** router_engine.py: the /run pipeline *)

(** The payload of the task row of a /run request. *)
Definition run_payload (request : RunRequest) : Py.dict Json :=
  [("prompt", JString (String.substring 0 500 (prompt request)));
   ("context_length",
    JNumber (Py.str_int (Py.len (Py.or_empty (context request)))));
   ("sensitivity", JString (Sensitivity_value (sensitivity request)));
   ("source", JString (source request));
   ("metadata", JDict (metadata request))].

Definition handle_run (request : RunRequest) : IO (Outcome RouterResult) :=
  policy <- get_routing_policy ;;
  governance <- get_governance ;;
  logged <- log_task (task_type request) (run_payload request)
              (source request) (sensitivity request) ;;
  let task_id := if Py.truthy_opt logged
                 then Py.or_empty logged
                 else uuid4 env in
  update_task_status task_id "routing" ;;;
  match compute_decision request policy governance with
  | Raised e => ret (Raised e)
  | Returned decision =>
      decision_id <- log_decision task_id decision policy (level governance) ;;
      update_task_status task_id "executing" ;;;
      result <- run_with_fallback request policy decision
                  task_id decision_id ;;
      match result with
      | Raised e => ret (Raised e)
      | Returned result =>
          log_event task_id decision_id "final_result"
            (Tier_value (res_tier_used result)) (res_model_used result)
            (res_success result) (res_latency_ms result) (TokInt 0)
            (res_error result) ;;;
          ret (Returned result)
      end
  end.

End Service.

(** ** An instance of [json.loads]

    The decoder of Python's [json] module on a [str] whose characters and
    [\u] escapes stay below code point 256 (an escape beyond that has no
    character in a [string] and is refused here).  The grammar is the
    module's: the four whitespace characters, [null], [true], [false],
    numbers with optional fraction and exponent, [NaN], [Infinity] and
    [-Infinity], strings without raw control characters, arrays, and
    objects whose repeated key keeps its first position and its last
    value.  Two limits of the interpreter are parameters of the decoder:
    [room], the number of arrays and objects that may be open at once
    before the recursion limit is met, and [max_str_digits], the longest
    integer literal that [int] converts. *)
Module PyJson.

(** How a scan ends: with what it read, on malformed text, or with an
    exception that is not the decode error. *)
Inductive Scan (A : Type) : Type :=
| Found (a : A)
| Malformed
| Refused (e : PyError) (message : string).

Arguments Found {A} a.
Arguments Malformed {A}.
Arguments Refused {A} e message.

Definition is_ws (c : ascii) : bool :=
  let n := nat_of_ascii c in
  ((n =? 32) || (n =? 9) || (n =? 10) || (n =? 13))%nat.

Fixpoint skip_ws (s : string) : string :=
  match s with
  | String c r => if is_ws c then skip_ws r else s
  | EmptyString => s
  end.

Fixpoint strip_prefix (p s : string) : option string :=
  match p, s with
  | EmptyString, _ => Some s
  | String a p', String b s' =>
      if (a =? b)%char then strip_prefix p' s' else None
  | String _ _, EmptyString => None
  end.

Definition is_digit (c : ascii) : bool :=
  let n := nat_of_ascii c in ((48 <=? n) && (n <=? 57))%nat.

(** The longest prefix of digits, and what follows it. *)
Fixpoint span_digits (s : string) : string * string :=
  match s with
  | String c r =>
      if is_digit c
      then let (ds, rest) := span_digits r in (String c ds, rest)
      else (EmptyString, s)
  | EmptyString => (EmptyString, s)
  end.

Definition hex_value (c : ascii) : option nat :=
  let n := nat_of_ascii c in
  if ((48 <=? n) && (n <=? 57))%nat then Some (n - 48)%nat
  else if ((65 <=? n) && (n <=? 70))%nat then Some (n - 55)%nat
  else if ((97 <=? n) && (n <=? 102))%nat then Some (n - 87)%nat
  else None.

(** The character of a one-letter escape. *)
Definition escape_char (c : ascii) : option ascii :=
  let n := nat_of_ascii c in
  if (n =? 34)%nat then Some c                       (* quote *)
  else if (n =? 92)%nat then Some c                  (* backslash *)
  else if (n =? 47)%nat then Some c                  (* slash *)
  else if (n =? 98)%nat then Some (ascii_of_nat 8)   (* b *)
  else if (n =? 102)%nat then Some (ascii_of_nat 12) (* f *)
  else if (n =? 110)%nat then Some (ascii_of_nat 10) (* n *)
  else if (n =? 114)%nat then Some (ascii_of_nat 13) (* r *)
  else if (n =? 116)%nat then Some (ascii_of_nat 9)  (* t *)
  else None.

(** The body of a string, after its opening quote: the decoded text and
    what follows the closing quote. *)
Fixpoint scan_string (s : string) : option (string * string) :=
  match s with
  | EmptyString => None
  | String c r =>
      let n := nat_of_ascii c in
      if (n =? 34)%nat then Some (EmptyString, r)
      else if (n =? 92)%nat then
        match r with
        | String e r1 =>
            if (nat_of_ascii e =? 117)%nat then
              match r1 with
              | String h1 (String h2 (String h3 (String h4 r2))) =>
                  match hex_value h1, hex_value h2,
                        hex_value h3, hex_value h4 with
                  | Some 0%nat, Some 0%nat, Some a, Some b =>
                      match scan_string r2 with
                      | Some (str, rest) =>
                          Some (String (ascii_of_nat (16 * a + b)) str, rest)
                      | None => None
                      end
                  | _, _, _, _ => None
                  end
              | _ => None
              end
            else
              match escape_char e with
              | Some x =>
                  match scan_string r1 with
                  | Some (str, rest) => Some (String x str, rest)
                  | None => None
                  end
              | None => None
              end
        | EmptyString => None
        end
      else if (n <? 32)%nat then None
      else
        match scan_string r with
        | Some (str, rest) => Some (String c str, rest)
        | None => None
        end
  end.

(** The optional fraction: a dot and at least one digit. *)
Definition scan_fraction (s : string) : string * string :=
  match s with
  | String c r =>
      if (nat_of_ascii c =? 46)%nat then
        match span_digits r with
        | (EmptyString, _) => (EmptyString, s)
        | (ds, rest) => (String c ds, rest)
        end
      else (EmptyString, s)
  | EmptyString => (EmptyString, s)
  end.

(** The optional exponent: [e] or [E], an optional sign, and at least
    one digit. *)
Definition scan_exponent (s : string) : string * string :=
  match s with
  | String c r =>
      if ((nat_of_ascii c =? 101) || (nat_of_ascii c =? 69))%nat then
        let (sign, r1) :=
          match r with
          | String g r' =>
              if ((nat_of_ascii g =? 43) || (nat_of_ascii g =? 45))%nat
              then (String g EmptyString, r')
              else (EmptyString, r)
          | EmptyString => (EmptyString, r)
          end in
        match span_digits r1 with
        | (EmptyString, _) => (EmptyString, s)
        | (ds, rest) => (String c (sign ++ ds), rest)
        end
      else (EmptyString, s)
  | EmptyString => (EmptyString, s)
  end.

(** An optional minus sign, then a single zero or a digit string that
    does not start with zero, then the two optional groups: the literal
    matched, what follows it, and for a literal without fraction and
    exponent the number of its digits. *)
Definition scan_number (s : string) : option (string * string * option nat) :=
  let (sign, s1) :=
    match s with
    | String c r =>
        if (nat_of_ascii c =? 45)%nat
        then (String c EmptyString, r) else (EmptyString, s)
    | EmptyString => (EmptyString, s)
    end in
  let int_part :=
    match s1 with
    | String c r =>
        if (nat_of_ascii c =? 48)%nat then Some (String c EmptyString, r)
        else if is_digit c then Some (span_digits s1)
        else None
    | EmptyString => None
    end in
  match int_part with
  | None => None
  | Some (ds, s2) =>
      let (frac, s3) := scan_fraction s2 in
      let (exp, s4) := scan_exponent s3 in
      Some (sign ++ ds ++ frac ++ exp, s4,
            match frac, exp with
            | EmptyString, EmptyString => Some (String.length ds)
            | _, _ => None
            end)
  end.

(** [d[k] = v] *)
Fixpoint dict_set (d : list (string * Json)) (k : string) (v : Json)
    : list (string * Json) :=
  match d with
  | [] => [(k, v)]
  | (k', v') :: d' =>
      if (k' =? k)%string then (k, v) :: d' else (k', v') :: dict_set d' k v
  end.

(** What [int] says of a literal of more than [max_str_digits]
    digits. *)
Definition too_many_digits (max_str_digits n : nat) : string :=
  "Exceeds the limit (" ++ Py.str_int (Z.of_nat max_str_digits)
    ++ " digits) for integer string conversion: value has "
    ++ Py.str_int (Z.of_nat n)
    ++ " digits; use sys.set_int_max_str_digits() to increase the limit".

Definition too_deep (what : string) : string :=
  "maximum recursion depth exceeded while decoding a JSON " ++ what
    ++ " from a unicode string".

Definition keyword (max_str_digits : nat) (s : string)
    : Scan (Json * string) :=
  match strip_prefix "null" s with
  | Some r => Found (JNull, r)
  | None =>
  match strip_prefix "true" s with
  | Some r => Found (JBool true, r)
  | None =>
  match strip_prefix "false" s with
  | Some r => Found (JBool false, r)
  | None =>
  match scan_number s with
  | Some (lit, r, Some n) =>
      if (max_str_digits <? n)%nat
      then Refused ValueError (too_many_digits max_str_digits n)
      else Found (JNumber lit, r)
  | Some (lit, r, None) => Found (JNumber lit, r)
  | None =>
  match strip_prefix "NaN" s with
  | Some r => Found (JNumber "NaN", r)
  | None =>
  match strip_prefix "Infinity" s with
  | Some r => Found (JNumber "Infinity", r)
  | None =>
  match strip_prefix "-Infinity" s with
  | Some r => Found (JNumber "-Infinity", r)
  | None => Malformed
  end end end end end end end.

Section Decoder.

Variables (max_str_digits : nat).

(** One value at the head of [s], and what follows it, with [room] for
    that many containers inside one another.  [elements] and [members]
    read the rest of an array and of an object once the first item is
    known to be there; [acc] holds the items read so far. *)
Fixpoint value (fuel : nat) (room : nat) (s : string) {struct fuel}
    : Scan (Json * string) :=
  match fuel with
  | O => Malformed
  | S fuel' =>
      match s with
      | EmptyString => Malformed
      | String c r =>
          let n := nat_of_ascii c in
          if (n =? 34)%nat then
            match scan_string r with
            | Some (str, rest) => Found (JString str, rest)
            | None => Malformed
            end
          else if (n =? 123)%nat then
            match room with
            | O => Refused RecursionError (too_deep "object")
            | S room' =>
                match skip_ws r with
                | String c' r' =>
                    if (nat_of_ascii c' =? 125)%nat
                    then Found (JDict [], r')
                    else members fuel' room' (skip_ws r) []
                | EmptyString => Malformed
                end
            end
          else if (n =? 91)%nat then
            match room with
            | O => Refused RecursionError (too_deep "array")
            | S room' =>
                match skip_ws r with
                | String c' r' =>
                    if (nat_of_ascii c' =? 93)%nat
                    then Found (JList [], r')
                    else elements fuel' room' (skip_ws r) []
                | EmptyString => Malformed
                end
            end
          else keyword max_str_digits s
      end
  end
with elements (fuel : nat) (room : nat) (s : string) (acc : list Json)
    {struct fuel} : Scan (Json * string) :=
  match fuel with
  | O => Malformed
  | S fuel' =>
      match value fuel' room s with
      | Malformed => Malformed
      | Refused e m => Refused e m
      | Found (v, rest) =>
          match skip_ws rest with
          | String c r =>
              if (nat_of_ascii c =? 44)%nat
              then elements fuel' room (skip_ws r) (v :: acc)
              else if (nat_of_ascii c =? 93)%nat
              then Found (JList (rev (v :: acc)), r)
              else Malformed
          | EmptyString => Malformed
          end
      end
  end
with members (fuel : nat) (room : nat) (s : string)
    (acc : list (string * Json)) {struct fuel} : Scan (Json * string) :=
  match fuel with
  | O => Malformed
  | S fuel' =>
      match s with
      | String q r =>
          if (nat_of_ascii q =? 34)%nat then
            match scan_string r with
            | None => Malformed
            | Some (key, rest) =>
                match skip_ws rest with
                | String c r1 =>
                    if (nat_of_ascii c =? 58)%nat then
                      match value fuel' room (skip_ws r1) with
                      | Malformed => Malformed
                      | Refused e m => Refused e m
                      | Found (v, rest') =>
                          match skip_ws rest' with
                          | String c' r2 =>
                              if (nat_of_ascii c' =? 44)%nat
                              then members fuel' room (skip_ws r2)
                                     (dict_set acc key v)
                              else if (nat_of_ascii c' =? 125)%nat
                              then Found (JDict (dict_set acc key v), r2)
                              else Malformed
                          | EmptyString => Malformed
                          end
                      end
                    else Malformed
                | EmptyString => Malformed
                end
            end
          else Malformed
      | EmptyString => Malformed
      end
  end.

End Decoder.

(** [json.loads(s)]: one value, whitespace around it, nothing else. *)
Definition loads_with (room max_str_digits : nat) (s : string) : Loaded :=
  match value max_str_digits (2 * String.length s + 2) room (skip_ws s) with
  | Found (v, rest) =>
      match skip_ws rest with
      | EmptyString => Parsed v
      | String _ _ => JSONDecodeError
      end
  | Malformed => JSONDecodeError
  | Refused e message => LoadsError e message
  end.

(** The decoder of an interpreter with the default limit of 4300 digits
    and room for 900 containers when [json.loads] is called. *)
Definition loads : string -> Loaded := loads_with 900 4300.

End PyJson.

(** ** Reading the audit trail *)

(** The registry writes made between two worlds, newest first. *)
Definition emitted (w w' : World) : list DbWrite :=
  firstn (List.length (db_writes w') - List.length (db_writes w)) (db_writes w').

Definition has_type (event_type : string) (e : Event) : bool :=
  (ev_type e =? event_type)%string.

Definition is_execution_on (tier : string) (e : Event) : bool :=
  has_type "execution" e && (ev_tier e =? tier)%string.

(** How many events of a type, and how many [execution] events on a
    tier, a list of writes holds. *)
Definition count_type (event_type : string) (l : list DbWrite) : nat :=
  List.length (filter (has_type event_type) (events_of l)).

Definition count_execution (tier : string) (l : list DbWrite) : nat :=
  List.length (filter (is_execution_on tier) (events_of l)).

(** The value of [last_error] after the events [evs] (newest first), when
    it was [prev] before them: the error of the latest failed attempt, or
    the JSON gate's message when the gate spoke later. *)
Fixpoint last_error_after (prev : option string) (evs : list Event)
    : option string :=
  match evs with
  | [] => prev
  | e :: older =>
      if has_type "invalid_json_escalation" e
      then Some "Invalid JSON output"
      else if has_type "execution" e && negb (ev_success e)
      then ev_error_message e
      else last_error_after prev older
  end.

(** The rate of a tier in [COST_PER_1K]. *)
Definition rate (tier : Tier) : Py.float :=
  Py.dict_get COST_PER_1K (Tier_value tier) zero.

(** The token estimate the decision engine compares with the threshold. *)
Definition estimated_total (request : RunRequest) : Z :=
  Z.max 1 (Py.len (prompt request) / 4)
  + Z.max 1 (Py.len (Py.or_empty (context request)) / 4).

(** The texts of a request are Python strings, of at most
    [sys.maxsize] characters. *)
Definition RunRequest_sized (request : RunRequest) : Prop :=
  Py.len (prompt request) <= Py.maxsize
  /\ Py.len (Py.or_empty (context request)) <= Py.maxsize.

(** A mapping or a sequence. *)
Definition is_container (v : Json) : bool :=
  match v with
  | JDict _ | JList _ => true
  | _ => false
  end.

(** ** The rows and the results the executor builds

    Names for the values that [run_with_fallback] writes and returns, so
    that statements about a run can mention them. *)

Section Built.

Context {JL : JsonLoads}.
Variables (policy : RoutingPolicy) (decision : RouterDecision)
          (task_id : string) (decision_id : option string).

(** The [execution] event of an attempt. *)
Definition execution_event (tier : Tier) (result : AttemptResult) : Event :=
  {| ev_task_id := task_id;
     ev_decision_id := decision_id;
     ev_type := "execution";
     ev_tier := Tier_value tier;
     ev_model := model_for policy decision tier;
     ev_success := a_success result;
     ev_latency_ms := a_latency_ms result;
     ev_token_count := a_token_count result;
     ev_error_message := a_error result |}.

(** The event the JSON gate writes when it rejects an output. *)
Definition gate_event (tier : Tier) : Event :=
  {| ev_task_id := task_id;
     ev_decision_id := decision_id;
     ev_type := "invalid_json_escalation";
     ev_tier := Tier_value tier;
     ev_model := model_for policy decision tier;
     ev_success := false;
     ev_latency_ms := 0;
     ev_token_count := TokInt 0;
     ev_error_message := Some "Output is not valid JSON" |}.

(** The success [RouterResult] of an attempt accepted with the final
    Decision [final]. *)
Definition success_result (tier : Tier) (final : RouterDecision)
    (result : AttemptResult) (total_latency : Z) : RouterResult :=
  {| res_task_id := task_id;
     res_decision := final;
     res_output := a_output result;
     res_success := true;
     res_tier_used := tier;
     res_model_used := model_for policy decision tier;
     res_latency_ms := total_latency;
     res_error := None |}.

(** The attempts the chain [rest] allows on the tier named [t]. *)
Fixpoint total_budget (t : string) (rest : list Tier) : nat :=
  match rest with
  | [] => 0%nat
  | tier :: rest' =>
      ((if (Tier_value tier =? t)%string
        then Py.range_len (max_attempts policy tier)
        else 0) + total_budget t rest')%nat
  end.

(** The locals after a failed attempt, and after the gate's rejection. *)
Definition after_failure (tier : Tier) (loc : Locals)
    (result : AttemptResult) : Locals :=
  {| l_local_fail_count :=
       if Tier_eqb tier LOCAL
       then l_local_fail_count loc + 1
       else l_local_fail_count loc;
     l_last_error := a_error result;
     l_total_latency := l_total_latency loc + a_latency_ms result |}.

Definition after_rejection (loc : Locals) (result : AttemptResult) : Locals :=
  {| l_local_fail_count := l_local_fail_count loc;
     l_last_error := Some "Invalid JSON output";
     l_total_latency := l_total_latency loc + a_latency_ms result |}.

(** The locals [run_with_fallback] starts with. *)
Definition initial_locals : Locals :=
  {| l_local_fail_count := 0; l_last_error := None; l_total_latency := 0 |}.

(** The tier at chain position [i], for the part [rest] of the chain that
    starts at position [tier_idx]. *)
Definition tier_at (rest : list Tier) (tier_idx : nat) (i : nat)
    : option Tier :=
  if (tier_idx <=? i)%nat then nth_error rest (i - tier_idx) else None.

(** What a loop hands back, read against the writes [d] it made (newest
    first) and the world [w'] it left: after a normal end or a [break],
    [last_error] is what the audit trail says; after a return, the Result
    is the success Result of an attempt at a position [i] that [tier_of]
    knows, whose execution event and status patch end the trail. *)
Definition flow_post (tier_of : nat -> option Tier) (loc : Locals)
    (d : list DbWrite) (w' : World) (f : Flow) : Prop :=
  match f with
  | Continue loc' | Break loc' =>
      l_last_error loc'
      = last_error_after (l_last_error loc) (events_of d)
  | Return r =>
      exists i tier result lat d' final,
        tier_of i = Some tier /\
        final_decision policy decision tier i (a_token_count result)
        = Returned final /\
        r = success_result tier final result lat /\
        d = (PatchTaskStatus task_id "completed"
               :: InsertEvent (execution_event tier result) :: d')%list /\
        hd_error (attempted w') = Some i
  | Raise _ => True
  end.

End Built.

(** Every backend reports its token usage as an int that is not
    negative and small enough to be divided as a float. *)
Definition tokens_nonneg (env : Env) : Prop :=
  forall rq n latency status text content token_count late,
    backend env rq n
    = Response latency status text content token_count late ->
    exists k, token_count = TokInt k /\ 0 <= k < 2 ^ 1023.

(** No backend answers with a JSON string whose content makes
    [json.loads] raise anything but what the gate catches. *)
Definition gate_catches {JL : JsonLoads} (env : Env) : Prop :=
  forall rq n latency status text content token_count late s e message,
    backend env rq n
    = Response latency status text content token_count late ->
    json_loads content = Parsed (JString s) ->
    json_loads s = LoadsError e message ->
    e = TypeError.

(** The API key a hosted tier needs: the name of its environment variable
    and the value the settings hold for it (empty when the variable is
    absent). *)
Definition api_key (env : Env) (tier : Tier) : option (string * string) :=
  match tier with
  | LOCAL => None
  | MARKET => Some ("OPENROUTER_API_KEY", OPENROUTER_API_KEY env)
  | PREMIUM => Some ("ANTHROPIC_API_KEY", ANTHROPIC_API_KEY env)
  end.

(** ** Stub backends and requests for concrete runs *)

Module Scenario.

Definition dq : string := String "034"%char EmptyString.

Definition quoted (s : string) : string := dq ++ s ++ dq.

(** A 200 answer whose message content is [content]. *)
Definition ok (content : string) (tokens : Z) : HttpOutcome :=
  Response 120 200 EmptyString content (TokInt tokens) 121.

Definition http500 : HttpOutcome :=
  Response 35 500 "Internal Server Error" EmptyString (TokInt 0) 36.

(** Backends stubbed per adapter; the registry cannot be read, so the
    fallback policy and governance apply. *)
Definition stub (local market premium : HttpOutcome) : Env :=
  {| OPENROUTER_API_KEY := "sk-or-test";
     ANTHROPIC_API_KEY := "sk-ant-test";
     backend := fun rq _ =>
       match rq_backend rq with
       | Ollama => local
       | OpenRouter => market
       | Anthropic => premium
       end;
     registry_policy := None;
     registry_governance := None;
     inserted_task_id := Some "task-1";
     inserted_decision_id := Some "decision-1";
     uuid4 := "3f2b8c1e-7a4d-4e59-9b0a-5d6c7e8f9a10" |}.

Definition with_policy (e : Env) (p : RoutingPolicy) : Env :=
  {| OPENROUTER_API_KEY := OPENROUTER_API_KEY e;
     ANTHROPIC_API_KEY := ANTHROPIC_API_KEY e;
     backend := backend e;
     registry_policy := Some p;
     registry_governance := registry_governance e;
     inserted_task_id := inserted_task_id e;
     inserted_decision_id := inserted_decision_id e;
     uuid4 := uuid4 e |}.

(** No API key in the environment: both hosted adapters are
    unconfigured. *)
Definition without_keys (e : Env) : Env :=
  {| OPENROUTER_API_KEY := EmptyString;
     ANTHROPIC_API_KEY := EmptyString;
     backend := backend e;
     registry_policy := registry_policy e;
     registry_governance := registry_governance e;
     inserted_task_id := inserted_task_id e;
     inserted_decision_id := inserted_decision_id e;
     uuid4 := uuid4 e |}.

Definition with_chain (p : RoutingPolicy) (chain : list Tier)
    : RoutingPolicy :=
  {| default_tier := default_tier p;
     local_ratio := local_ratio p;
     max_local_retries := max_local_retries p;
     context_threshold_tokens := context_threshold_tokens p;
     escalation_rules := escalation_rules p;
     premium_trigger := premium_trigger p;
     fallback_chain := chain;
     models := models p |}.


Definition request_hi : RunRequest :=
  {| task_type := "classify";
     prompt := "hi";
     context := None;
     sensitivity := NORMAL;
     source := "n8n";
     metadata := [] |}.

Definition request_leak : RunRequest :=
  {| task_type := "classify";
     prompt := "leak?";
     context := None;
     sensitivity := HIGH;
     source := "n8n";
     metadata := [] |}.

(** The decision the engine takes for [request_hi] under the default
    policy. *)
Definition decision_local : RouterDecision :=
  {| route := LOCAL;
     model := "llama3.1:8b";
     reason := "Default routing to local tier (80% local policy)";
     confidence := Py.decimal 90 100;
     escalation_level := 0;
     cost_estimate := zero |}.

Fixpoint filler (n : nat) : string :=
  match n with
  | O => EmptyString
  | S n' => String "x"%char (filler n')
  end.

(** S3: a one-letter prompt with 20,000 characters of context. *)
Definition request_overflow : RunRequest :=
  {| task_type := "summarize";
     prompt := "x";
     context := Some (filler (Z.to_nat 20000));
     sensitivity := NORMAL;
     source := "n8n";
     metadata := [] |}.

(** The same bulk, marked sensitive. *)
Definition request_leak_overflow : RunRequest :=
  {| task_type := "summarize";
     prompt := "leak?";
     context := Some (filler (Z.to_nat 20000));
     sensitivity := HIGH;
     source := "n8n";
     metadata := [] |}.

Definition greeting : string :=
  "{" ++ quoted "label" ++ ": " ++ quoted "greeting" ++ "}".

Definition all_down : Env := stub http500 http500 http500.

(** S1 to S3: every backend answers with a JSON object. *)
Definition all_up : Env :=
  stub (ok greeting 25)
       (ok ("{" ++ quoted "ans" ++ ": 1}") 5200)
       (ok ("{" ++ quoted "ok" ++ ": true}") 40).

(** S4: the local backend is down, the market backend answers. *)
Definition local_down : Env :=
  stub http500 (ok ("{" ++ quoted "ok" ++ ": 1}") 1234) http500.

(** S5: the local backend answers with text that is not JSON. *)
Definition local_babbles : Env :=
  stub (ok "not json" 17) (ok ("{" ++ quoted "ok" ++ ": 1}") 40) http500.


(** A run of the executor, and a /run request, from an empty world. *)
Definition run (e : Env) (rq : RunRequest) (p : RoutingPolicy)
    (d : RouterDecision) : Outcome RouterResult * World :=
  run_with_fallback (JL := PyJson.loads) e rq p d "task-1"
    (Some "decision-1") empty_World.

Definition serve (e : Env) (rq : RunRequest)
    : Outcome RouterResult * World :=
  handle_run (JL := PyJson.loads) e rq empty_World.

(** A chain that names the market tier twice, and a chain of length
    zero. *)
Definition market_twice : RoutingPolicy :=
  with_chain default_RoutingPolicy [MARKET; MARKET].

Definition no_chain : RoutingPolicy :=
  with_chain default_RoutingPolicy [].

(** The local backend answers with a JSON string whose text is itself
    JSON: the four characters quote, 4, 2, quote. *)
Definition local_quotes : Env :=
  stub (ok (quoted "42") 5) http500 http500.

(** Only the premium backend answers. *)
Definition premium_only : Env :=
  stub http500 http500 (ok ("{" ++ quoted "ok" ++ ": true}") 40).

Fixpoint ones (n : nat) : string :=
  match n with
  | O => EmptyString
  | S n' => String "1"%char (ones n')
  end.

(** The local backend answers with a JSON string of 4,301 digits: the
    adapter decodes it to a string, and the gate's own parse then meets
    an integer literal that [int] refuses to convert. *)
Definition local_long_integer : Env :=
  stub (ok (quoted (ones 4301)) 5) http500 http500.

(** The local backend is down and the market backend answers with a
    usage whose [total_tokens] is null. *)
Definition market_null_usage : Env :=
  stub http500
       (Response 120 200 EmptyString ("{" ++ quoted "ok" ++ ": 1}")
          TokNone 121)
       http500.

End Scenario.


(** * The rest of the service

    The endpoints of [main.py] that the pipeline above does not cover,
    and measures over the audit trail used to state what a run keeps. *)

(** ** main.py: the endpoints *)

(** POST /route: the body. *)
Record RouteRequest : Type := {
  rt_task_type : string;
  rt_prompt : string;
  rt_context : option string;
  rt_sensitivity : Sensitivity
}.

(** What /route answers: the decision, the policy and the governance it
    was taken under. *)
Record RouteResponse : Type := {
  rr_decision : RouterDecision;
  rr_policy_used : RoutingPolicy;
  rr_governance : Governance
}.

(** POST /execute: the body. *)
Record ExecuteRequest : Type := {
  ex_tier : Tier;
  ex_model : option string;
  ex_prompt : string;
  ex_context : option string
}.

(** What /execute answers. *)
Record ExecuteResponse : Type := {
  xr_task_id : string;
  xr_tier : string;
  xr_model : string;
  xr_success : bool;
  xr_output : Json;
  xr_latency_ms : Z;
  xr_token_count : TokenCount;
  xr_error : option string
}.

(** What an endpoint answers: a body, or the [HTTPException] it raises. *)
Inductive HttpReply (A : Type) : Type :=
| Ok200 (body : A)
| HTTPException (status_code : Z) (detail : string).

Arguments Ok200 {A} body.
Arguments HTTPException {A} status_code detail.

(** The [RunRequest] that /route builds from its body: the fields it
    does not pass take the schema's defaults. *)
Definition run_request_of (request : RouteRequest) : RunRequest :=
  {| task_type := rt_task_type request;
     prompt := rt_prompt request;
     context := rt_context request;
     sensitivity := rt_sensitivity request;
     source := "n8n";
     metadata := [] |}.

(** The [Field] constraints of [RouteRequest], and the constructor
    call [RunRequest(...)], which checks those of [RunRequest]. *)
Definition RouteRequest_valid (r : RouteRequest) : bool :=
  (1 <=? Py.len (rt_task_type r)) && (1 <=? Py.len (rt_prompt r)).

Definition new_RunRequest (r : RunRequest) : Outcome RunRequest :=
  if RunRequest_valid r then Returned r else Raised ValidationError.

Section Endpoints.

Context {JL : JsonLoads}.
Variable env : Env.

(** [route]: the decision only. *)
Definition post_route (request : RouteRequest) : IO (Outcome RouteResponse) :=
  policy <- get_routing_policy env ;;
  governance <- get_governance env ;;
  match new_RunRequest (run_request_of request) with
  | Raised e => ret (Raised e)
  | Returned run_req =>
      match compute_decision run_req policy governance with
      | Raised e => ret (Raised e)
      | Returned decision =>
          ret (Returned {| rr_decision := decision;
                           rr_policy_used := policy;
                           rr_governance := governance |})
      end
  end.

(** The model /execute uses: the request's when it names one, else the
    policy's for the tier, else the local default. *)
Definition execute_model (request : ExecuteRequest) : IO string :=
  if Py.truthy_opt (ex_model request)
  then ret (Py.or_empty (ex_model request))
  else
    policy <- get_routing_policy env ;;
    ret (Py.dict_get (models policy) (Tier_value (ex_tier request))
           "llama3.1:8b").

(** The payload of the task row of an /execute request. *)
Definition execute_payload (request : ExecuteRequest) (tier_model : string)
    : Py.dict Json :=
  [("tier", JString (Tier_value (ex_tier request)));
   ("model", JString tier_model);
   ("prompt", JString (String.substring 0 500 (ex_prompt request)))].

(** [execute]: one adapter call on the tier asked for. *)
Definition post_execute (request : ExecuteRequest) : IO ExecuteResponse :=
  tier_model <- execute_model request ;;
  logged <- log_task env "direct_execute"
              (execute_payload request tier_model) "api" NORMAL ;;
  let task_id := if Py.truthy_opt logged
                 then Py.or_empty logged
                 else uuid4 env in
  result <- execute_on_tier env (ex_tier request) tier_model
              (ex_prompt request) (ex_context request) ;;
  log_event task_id None "direct_execution" (Tier_value (ex_tier request))
    tier_model (a_success result) (a_latency_ms result)
    (a_token_count result) (a_error result) ;;;
  update_task_status task_id
    (if a_success result then "completed" else "failed") ;;;
  ret {| xr_task_id := task_id;
         xr_tier := Tier_value (ex_tier request);
         xr_model := tier_model;
         xr_success := a_success result;
         xr_output := a_output result;
         xr_latency_ms := a_latency_ms result;
         xr_token_count := a_token_count result;
         xr_error := a_error result |}.

(** [run]: the pipeline, with any exception turned into a 500 whose
    detail is the exception's text, given by [describe]. *)
Definition post_run (describe : PyError -> string) (request : RunRequest)
    : IO (HttpReply RouterResult) :=
  o <- handle_run env request ;;
  ret (match o with
       | Returned result => Ok200 result
       | Raised e => HTTPException 500 (describe e)
       end).

End Endpoints.

(** ** Measures over the audit trail *)

(** The latencies of the [execution] events, summed. *)
Fixpoint latency_sum (evs : list Event) : Z :=
  match evs with
  | [] => 0
  | e :: older =>
      (if has_type "execution" e then ev_latency_ms e else 0)
      + latency_sum older
  end.

(** The failed attempts on the local tier. *)
Definition is_local_failure (e : Event) : bool :=
  is_execution_on "local" e && negb (ev_success e).

Definition failed_local (evs : list Event) : nat :=
  List.length (filter is_local_failure evs).

(** The status patches among the writes, newest first. *)
Fixpoint patches (l : list DbWrite) : list (string * string) :=
  match l with
  | [] => []
  | PatchTaskStatus t s :: l' => (t, s) :: patches l'
  | _ :: l' => patches l'
  end.

(** A write the fallback executor may make for the task [task_id] and
    the decision [decision_id]: one of its three kinds of event, or the
    patch of the task to a terminal status. *)
Definition executor_write (task_id : string) (decision_id : option string)
    (x : DbWrite) : Prop :=
  match x with
  | InsertEvent e =>
      ev_task_id e = task_id /\ ev_decision_id e = decision_id /\
      (ev_type e = "execution" \/ ev_type e = "invalid_json_escalation"
       \/ (ev_type e = "escalation" /\ ev_tier e = "local"
           /\ ev_success e = false))
  | PatchTaskStatus t s =>
      t = task_id /\ (s = "completed" \/ s = "failed")
  | InsertTask _ | InsertDecision _ _ _ _ => False
  end.

(** Chain positions listed newest first never go back to an earlier
    tier. *)
Definition never_back (positions : list nat) : Prop :=
  StronglySorted (fun newer older => (older <= newer)%nat) positions.

(** The backend behind a tier, and the POST its adapter sends for a
    model, a prompt and a context under the engine's system prompt. *)
Definition backend_of (tier : Tier) : Backend :=
  match tier with
  | LOCAL => Ollama
  | MARKET => OpenRouter
  | PREMIUM => Anthropic
  end.

Definition request_for (tier : Tier) (model prompt : string)
    (context : option string) : HttpRequest :=
  {| rq_backend := backend_of tier;
     rq_model := model;
     rq_system := Some SYSTEM_PROMPT;
     rq_user := user_content prompt context |}.

(** Every [escalation] event among the writes [d] (newest first) has at
    least [threshold] failed local attempts behind it, [before] of them
    older than [d], and says how many. *)
Fixpoint escalations_earned (threshold before : Z) (d : list DbWrite)
    : Prop :=
  match d with
  | [] => True
  | x :: older =>
      match x with
      | InsertEvent e =>
          has_type "escalation" e = true ->
          threshold <= before + Z.of_nat (failed_local (events_of older)) /\
          ev_error_message e
          = Some ("Local failed "
                    ++ Py.str_int
                         (before + Z.of_nat (failed_local (events_of older)))
                    ++ " times")
      | _ => True
      end /\ escalations_earned threshold before older
  end.

(** How often the local tier is named in a chain. *)
Definition local_entries (chain : list Tier) : nat :=
  List.length (filter (fun t => Tier_eqb t LOCAL) chain).

Section Trace.

Context {JL : JsonLoads}.
Variable policy : RoutingPolicy.

(** What the executor's locals and its Result record about the writes
    [d] of a loop that started with the locals [loc]. *)
Definition trace_post (loc : Locals) (d : list DbWrite) (f : Flow)
    : Prop :=
  match f with
  | Continue loc' | Break loc' =>
      l_total_latency loc'
      = l_total_latency loc + latency_sum (events_of d) /\
      l_local_fail_count loc'
      = l_local_fail_count loc + Z.of_nat (failed_local (events_of d))
  | Return r =>
      res_success r = true /\
      res_latency_ms r = l_total_latency loc + latency_sum (events_of d) /\
      (invalid_json_escalate (escalation_rules policy) = true ->
       _is_valid_json_output (res_output r) = Returned true)
  | Raise _ => True
  end.

End Trace.

(** The policy [p] with another [local_fail_count] threshold. *)
Definition with_threshold (p : RoutingPolicy) (n : Z) : RoutingPolicy :=
  {| default_tier := default_tier p;
     local_ratio := local_ratio p;
     max_local_retries := max_local_retries p;
     context_threshold_tokens := context_threshold_tokens p;
     escalation_rules :=
       {| local_fail_count := n;
          invalid_json_escalate :=
            invalid_json_escalate (escalation_rules p);
          context_overflow_escalate :=
            context_overflow_escalate (escalation_rules p) |};
     premium_trigger := premium_trigger p;
     fallback_chain := fallback_chain p;
     models := models p |}.

(** The writes that are not [escalation] events. *)
Fixpoint without_escalations (l : list DbWrite) : list DbWrite :=
  match l with
  | [] => []
  | InsertEvent e :: l' =>
      if has_type "escalation" e
      then without_escalations l'
      else InsertEvent e :: without_escalations l'
  | x :: l' => x :: without_escalations l'
  end.

(** The request [r] with another sensitivity. *)
Definition with_sensitivity (r : RunRequest) (s : Sensitivity) : RunRequest :=
  {| task_type := task_type r;
     prompt := prompt r;
     context := context r;
     sensitivity := s;
     source := source r;
     metadata := metadata r |}.

(** Two worlds that differ at most in the [escalation] events
    written. *)
Definition same_but_escalations (w1 w2 : World) : Prop :=
  http_requests w1 = http_requests w2 /\
  attempted w1 = attempted w2 /\
  without_escalations (db_writes w1) = without_escalations (db_writes w2).

(** What [handle_run] writes around the executor: the task row, and the
    [final_result] event of a Result. *)
Definition task_row (request : RunRequest) : TaskRow :=
  {| t_task_type := task_type request;
     t_payload := run_payload request;
     t_source := source request;
     t_sensitivity := Sensitivity_value (sensitivity request) |}.

(** The task row of an /execute request, for the model [tier_model]. *)
Definition direct_row (request : ExecuteRequest) (tier_model : string)
    : TaskRow :=
  {| t_task_type := "direct_execute";
     t_payload := execute_payload request tier_model;
     t_source := "api";
     t_sensitivity := "normal" |}.

Definition final_result_event (task_id : string)
    (decision_id : option string) (r : RouterResult) : Event :=
  {| ev_task_id := task_id;
     ev_decision_id := decision_id;
     ev_type := "final_result";
     ev_tier := Tier_value (res_tier_used r);
     ev_model := res_model_used r;
     ev_success := res_success r;
     ev_latency_ms := res_latency_ms r;
     ev_token_count := TokInt 0;
     ev_error_message := res_error r |}.

(** The task id a request runs under: the one the registry returns for
    the inserted row, or a fresh UUID when it returns none. *)
Definition task_id_of (env : Env) : string :=
  if Py.truthy_opt (inserted_task_id env)
  then Py.or_empty (inserted_task_id env)
  else uuid4 env.

(** A write made on behalf of the task [task_id] after its row and its
    decision were inserted: a status patch of that task, or an event
    that names it and the decision [decision_id]. *)
Definition belongs_to (task_id : string) (decision_id : option string)
    (x : DbWrite) : Prop :=
  match x with
  | InsertEvent e => ev_task_id e = task_id /\ ev_decision_id e = decision_id
  | PatchTaskStatus t _ => t = task_id
  | InsertTask _ | InsertDecision _ _ _ _ => False
  end.

(** ** Bodies and policies for concrete calls *)

Module Calls.

Definition route_hi : RouteRequest :=
  {| rt_task_type := "preview";
     rt_prompt := "hi";
     rt_context := None;
     rt_sensitivity := NORMAL |}.

Definition execute_hi : ExecuteRequest :=
  {| ex_tier := PREMIUM;
     ex_model := None;
     ex_prompt := "hi";
     ex_context := None |}.

(** The text of an exception of each class, as [str(e)] gives it for
    the places of the pipeline that raise one. *)
Definition describe (e : PyError) : string :=
  match e with
  | ValidationError => "1 validation error for RouterDecision"
  | OverflowError => "cannot convert float infinity to integer"
  | ValueError => "cannot convert float NaN to integer"
  | TypeError => "unsupported operand type(s) for /: 'NoneType' and 'int'"
  | RecursionError => "maximum recursion depth exceeded"
  end.

(** The default policy with another premium trigger, and with another
    context threshold. *)
Definition with_trigger (p : RoutingPolicy) (trigger : string)
    : RoutingPolicy :=
  {| default_tier := default_tier p;
     local_ratio := local_ratio p;
     max_local_retries := max_local_retries p;
     context_threshold_tokens := context_threshold_tokens p;
     escalation_rules := escalation_rules p;
     premium_trigger := trigger;
     fallback_chain := fallback_chain p;
     models := models p |}.

Definition with_local_ratio (p : RoutingPolicy) (ratio : Py.float)
    : RoutingPolicy :=
  {| default_tier := default_tier p;
     local_ratio := ratio;
     max_local_retries := max_local_retries p;
     context_threshold_tokens := context_threshold_tokens p;
     escalation_rules := escalation_rules p;
     premium_trigger := premium_trigger p;
     fallback_chain := fallback_chain p;
     models := models p |}.

(** A registry value of 1e999 for [local_ratio] reads as infinity. *)
Definition ratio_infinite : RoutingPolicy :=
  with_local_ratio default_RoutingPolicy (S754_infinity false).

Definition with_context_threshold (p : RoutingPolicy) (n : Z)
    : RoutingPolicy :=
  {| default_tier := default_tier p;
     local_ratio := local_ratio p;
     max_local_retries := max_local_retries p;
     context_threshold_tokens := n;
     escalation_rules := escalation_rules p;
     premium_trigger := premium_trigger p;
     fallback_chain := fallback_chain p;
     models := models p |}.

Definition never_premium : RoutingPolicy :=
  with_trigger default_RoutingPolicy "never".

Definition threshold_one : RoutingPolicy :=
  with_context_threshold default_RoutingPolicy 1.

(** Another request with the token estimates of [Scenario.request_hi],
    and another governance record. *)
Definition request_hello : RunRequest :=
  {| task_type := "extract";
     prompt := "hello";
     context := Some "abc";
     sensitivity := NORMAL;
     source := "api";
     metadata := [("k", JNull)] |}.

Definition strict_governance : Governance :=
  {| level := "strict";
     require_audit := false;
     require_explanation := false;
     max_cost_per_request := zero;
     premium_approval_required := true |}.

(** A prompt of 600 characters. *)
Definition request_long : RunRequest :=
  {| task_type := "extract";
     prompt := Scenario.filler 600;
     context := Some "abc";
     sensitivity := NORMAL;
     source := "api";
     metadata := [("k", JNull)] |}.

(** A decision for the premium tier under a chain that does not name
    it. *)
Definition decision_premium : RouterDecision :=
  {| route := PREMIUM;
     model := "claude-sonnet-4-20250514";
     reason := "Sensitivity=high triggers premium tier per policy";
     confidence := Py.decimal 95 100;
     escalation_level := 2;
     cost_estimate := Py.decimal 12 1000000 |}.

Definition hosted_only_market : RoutingPolicy :=
  Scenario.with_chain default_RoutingPolicy [LOCAL; MARKET].

(** A policy that names no model. *)
Definition no_models : RoutingPolicy :=
  {| default_tier := LOCAL;
     local_ratio := Py.decimal 80 100;
     max_local_retries := 2;
     context_threshold_tokens := 4000;
     escalation_rules := default_EscalationRules;
     premium_trigger := "sensitivity_high_only";
     fallback_chain := [LOCAL; MARKET; PREMIUM];
     models := [] |}.

End Calls.
(** * Properties *)

(** ** Floats *)

Lemma digits2_pos_size (p : positive) : digits2_pos p = Pos.size p.
Proof. induction p; simpl; congruence. Qed.

Lemma Zdigits2_log2 (p : positive) :
  Zdigits2 (Zpos p) = Z.log2 (Zpos p) + 1.
Proof.
  destruct p; cbn [Zdigits2 digits2_pos Z.log2];
    rewrite ?digits2_pos_size; lia.
Qed.

Lemma Zdigits2_nonneg (m : Z) : 0 <= Zdigits2 m.
Proof. destruct m; simpl; lia. Qed.

Lemma Zdigits2_le (a b : Z) : 0 <= a -> a <= b -> Zdigits2 a <= Zdigits2 b.
Proof.
  intros Ha Hab. destruct a as [|a|a]; [apply Zdigits2_nonneg| |lia].
  destruct b as [|b|b]; try lia.
  rewrite !Zdigits2_log2.
  pose proof (Z.log2_le_mono (Zpos a) (Zpos b) Hab). lia.
Qed.

Lemma Zdigits2_succ (m : Z) : 0 <= m -> Zdigits2 (m + 1) <= Zdigits2 m + 1.
Proof.
  intro Hm. destruct m as [|p|p]; [simpl; lia| |lia].
  replace (Zpos p + 1) with (Zpos (p + 1)) by lia.
  rewrite !Zdigits2_log2.
  pose proof (Z.log2_succ_le (Zpos p)).
  replace (Zpos (p + 1)) with (Z.succ (Zpos p)) by lia. lia.
Qed.

Lemma Zdigits2_mul (a b : positive) :
  Zdigits2 (Zpos (a * b)) <= Zdigits2 (Zpos a) + Zdigits2 (Zpos b).
Proof.
  rewrite !Zdigits2_log2.
  pose proof (Z.log2_mul_above (Zpos a) (Zpos b)).
  replace (Zpos (a * b)) with (Zpos a * Zpos b) by lia. lia.
Qed.

Lemma Zdigits2_shiftl (p : positive) (s : Z) :
  0 <= s -> Zdigits2 (Z.shiftl (Zpos p) s) = Zdigits2 (Zpos p) + s.
Proof.
  intro Hs.
  assert (Hpos : 0 < Z.shiftl (Zpos p) s).
  { rewrite Z.shiftl_mul_pow2 by assumption.
    apply Z.mul_pos_pos; [lia | apply Z.pow_pos_nonneg; lia]. }
  destruct (Z.shiftl (Zpos p) s) as [|q|q] eqn:E; try lia.
  rewrite !Zdigits2_log2, <- E.
  rewrite Z.log2_shiftl by lia. lia.
Qed.

Lemma Zdigits2_lt_pow2 (n k : Z) :
  0 <= k -> 0 <= n < 2 ^ k -> Zdigits2 n <= k.
Proof.
  intros Hk [Hn Hlt]. destruct n as [|p|p]; [simpl; lia| |lia].
  rewrite Zdigits2_log2.
  assert (Z.log2 (Zpos p) < k) by (apply Z.log2_lt_pow2; lia). lia.
Qed.

Lemma shr_1_digits (mrs : shr_record) :
  0 <= shr_m mrs ->
  0 <= shr_m (shr_1 mrs)
  /\ Zdigits2 (shr_m (shr_1 mrs)) = Z.max 0 (Zdigits2 (shr_m mrs) - 1).
Proof.
  destruct mrs as [m r s]. cbn [shr_m]. intro Hm.
  destruct m as [|[p|p|]|p]; cbn [shr_1 shr_m Zdigits2 digits2_pos];
    try lia; split; lia.
Qed.

Lemma iter_shr_1_digits (p : positive) : forall mrs,
  0 <= shr_m mrs ->
  0 <= shr_m (iter_pos shr_1 p mrs)
  /\ Zdigits2 (shr_m (iter_pos shr_1 p mrs))
     = Z.max 0 (Zdigits2 (shr_m mrs) - Zpos p).
Proof.
  induction p as [p IH|p IH|]; intros mrs Hm; cbn [iter_pos].
  - destruct (shr_1_digits mrs Hm) as [H1 D1].
    destruct (IH _ H1) as [H2 D2].
    destruct (IH _ H2) as [H3 D3].
    split; [assumption|]. rewrite D3, D2, D1. lia.
  - destruct (IH _ Hm) as [H2 D2].
    destruct (IH _ H2) as [H3 D3].
    split; [assumption|]. rewrite D3, D2. lia.
  - apply shr_1_digits; assumption.
Qed.

Lemma shr_record_of_loc_m (m : Z) (l : location) :
  shr_m (shr_record_of_loc m l) = m.
Proof. destruct l as [|[]]; reflexivity. Qed.

Lemma round_nearest_even_bounds (m : Z) (l : location) :
  m <= round_nearest_even m l <= m + 1.
Proof.
  destruct l as [|[]]; cbn [round_nearest_even]; try lia.
  destruct (Z.even m); lia.
Qed.

(** One shift to the working precision: the mantissa stays non-negative,
    and mantissa and exponent together do not grow beyond what they
    were, or beyond the exponent shifted to. *)
Lemma shr_fexp_digits (m e : Z) (l : location) :
  0 <= m ->
  let mrs := fst (shr_fexp Py.prec Py.emax m e l) in
  let e' := snd (shr_fexp Py.prec Py.emax m e l) in
  0 <= shr_m mrs
  /\ (e' = e \/ e' = fexp Py.prec Py.emax (Zdigits2 m + e))
  /\ (e' = e /\ shr_m mrs = m
      \/ e' = fexp Py.prec Py.emax (Zdigits2 m + e)
         /\ Zdigits2 (shr_m mrs) = Z.max 0 (Zdigits2 m + e - e')).
Proof.
  intro Hm. unfold shr_fexp, shr.
  destruct (fexp Py.prec Py.emax (Zdigits2 m + e) - e) as [|p|p] eqn:En;
    cbn [fst snd]; rewrite ?shr_record_of_loc_m.
  - split; [assumption|]. split; [left; reflexivity|].
    left; split; reflexivity.
  - pose proof (iter_shr_1_digits p (shr_record_of_loc m l)) as H.
    rewrite shr_record_of_loc_m in H. destruct (H Hm) as [H1 H2].
    split; [assumption|]. split; [right; lia|].
    right. split; [lia|]. rewrite H2. lia.
  - split; [assumption|]. split; [left; reflexivity|].
    left; split; reflexivity.
Qed.

(** Rounding a non-negative mantissa gives a zero, a finite float or an
    infinity of the sign asked for, never NaN; the infinity only when
    the value is out of range. *)
Lemma binary_round_aux_shape (sx : bool) (mx ex : Z) (lx : location) :
  0 <= mx ->
  match binary_round_aux Py.prec Py.emax sx mx ex lx with
  | S754_zero s => s = sx
  | S754_finite s m e =>
      s = sx
      /\ Zpos (digits2_pos m) + e <= Z.max (Zdigits2 mx + ex) (-1074) + 1
  | S754_infinity s => s = sx /\ (1023 < Zdigits2 mx + ex \/ 971 < ex)
  | S754_nan => False
  end.
Proof.
  intro Hmx. unfold binary_round_aux.
  pose proof (shr_fexp_digits mx ex lx Hmx) as H1. cbn zeta in H1.
  destruct (shr_fexp Py.prec Py.emax mx ex lx) as [mrs1 e1].
  cbn [fst snd] in H1. destruct H1 as (N1 & E1 & D1).
  pose proof (round_nearest_even_bounds (shr_m mrs1)
                (loc_of_shr_record mrs1)) as Hr.
  remember (round_nearest_even (shr_m mrs1) (loc_of_shr_record mrs1))
    as m2 eqn:Em2. clear Em2.
  assert (Hm2 : 0 <= m2) by lia.
  assert (Dm2 : Zdigits2 m2 <= Zdigits2 (shr_m mrs1) + 1).
  { etransitivity; [apply (Zdigits2_le m2 (shr_m mrs1 + 1)); lia|].
    apply Zdigits2_succ; assumption. }
  pose proof (shr_fexp_digits m2 e1 loc_Exact Hm2) as H2. cbn zeta in H2.
  destruct (shr_fexp Py.prec Py.emax m2 e1 loc_Exact) as [mrs2 e2].
  cbn [fst snd] in H2. destruct H2 as (N2 & E2 & D2).
  pose proof (Zdigits2_nonneg mx) as Dmx.
  pose proof (Zdigits2_nonneg m2) as Dm2'.
  unfold fexp, emin, Py.prec, Py.emax in *.
  destruct (shr_m mrs2) as [|m|m] eqn:Em; [reflexivity| |lia].
  assert (Dm : Zdigits2 (Zpos m) = Zpos (digits2_pos m)) by reflexivity.
  assert (D1' : e1 = ex /\ Zdigits2 (shr_m mrs1) = Zdigits2 mx
                \/ e1 = Z.max (Zdigits2 mx + ex - 53) (3 - 1024 - 53)
                   /\ Zdigits2 (shr_m mrs1)
                      = Z.max 0 (Zdigits2 mx + ex - e1)).
  { destruct D1 as [[A1 B1]|[A1 B1]]; [left|right]; split; congruence. }
  assert (D2' : e2 = e1 /\ Zdigits2 (Zpos m) = Zdigits2 m2
                \/ e2 = Z.max (Zdigits2 m2 + e1 - 53) (3 - 1024 - 53)
                   /\ Zdigits2 (Zpos m) = Z.max 0 (Zdigits2 m2 + e1 - e2)).
  { destruct D2 as [[A2 B2]|[A2 B2]]; [left|right]; split; congruence. }
  clear D1 D2 E1 E2.
  destruct (e2 <=? 1024 - 53) eqn:Ele;
    [apply Z.leb_le in Ele | apply Z.leb_gt in Ele];
    (split; [reflexivity|]); lia.
Qed.

(** The mantissa and exponent that a division hands to the rounding. *)
Lemma SFdiv_core_binary_digits (n d : positive) :
  let '(q, e, _) :=
    SFdiv_core_binary Py.prec Py.emax (Zpos n) 0 (Zpos d) 0 in
  0 <= q /\ e <= 0 /\ Zdigits2 q + e <= Zdigits2 (Zpos n).
Proof.
  unfold SFdiv_core_binary.
  set (e' := Z.min _ (0 - 0)).
  assert (He : e' <= 0) by (unfold e'; lia).
  set (m' := match 0 - 0 - e' with
             | Zpos _ => Z.shiftl (Zpos n) (0 - 0 - e')
             | Z0 => Zpos n
             | Zneg _ => 0
             end).
  assert (Hm : 0 < m' /\ Zdigits2 m' = Zdigits2 (Zpos n) - e').
  { unfold m'. destruct (0 - 0 - e') as [|s|s] eqn:Es; try lia.
    rewrite Zdigits2_shiftl by lia.
    split; [|lia]. rewrite Z.shiftl_mul_pow2 by lia.
    apply Z.mul_pos_pos; [lia | apply Z.pow_pos_nonneg; lia]. }
  destruct Hm as [Hpos Hdig].
  destruct (Z.div_eucl m' (Zpos d)) as [q r] eqn:E.
  assert (Hq : q = m' / Zpos d) by (unfold Z.div; rewrite E; reflexivity).
  assert (Hq0 : 0 <= q) by (subst q; apply Z.div_pos; lia).
  assert (Hqm : q <= m').
  { subst q. apply Z.div_le_upper_bound; [lia | nia]. }
  split; [assumption|]. split; [assumption|].
  pose proof (Zdigits2_le q m' Hq0 Hqm). lia.
Qed.

(** The float nearest to a quotient of integers has the sign of the
    numerator and is never NaN; it is an infinity only for a numerator
    of more than 1023 bits. *)
Lemma nearest_quotient_shape (n : Z) (d : positive) :
  match Py.nearest_quotient n d with
  | S754_zero s => s = (n <? 0)
  | S754_finite s m e =>
      s = (n <? 0) /\ Zpos (digits2_pos m) + e <= Zdigits2 n + 1
  | S754_infinity s => s = (n <? 0) /\ 1023 < Zdigits2 n
  | S754_nan => False
  end.
Proof.
  destruct n as [|n|n]; cbn [Py.nearest_quotient]; [reflexivity| |];
    pose proof (SFdiv_core_binary_digits n d) as H;
    destruct (SFdiv_core_binary Py.prec Py.emax (Zpos n) 0 (Zpos d) 0)
      as [[q e] l]; destruct H as (Hq & He & Hd);
    [pose proof (binary_round_aux_shape false q e l Hq) as S
    |pose proof (binary_round_aux_shape true q e l Hq) as S];
    pose proof (Zdigits2_nonneg q);
    pose proof (Zdigits2_nonneg (Zpos n));
    change (Zdigits2 (Zneg n)) with (Zdigits2 (Zpos n));
    destruct (binary_round_aux Py.prec Py.emax _ q e l); try assumption;
    (destruct S as [-> S]; split; [reflexivity|]); lia.
Qed.

(** The quotient of a non-negative int that fits in 1023 bits by a
    positive int is a float, positive or zero. *)
Lemma true_div_int_returns (n : Z) (d : positive) :
  0 <= n < 2 ^ 1023 ->
  exists x, Py.true_div_int n d = Returned x
            /\ (x = S754_zero false \/ exists m e, x = S754_finite false m e).
Proof.
  intro Hn. unfold Py.true_div_int.
  pose proof (nearest_quotient_shape n d) as S.
  assert (Hd : Zdigits2 n <= 1023) by (apply Zdigits2_lt_pow2; lia).
  assert (Hs : (n <? 0) = false) by (apply Z.ltb_ge; lia).
  rewrite Hs in S.
  destruct (Py.nearest_quotient n d) as [s|s| |s m e].
  - subst s. eexists; split; [reflexivity|]. left; reflexivity.
  - lia.
  - contradiction.
  - destruct S as [-> _]. eexists; split; [reflexivity|].
    right; eexists; eexists; reflexivity.
Qed.

(** What is at least zero: a zero, a positive float, the positive
    infinity. *)
Lemma fle_zero_cases (x : Py.float) :
  Py.fle zero x = true
  <-> match x with
      | S754_zero _ => True
      | S754_finite s _ _ | S754_infinity s => s = false
      | S754_nan => False
      end.
Proof.
  destruct x as [s|[]| |[] m e]; cbn; split; intro H;
    try reflexivity; try exact I; try discriminate; try contradiction.
Qed.

(** A product of two floats that are zero or positive and finite is at
    least zero. *)
Lemma fmul_nonneg (x y : Py.float) :
  (x = S754_zero false \/ exists m e, x = S754_finite false m e) ->
  (y = S754_zero false \/ exists m e, y = S754_finite false m e) ->
  Py.fle zero (Py.fmul x y) = true.
Proof.
  intros [->|(mx & ex & ->)] [->|(my & ey & ->)]; try reflexivity.
  apply fle_zero_cases. unfold Py.fmul. cbn [SFmul xorb].
  pose proof (binary_round_aux_shape false (Zpos (mx * my)) (ex + ey)
                loc_Exact) as S.
  destruct (binary_round_aux _ _ _ _ _ _); try exact I;
    try (apply S; lia).
Qed.

Lemma round_nonneg (x : Py.float) (ndigits : nat) :
  Py.fle zero x = true -> Py.fle zero (Py.round x ndigits) = true.
Proof.
  intro H. destruct x as [s|s| |s m e]; try exact H.
  apply fle_zero_cases in H. subst s. unfold Py.round.
  destruct (Py.round_half_even _) as [|k|k]; try reflexivity.
  apply fle_zero_cases.
  pose proof (nearest_quotient_shape (Zpos k)
                (Z.to_pos (10 ^ Z.of_nat ndigits))) as S.
  change (Zpos k <? 0) with false in S.
  destruct (Py.nearest_quotient _ _); try exact I; try apply S.
Qed.

Lemma rate_nonneg (tier : string) :
  Py.dict_get COST_PER_1K tier zero = S754_zero false
  \/ exists m e, Py.dict_get COST_PER_1K tier zero = S754_finite false m e.
Proof.
  unfold COST_PER_1K. cbn [Py.dict_get].
  destruct ("local" =? tier)%string; [left; reflexivity|].
  destruct ("market" =? tier)%string;
    [right; eexists; eexists; vm_compute; reflexivity|].
  destruct ("premium" =? tier)%string;
    [right; eexists; eexists; vm_compute; reflexivity|].
  left; reflexivity.
Qed.

(** The cost of a token count that is an int and not negative is at
    least zero, unless the division of the count raises. *)
Lemma estimate_cost_nonneg (tier : string) (n : Z) :
  0 <= n ->
  estimate_cost tier (TokInt n) = Raised OverflowError
  \/ exists cost, estimate_cost tier (TokInt n) = Returned cost
                  /\ Py.fle zero cost = true.
Proof.
  intro Hn. unfold estimate_cost, per_thousand, Py.true_div_int.
  pose proof (nearest_quotient_shape n 1000) as S.
  assert (Hs : (n <? 0) = false) by (apply Z.ltb_ge; lia).
  rewrite Hs in S.
  destruct (Py.nearest_quotient n 1000) as [s | s | | s m e];
    [| left; reflexivity | contradiction |].
  - subst s. right. eexists; split; [reflexivity |].
    apply round_nonneg, fmul_nonneg; [apply rate_nonneg | left; reflexivity].
  - destruct S as [-> _]. right. eexists; split; [reflexivity |].
    apply round_nonneg, fmul_nonneg; [apply rate_nonneg |].
    right; eexists; eexists; reflexivity.
Qed.

(** The cost of a token count that is an int from zero up to 1023 bits
    is computed, and is at least zero. *)
Lemma estimate_cost_returns (tier : string) (n : Z) :
  0 <= n < 2 ^ 1023 ->
  exists cost, estimate_cost tier (TokInt n) = Returned cost
               /\ Py.fle zero cost = true.
Proof.
  intro Hn. unfold estimate_cost, per_thousand.
  destruct (true_div_int_returns n 1000 Hn) as (x & -> & Hx).
  eexists; split; [reflexivity|].
  apply round_nonneg, fmul_nonneg; [apply rate_nonneg | exact Hx].
Qed.

(** The literals of the service and samples of its arithmetic, against
    the floats of the machine: each value computed here from the
    definitions of [Py] is the one the processor gives. *)
Example floats_agree_with_hardware :
  Py.decimal 95 100 = Prim2SF 0.95%float /\
  Py.decimal 85 100 = Prim2SF 0.85%float /\
  Py.decimal 90 100 = Prim2SF 0.9%float /\
  Py.decimal 80 100 = Prim2SF 0.8%float /\
  Py.decimal 5 10 = Prim2SF 0.5%float /\
  Py.decimal 15 100 = Prim2SF 0.15%float /\
  Py.decimal 8 10000 = Prim2SF 0.0008%float /\
  Py.decimal 3 1000 = Prim2SF 0.003%float /\
  Py.decimal 100 1 = Prim2SF 100%float /\
  Py.true_div_int 1234 1000 = Returned (Prim2SF (1234 / 1000)%float) /\
  Py.fmul (Py.decimal 8 10000) (Prim2SF (1234 / 1000)%float)
  = Prim2SF (0.0008 * (1234 / 1000))%float /\
  Py.round (Prim2SF (0.0008 * (1234 / 1000))%float) 6
  = Prim2SF 0.000987%float /\
  Py.fsub (Py.decimal 90 100) (Py.fmul (Prim2SF 2%float) (Py.decimal 15 100))
  = Prim2SF (0.9 - 2 * 0.15)%float /\
  Prim2SF (0.9 - 2 * 0.15)%float = Prim2SF 0.6000000000000001%float /\
  Py.fmul (Py.decimal 29 100) (Py.decimal 100 1)
  = Prim2SF (0.29 * 100)%float /\
  Prim2SF (0.29 * 100)%float = Prim2SF 28.999999999999996%float.
Proof. repeat split; vm_compute; reflexivity. Qed.

(** The conversions Python adds to the IEEE operations, on samples:
    the values at the right are those CPython 3.11 gives for [n / d],
    [float(n)], [int(x)], [round(x, 6)] and [max(a, b)]. *)
Example conversions_agree_with_cpython :
  Py.true_div_int 1234 1000
  = Returned (S754_finite false 5557441940175192 (-52)) /\
  Py.true_div_int 10002 1000
  = Returned (S754_finite false 5630625434119963 (-49)) /\
  Py.true_div_int 1 3
  = Returned (S754_finite false 6004799503160661 (-54)) /\
  Py.true_div_int 9223372036854775807 1000
  = Returned (S754_finite false 4611686018427388 1) /\
  Py.true_div_int (-7) 1000
  = Returned (S754_finite true 8070450532247929 (-60)) /\
  Py.true_div_int (10 ^ 309) 1000
  = Returned (S754_finite false 6413338752028713 964) /\
  Py.true_div_int (10 ^ 312) 1000 = Raised OverflowError /\
  Py.float_of_int 0 = Returned (S754_zero false) /\
  Py.float_of_int 3 = Returned (S754_finite false 6755399441055744 (-51)) /\
  Py.float_of_int 9007199254740993
  = Returned (S754_finite false 4503599627370496 1) /\
  Py.float_of_int (-1152921504606846981)
  = Returned (S754_finite true 4503599627370496 8) /\
  Py.int_of_float (S754_finite false 8162774324609023 (-48)) = Returned 28 /\
  Py.int_of_float (S754_finite false 5629499534213121 (-46)) = Returned 80 /\
  Py.int_of_float (S754_finite true 5629499534213120 (-51))
  = Returned (-2) /\
  Py.int_of_float (S754_finite false 4768371582031250 21)
  = Returned (10 ^ 22) /\
  Py.int_of_float (S754_infinity false) = Raised OverflowError /\
  Py.int_of_float S754_nan = Raised ValueError /\
  Py.round (S754_finite false 4552656437391518 (-62)) 6
  = S754_finite false 4551734100187832 (-62) /\
  Py.round (S754_finite false 8996246500447227 (-59)) 6
  = S754_finite false 8996246500447227 (-59) /\
  Py.round (S754_finite false 4722366482869645 (-73)) 6 = S754_zero false /\
  Py.round (S754_finite false 7083549724304468 (-72)) 6
  = S754_finite false 4722366482869645 (-71) /\
  Py.round (S754_finite false 4722366482869646 (-73)) 6
  = S754_finite false 4722366482869645 (-72) /\
  Py.round (S754_finite false 8483885940445754 (-36)) 6
  = S754_finite false 8483885940411394 (-36) /\
  Py.round (S754_finite true 7083077487656181 (-72)) 6
  = S754_finite true 4722366482869645 (-72) /\
  Py.round (S754_finite false 4768371582031250 21) 6
  = S754_finite false 4768371582031250 21 /\
  Py.round (S754_infinity false) 6 = S754_infinity false /\
  Py.max (S754_finite false 4503599627370496 (-53))
    (S754_finite false 5404319552844596 (-53))
  = S754_finite false 5404319552844596 (-53) /\
  Py.max (S754_finite false 4503599627370496 (-53))
    (S754_finite false 8106479329266893 (-54))
  = S754_finite false 4503599627370496 (-53) /\
  Py.max (S754_finite false 4503599627370496 (-53)) S754_nan
  = S754_finite false 4503599627370496 (-53).
Proof. repeat split; vm_compute; reflexivity. Qed.

(** ** The decision engine *)

Lemma Tier_eqb_eq (a b : Tier) : Tier_eqb a b = true <-> a = b.
Proof. destruct a, b; simpl; split; intro H; congruence. Qed.

Lemma Tier_eqb_neq (a b : Tier) : Tier_eqb a b = false <-> a <> b.
Proof. destruct a, b; simpl; split; intro H; congruence. Qed.

Lemma Tier_value_inj (a b : Tier) : Tier_value a = Tier_value b -> a = b.
Proof. destruct a, b; simpl; intro H; congruence. Qed.

Lemma Sensitivity_eqb_eq (a b : Sensitivity) :
  Sensitivity_eqb a b = true <-> a = b.
Proof. destruct a, b; simpl; split; intro H; congruence. Qed.

Lemma len_append_literal (c : ascii) (s t : string) :
  (1 <=? Py.len (String c s ++ t)) = true.
Proof. apply Z.leb_le. unfold Py.len. cbn [append String.length]. lia. Qed.

(** A constructor call whose fields pass the schema returns them. *)
Lemma new_RouterDecision_returns (route : Tier) (model reason : string)
    (confidence : Py.float) (escalation_level : Z)
    (cost_estimate : Py.float) :
  RouterDecision_valid
    (Build_RouterDecision route model reason confidence escalation_level
       cost_estimate) = true ->
  new_RouterDecision route model reason confidence escalation_level
    cost_estimate
  = Returned (Build_RouterDecision route model reason confidence
                escalation_level cost_estimate).
Proof. unfold new_RouterDecision. intros ->. reflexivity. Qed.

Lemma new_RouterDecision_fields (route : Tier) (model reason : string)
    (confidence : Py.float) (escalation_level : Z)
    (cost_estimate : Py.float) (d : RouterDecision) :
  new_RouterDecision route model reason confidence escalation_level
    cost_estimate = Returned d ->
  d = Build_RouterDecision route model reason confidence escalation_level
        cost_estimate
  /\ RouterDecision_valid d = true.
Proof.
  unfold new_RouterDecision.
  destruct (RouterDecision_valid _) eqn:E; intro H; inversion H.
  subst d. split; [reflexivity | exact E].
Qed.

(** The three confidences of the engine are within the schema's
    bounds. *)
Lemma confidence_literals_valid (c : Py.float) :
  In c [Py.decimal 95 100; Py.decimal 85 100; Py.decimal 90 100] ->
  Py.fle zero c && Py.fle c one = true.
Proof.
  intros [<-|[<-|[<-|[]]]]; vm_compute; reflexivity.
Qed.

(** The estimate of a sized request, doubled, is an int that a float
    holds. *)
Lemma estimated_total_bounds (request : RunRequest) :
  RunRequest_sized request ->
  2 <= estimated_total request
  /\ 0 <= estimated_total request * 2 < 2 ^ 1023.
Proof.
  intros [Hp Hc]. unfold estimated_total, Py.maxsize in *.
  pose proof (Z.div_le_upper_bound (Py.len (prompt request)) 4 (2 ^ 61)).
  pose proof (Z.div_le_upper_bound
                (Py.len (Py.or_empty (context request))) 4 (2 ^ 61)).
  assert (2 ^ 63 = 4 * 2 ^ 61) by reflexivity.
  assert (2 ^ 61 * 8 < 2 ^ 1023) by (apply Z.ltb_lt; vm_compute; reflexivity).
  assert (0 < 2 ^ 61) by reflexivity.
  lia.
Qed.

(** What the engine comes back with, rule by rule. *)
Lemma compute_decision_cases (request : RunRequest) (policy : RoutingPolicy)
    (governance : Governance) :
  RunRequest_sized request ->
  (sensitivity request = HIGH /\
   premium_trigger policy = "sensitivity_high_only" /\
   exists cost,
     estimate_cost "premium" (TokInt (estimated_total request * 2))
     = Returned cost /\
     compute_decision request policy governance
     = Returned
         {| route := PREMIUM;
            model := Py.dict_get (models policy) "premium"
                       "claude-sonnet-4-20250514";
            reason := "Sensitivity=high triggers premium tier per policy";
            confidence := Py.decimal 95 100;
            escalation_level := 2;
            cost_estimate := cost |})
  \/
  (~ (sensitivity request = HIGH /\
      premium_trigger policy = "sensitivity_high_only") /\
   context_threshold_tokens policy < estimated_total request /\
   context_overflow_escalate (escalation_rules policy) = true /\
   exists cost,
     estimate_cost "market" (TokInt (estimated_total request * 2))
     = Returned cost /\
     compute_decision request policy governance
     = Returned
         {| route := MARKET;
            model := Py.dict_get (models policy) "market"
                       "meta-llama/llama-3.1-70b-instruct";
            reason := "Context size ("
                      ++ Py.str_int (estimated_total request)
                      ++ " tokens) exceeds threshold ("
                      ++ Py.str_int (context_threshold_tokens policy)
                      ++ "), escalating to market tier";
            confidence := Py.decimal 85 100;
            escalation_level := 1;
            cost_estimate := cost |})
  \/
  (~ (sensitivity request = HIGH /\
      premium_trigger policy = "sensitivity_high_only") /\
   ~ (context_threshold_tokens policy < estimated_total request /\
      context_overflow_escalate (escalation_rules policy) = true) /\
   match Py.int_of_float
           (Py.fmul (local_ratio policy) (Py.decimal 100 1)) with
   | Raised e => compute_decision request policy governance = Raised e
   | Returned percent =>
       compute_decision request policy governance
       = Returned
           {| route := LOCAL;
              model := Py.dict_get (models policy) "local" "llama3.1:8b";
              reason := "Default routing to local tier ("
                        ++ Py.str_int percent ++ "% local policy)";
              confidence := Py.decimal 90 100;
              escalation_level := 0;
              cost_estimate := zero |}
   end).
Proof.
  intro Hsized. unfold compute_decision.
  change (estimate_tokens (prompt request)
          + estimate_tokens (Py.or_empty (context request)))
    with (estimated_total request).
  destruct (estimated_total_bounds request Hsized) as [Hpos Hfit].
  destruct (Sensitivity_eqb (sensitivity request) HIGH
            && (premium_trigger policy =? "sensitivity_high_only")%string)
    eqn:E1.
  - apply andb_true_iff in E1 as [Hs Ht].
    apply Sensitivity_eqb_eq in Hs. apply String.eqb_eq in Ht.
    left. split; [exact Hs|]. split; [exact Ht|].
    destruct (estimate_cost_returns "premium" _ Hfit) as (cost & Hc & Hv).
    exists cost. split; [exact Hc|]. rewrite Hc.
    apply new_RouterDecision_returns. unfold RouterDecision_valid.
    cbn [reason confidence escalation_level cost_estimate].
    rewrite Hv. vm_compute. reflexivity.
  - assert (N1 : ~ (sensitivity request = HIGH /\
                    premium_trigger policy = "sensitivity_high_only")).
    { intros [Hs Ht]. apply Sensitivity_eqb_eq in Hs.
      apply String.eqb_eq in Ht. rewrite Hs, Ht in E1. discriminate. }
    destruct ((context_threshold_tokens policy <? estimated_total request)
              && context_overflow_escalate (escalation_rules policy)) eqn:E2.
    + apply andb_true_iff in E2 as [Hlt Hflag]. apply Z.ltb_lt in Hlt.
      right. left. split; [exact N1|]. split; [exact Hlt|].
      split; [exact Hflag|].
      destruct (estimate_cost_returns "market" _ Hfit) as (cost & Hc & Hv).
      exists cost. split; [exact Hc|]. rewrite Hc.
      apply new_RouterDecision_returns. unfold RouterDecision_valid.
      cbn [reason confidence escalation_level cost_estimate].
      rewrite len_append_literal, Hv. vm_compute. reflexivity.
    + right. right. split; [exact N1|]. split.
      { intros [Hlt Hflag]. apply Z.ltb_lt in Hlt.
        rewrite Hlt, Hflag in E2. discriminate. }
      destruct (Py.int_of_float _) as [percent|e]; [|reflexivity].
      apply new_RouterDecision_returns. unfold RouterDecision_valid.
      cbn [reason confidence escalation_level cost_estimate].
      rewrite len_append_literal. vm_compute. reflexivity.
Qed.

(** A decision the engine returns has passed the schema. *)
Lemma compute_decision_valid (request : RunRequest)
    (policy : RoutingPolicy) (governance : Governance) (d : RouterDecision) :
  compute_decision request policy governance = Returned d ->
  RouterDecision_valid d = true
  /\ In (confidence d)
       [Py.decimal 95 100; Py.decimal 85 100; Py.decimal 90 100].
Proof.
  unfold compute_decision.
  destruct (_ && _).
  - destruct (estimate_cost _ _); [|discriminate].
    intro H. apply new_RouterDecision_fields in H as [-> Hv].
    split; [exact Hv|]. left; reflexivity.
  - destruct (_ && _).
    + destruct (estimate_cost _ _); [|discriminate].
      intro H. apply new_RouterDecision_fields in H as [-> Hv].
      split; [exact Hv|]. right; left; reflexivity.
    + destruct (Py.int_of_float _); [|discriminate].
      intro H. apply new_RouterDecision_fields in H as [-> Hv].
      split; [exact Hv|]. right; right; left; reflexivity.
Qed.

(** The rule behind a decision the engine returns, whatever the size of
    the request. *)
Lemma compute_decision_returned (request : RunRequest)
    (policy : RoutingPolicy) (governance : Governance) (d : RouterDecision) :
  compute_decision request policy governance = Returned d ->
  (sensitivity request = HIGH /\
   premium_trigger policy = "sensitivity_high_only" /\
   route d = PREMIUM /\ confidence d = Py.decimal 95 100 /\
   escalation_level d = 2 /\
   reason d = "Sensitivity=high triggers premium tier per policy" /\
   estimate_cost "premium" (TokInt (estimated_total request * 2))
   = Returned (cost_estimate d))
  \/
  (~ (sensitivity request = HIGH /\
      premium_trigger policy = "sensitivity_high_only") /\
   context_threshold_tokens policy < estimated_total request /\
   context_overflow_escalate (escalation_rules policy) = true /\
   route d = MARKET /\ confidence d = Py.decimal 85 100 /\
   escalation_level d = 1 /\
   estimate_cost "market" (TokInt (estimated_total request * 2))
   = Returned (cost_estimate d))
  \/
  (~ (sensitivity request = HIGH /\
      premium_trigger policy = "sensitivity_high_only") /\
   ~ (context_threshold_tokens policy < estimated_total request /\
      context_overflow_escalate (escalation_rules policy) = true) /\
   route d = LOCAL /\ confidence d = Py.decimal 90 100 /\
   escalation_level d = 0 /\ cost_estimate d = zero).
Proof.
  unfold compute_decision.
  change (estimate_tokens (prompt request)
          + estimate_tokens (Py.or_empty (context request)))
    with (estimated_total request).
  destruct (Sensitivity_eqb (sensitivity request) HIGH
            && (premium_trigger policy =? "sensitivity_high_only")%string)
    eqn:E1.
  - apply andb_true_iff in E1 as [Hs Ht].
    apply Sensitivity_eqb_eq in Hs. apply String.eqb_eq in Ht.
    destruct (estimate_cost _ _) as [cost | e]; [| discriminate].
    intro H. apply new_RouterDecision_fields in H as [-> _].
    left. cbn [route confidence escalation_level reason cost_estimate].
    auto 10.
  - assert (N1 : ~ (sensitivity request = HIGH /\
                    premium_trigger policy = "sensitivity_high_only")).
    { intros [Hs Ht]. apply Sensitivity_eqb_eq in Hs.
      apply String.eqb_eq in Ht. rewrite Hs, Ht in E1. discriminate. }
    destruct ((context_threshold_tokens policy <? estimated_total request)
              && context_overflow_escalate (escalation_rules policy)) eqn:E2.
    + apply andb_true_iff in E2 as [Hlt Hflag]. apply Z.ltb_lt in Hlt.
      destruct (estimate_cost _ _) as [cost | e]; [| discriminate].
      intro H. apply new_RouterDecision_fields in H as [-> _].
      right. left. cbn [route confidence escalation_level cost_estimate].
      auto 10.
    + assert (N2 : ~ (context_threshold_tokens policy
                        < estimated_total request /\
                      context_overflow_escalate (escalation_rules policy)
                      = true)).
      { intros [Hlt Hflag]. apply Z.ltb_lt in Hlt.
        rewrite Hlt, Hflag in E2. discriminate. }
      destruct (Py.int_of_float _) as [percent | e]; [| discriminate].
      intro H. apply new_RouterDecision_fields in H as [-> _].
      right. right. cbn [route confidence escalation_level cost_estimate].
      auto 10.
Qed.

(** When neither escalation rule applies the engine ends as
    [int(local_ratio * 100)] does, whatever the size of the request. *)
Lemma compute_decision_default (request : RunRequest)
    (policy : RoutingPolicy) (governance : Governance) :
  ~ (sensitivity request = HIGH /\
     premium_trigger policy = "sensitivity_high_only") ->
  ~ (context_threshold_tokens policy < estimated_total request /\
     context_overflow_escalate (escalation_rules policy) = true) ->
  compute_decision request policy governance
  = match Py.int_of_float
            (Py.fmul (local_ratio policy) (Py.decimal 100 1)) with
    | Raised e => Raised e
    | Returned percent =>
        Returned
          {| route := LOCAL;
             model := Py.dict_get (models policy) "local" "llama3.1:8b";
             reason := "Default routing to local tier ("
                       ++ Py.str_int percent ++ "% local policy)";
             confidence := Py.decimal 90 100;
             escalation_level := 0;
             cost_estimate := zero |}
    end.
Proof.
  intros N1 N2. unfold compute_decision.
  change (estimate_tokens (prompt request)
          + estimate_tokens (Py.or_empty (context request)))
    with (estimated_total request).
  destruct (Sensitivity_eqb (sensitivity request) HIGH
            && (premium_trigger policy =? "sensitivity_high_only")%string)
    eqn:E1.
  { exfalso. apply N1. apply andb_true_iff in E1 as [Hs Ht].
    apply Sensitivity_eqb_eq in Hs. apply String.eqb_eq in Ht. auto. }
  destruct ((context_threshold_tokens policy <? estimated_total request)
            && context_overflow_escalate (escalation_rules policy)) eqn:E2.
  { exfalso. apply N2. apply andb_true_iff in E2 as [Hlt Hflag].
    apply Z.ltb_lt in Hlt. auto. }
  destruct (Py.int_of_float _) as [percent | e]; [| reflexivity].
  apply new_RouterDecision_returns. unfold RouterDecision_valid.
  cbn [reason confidence escalation_level cost_estimate].
  rewrite len_append_literal. vm_compute. reflexivity.
Qed.

(** C4. For a request whose sensitivity is not high, under a policy with
    [context_overflow_escalate] set: when the estimated token total (each
    of prompt and context estimated as max(1, len/4), and summed)
    exceeds [context_threshold_tokens], the engine returns a decision
    that routes to market with confidence 0.85 and escalation level 1,
    the texts of the request being Python strings, of at most
    [sys.maxsize] characters; a decision the engine returns routes to
    market exactly when the total exceeds the threshold; and at or below
    the threshold the engine takes the default rule, so it returns a
    local decision when [int(local_ratio * 100)] has a value and raises
    what that conversion raises when it has none. *)
Theorem context_gate (request : RunRequest) (policy : RoutingPolicy)
    (governance : Governance) :
  sensitivity request <> HIGH ->
  context_overflow_escalate (escalation_rules policy) = true ->
  (RunRequest_sized request ->
   context_threshold_tokens policy < estimated_total request ->
   exists d,
     compute_decision request policy governance = Returned d /\
     route d = MARKET /\ confidence d = Py.decimal 85 100 /\
     escalation_level d = 1) /\
  (forall d,
     compute_decision request policy governance = Returned d ->
     (route d = MARKET <->
      context_threshold_tokens policy < estimated_total request) /\
     (route d = MARKET ->
      confidence d = Py.decimal 85 100 /\ escalation_level d = 1)) /\
  (estimated_total request <= context_threshold_tokens policy ->
   match Py.int_of_float
           (Py.fmul (local_ratio policy) (Py.decimal 100 1)) with
   | Raised e => compute_decision request policy governance = Raised e
   | Returned _ =>
       exists d,
         compute_decision request policy governance = Returned d /\
         route d = LOCAL
   end).
Proof.
  intros Hs Hflag. split; [| split].
  - intros Hsized Hlt.
    destruct (compute_decision_cases request policy governance Hsized)
      as [H | [H | H]].
    + destruct H as [Hhigh _]. contradiction.
    + destruct H as (_ & _ & _ & cost & _ & Hd).
      eexists. split; [exact Hd|]. repeat split.
    + destruct H as (_ & Hno & _). exfalso. apply Hno. split; assumption.
  - intros d Hd.
    destruct (compute_decision_returned _ _ _ _ Hd) as [H | [H | H]].
    + destruct H as [Hhigh _]. contradiction.
    + destruct H as (_ & Hlt & _ & Hr & Hc & He & _).
      split; [split; auto | auto].
    + destruct H as (_ & Hno & Hr & _). split.
      * split; [intro Hm; rewrite Hm in Hr; discriminate |].
        intro Hlt. exfalso. apply Hno. split; assumption.
      * intro Hm. rewrite Hm in Hr. discriminate.
  - intro Hle.
    assert (N1 : ~ (sensitivity request = HIGH /\
                    premium_trigger policy = "sensitivity_high_only"))
      by (intros [H _]; contradiction).
    assert (N2 : ~ (context_threshold_tokens policy
                      < estimated_total request /\
                    context_overflow_escalate (escalation_rules policy)
                    = true)) by (intros [H _]; lia).
    rewrite (compute_decision_default request policy governance N1 N2).
    destruct (Py.int_of_float _) as [percent | e]; [| reflexivity].
    eexists. split; reflexivity.
Qed.

Lemma context_gate_witness :
  sensitivity Scenario.request_overflow <> HIGH /\
  context_overflow_escalate (escalation_rules default_RoutingPolicy) = true /\
  RunRequest_sized Scenario.request_overflow /\
  context_threshold_tokens default_RoutingPolicy
    < estimated_total Scenario.request_overflow /\
  exists d,
    compute_decision Scenario.request_overflow default_RoutingPolicy
      default_Governance = Returned d /\
    route d = MARKET /\ confidence d = Py.decimal 85 100 /\
    escalation_level d = 1.
Proof.
  assert (Hsized : RunRequest_sized Scenario.request_overflow)
    by (split; apply Z.leb_le; vm_compute; reflexivity).
  assert (Hlt : context_threshold_tokens default_RoutingPolicy
                < estimated_total Scenario.request_overflow)
    by (apply Z.ltb_lt; vm_compute; reflexivity).
  split; [discriminate |]. split; [reflexivity |].
  split; [exact Hsized |]. split; [exact Hlt |].
  assert (Hs : sensitivity Scenario.request_overflow <> HIGH)
    by discriminate.
  exact (proj1 (context_gate Scenario.request_overflow
                  default_RoutingPolicy default_Governance Hs eq_refl)
           Hsized Hlt).
Defined.

(** The estimate in S3: 1 token for the prompt and 5,000 for the
    context, above the default threshold of 4,000. *)
Example overflow_estimate :
  estimated_total Scenario.request_overflow = 5001.
Proof. vm_compute. reflexivity. Qed.

(** The decision of S3 in full: the cost is that of 10,002 tokens at
    the market rate, 0.008002, as the float nearest to it. *)
Example overflow_decision :
  compute_decision Scenario.request_overflow default_RoutingPolicy
    default_Governance
  = Returned
      {| route := MARKET;
         model := "meta-llama/llama-3.1-70b-instruct";
         reason := "Context size (5001 tokens) exceeds threshold (4000), escalating to market tier";
         confidence := Py.decimal 85 100;
         escalation_level := 1;
         cost_estimate := Py.decimal 8002 1000000 |}.
Proof. vm_compute. reflexivity. Qed.

(** C5. For a request with sensitivity high, under a policy whose
    [premium_trigger] is "sensitivity_high_only", the engine returns a
    decision that routes to premium with confidence 0.95, escalation level
    2 and the fixed reason, whatever the context size, the threshold and
    the context-overflow flag are: the rule is tried before the
    context-overflow rule.  The decision is returned for every request
    whose texts are Python strings, of at most [sys.maxsize] characters;
    beyond that size the only other outcome is the [OverflowError] of
    the cost estimate, and never a decision of another rule. *)
Theorem sensitivity_precedence (request : RunRequest)
    (policy : RoutingPolicy) (governance : Governance) :
  sensitivity request = HIGH ->
  premium_trigger policy = "sensitivity_high_only" ->
  (RunRequest_sized request ->
   exists d,
     compute_decision request policy governance = Returned d /\
     route d = PREMIUM /\
     confidence d = Py.decimal 95 100 /\
     escalation_level d = 2 /\
     reason d = "Sensitivity=high triggers premium tier per policy") /\
  ((exists d,
      compute_decision request policy governance = Returned d /\
      route d = PREMIUM /\
      confidence d = Py.decimal 95 100 /\
      escalation_level d = 2 /\
      reason d = "Sensitivity=high triggers premium tier per policy")
   \/ compute_decision request policy governance = Raised OverflowError).
Proof.
  intros Hs Ht. split.
  - intro Hsized.
    destruct (compute_decision_cases request policy governance Hsized)
      as [H | [H | H]].
    + destruct H as (_ & _ & cost & _ & Hd).
      eexists. split; [exact Hd|]. repeat split.
    + destruct H as [Hno _]. exfalso. apply Hno. split; assumption.
    + destruct H as [Hno _]. exfalso. apply Hno. split; assumption.
  - unfold compute_decision.
    change (estimate_tokens (prompt request)
            + estimate_tokens (Py.or_empty (context request)))
      with (estimated_total request).
    rewrite Hs, Ht. cbn [Sensitivity_eqb andb]. rewrite String.eqb_refl.
    assert (Hpos : 0 <= estimated_total request * 2)
      by (unfold estimated_total; lia).
    destruct (estimate_cost_nonneg "premium" _ Hpos)
      as [-> | (cost & -> & Hv)]; [right; reflexivity |].
    left. eexists. split.
    + apply new_RouterDecision_returns. unfold RouterDecision_valid.
      cbn [reason confidence escalation_level cost_estimate].
      rewrite Hv. vm_compute. reflexivity.
    + repeat split.
Qed.

Lemma sensitivity_precedence_witness :
  sensitivity Scenario.request_leak_overflow = HIGH /\
  premium_trigger default_RoutingPolicy = "sensitivity_high_only" /\
  RunRequest_sized Scenario.request_leak_overflow /\
  context_threshold_tokens default_RoutingPolicy
    < estimated_total Scenario.request_leak_overflow /\
  exists d,
    compute_decision Scenario.request_leak_overflow default_RoutingPolicy
      default_Governance = Returned d /\
    route d = PREMIUM /\
    confidence d = Py.decimal 95 100 /\
    escalation_level d = 2 /\
    reason d = "Sensitivity=high triggers premium tier per policy".
Proof.
  assert (Hsized : RunRequest_sized Scenario.request_leak_overflow)
    by (split; apply Z.leb_le; vm_compute; reflexivity).
  split; [reflexivity |]. split; [reflexivity |].
  split; [exact Hsized |].
  split; [apply Z.ltb_lt; vm_compute; reflexivity |].
  exact (proj1 (sensitivity_precedence Scenario.request_leak_overflow
                  default_RoutingPolicy default_Governance eq_refl eq_refl)
           Hsized).
Defined.
(** From here on [++] joins lists; string appends are marked. *)
Open Scope list_scope.

(** ** Counting over the audit trail *)

Lemma events_of_app (a b : list DbWrite) :
  events_of (a ++ b) = events_of a ++ events_of b.
Proof.
  induction a as [| x a IH]; [reflexivity |].
  destruct x; cbn [events_of app]; now rewrite IH.
Qed.

Lemma count_type_app (ty : string) (a b : list DbWrite) :
  count_type ty (a ++ b) = (count_type ty a + count_type ty b)%nat.
Proof.
  unfold count_type. now rewrite events_of_app, filter_app, length_app.
Qed.

Lemma count_execution_app (t : string) (a b : list DbWrite) :
  count_execution t (a ++ b)
  = (count_execution t a + count_execution t b)%nat.
Proof.
  unfold count_execution. now rewrite events_of_app, filter_app, length_app.
Qed.

Lemma emitted_app (w w' : World) (d : list DbWrite) :
  db_writes w' = d ++ db_writes w -> emitted w w' = d.
Proof.
  intro H. unfold emitted. rewrite H, length_app.
  replace (List.length d + List.length (db_writes w)
           - List.length (db_writes w))%nat with (List.length d) by lia.
  rewrite firstn_app, firstn_all, Nat.sub_diag. cbn. apply app_nil_r.
Qed.

Lemma last_error_after_app (prev : option string) (a b : list Event) :
  last_error_after prev (a ++ b)
  = last_error_after (last_error_after prev b) a.
Proof.
  induction a as [| e a IH]; [reflexivity |].
  cbn [app last_error_after]. rewrite IH. reflexivity.
Qed.

Lemma count_type_event (ty : string) (e : Event) (d : list DbWrite) :
  count_type ty (InsertEvent e :: d)
  = ((if has_type ty e then 1 else 0) + count_type ty d)%nat.
Proof.
  unfold count_type. cbn [events_of filter].
  destruct (has_type ty e); reflexivity.
Qed.

Lemma count_type_patch (ty t s : string) (d : list DbWrite) :
  count_type ty (PatchTaskStatus t s :: d) = count_type ty d.
Proof. reflexivity. Qed.

Lemma count_execution_event (t : string) (e : Event) (d : list DbWrite) :
  count_execution t (InsertEvent e :: d)
  = ((if is_execution_on t e then 1 else 0) + count_execution t d)%nat.
Proof.
  unfold count_execution. cbn [events_of filter].
  destruct (is_execution_on t e); reflexivity.
Qed.

Lemma count_execution_patch (t a b : string) (d : list DbWrite) :
  count_execution t (PatchTaskStatus a b :: d) = count_execution t d.
Proof. reflexivity. Qed.

(** ** One attempt *)

Section FallbackProperties.

Context {JL : JsonLoads}.
Variables (env : Env) (request : RunRequest) (policy : RoutingPolicy)
          (decision : RouterDecision)
          (task_id : string) (decision_id : option string).

Local Abbreviation model_of := (model_for policy decision).
Local Abbreviation exec_ev := (execution_event policy decision task_id decision_id).
Local Abbreviation gate_ev := (gate_event policy decision task_id decision_id).
Local Abbreviation final := (final_decision policy decision).
Local Abbreviation success_res := (success_result policy decision task_id).
Local Abbreviation attempt_ :=
  (attempt env request policy decision task_id decision_id).
Local Abbreviation attempts_ :=
  (attempts env request policy decision task_id decision_id).
Local Abbreviation tiers_ :=
  (tiers env request policy decision task_id decision_id).
Local Abbreviation post :=
  (flow_post policy decision task_id decision_id).
Local Abbreviation run_ :=
  (run_with_fallback env request policy decision task_id decision_id).

(** An adapter call writes nothing to the registry and leaves the ghost
    history alone; it issues at most one request. *)
Lemma execute_on_tier_frame (tier : Tier) (m p : string) (c : option string)
    (w : World) :
  db_writes (snd (execute_on_tier env tier m p c w)) = db_writes w /\
  attempted (snd (execute_on_tier env tier m p c w)) = attempted w.
Proof.
  destruct tier; cbn [execute_on_tier];
    unfold OllamaAdapter_generate, OpenRouterAdapter_generate,
      ClaudeAdapter_generate, bind, ret, http_post;
    repeat match goal with
           | |- context [if ?b then _ else _] => destruct b
           end; cbn; auto.
Qed.

(** What one attempt does, by the adapter's result, the gate's verdict
    and the outcome of the constructor call. *)
Lemma attempt_cases (tier : Tier) (tier_idx : nat) (loc : Locals)
    (w : World) (f : Flow) (w' : World) :
  attempt_ tier tier_idx loc w = (f, w') ->
  exists result w1,
    execute_on_tier env tier (model_of tier) (prompt request)
      (context request) w = (result, w1) /\
    attempted w' = tier_idx :: attempted w /\
    http_requests w' = http_requests w1 /\
    ((a_success result = false /\
      f = Continue (after_failure tier loc result) /\
      db_writes w' = InsertEvent (exec_ev tier result) :: db_writes w)
     \/
     (a_success result = true /\
      (exists e,
         _is_valid_json_output (a_output result) = Raised e /\
         f = Raise e) /\
      db_writes w' = InsertEvent (exec_ev tier result) :: db_writes w)
     \/
     (a_success result = true /\
      _is_valid_json_output (a_output result) = Returned false /\
      invalid_json_escalate (escalation_rules policy) = true /\
      f = Break (after_rejection loc result) /\
      db_writes w' = InsertEvent (gate_ev tier)
                       :: InsertEvent (exec_ev tier result) :: db_writes w)
     \/
     (a_success result = true /\
      (exists valid,
         _is_valid_json_output (a_output result) = Returned valid /\
         negb valid && invalid_json_escalate (escalation_rules policy)
         = false) /\
      (exists fin,
         final tier tier_idx (a_token_count result) = Returned fin /\
         f = Return (success_res tier fin result
                       (l_total_latency loc + a_latency_ms result))) /\
      db_writes w' = PatchTaskStatus task_id "completed"
                       :: InsertEvent (exec_ev tier result) :: db_writes w)
     \/
     (a_success result = true /\
      (exists valid,
         _is_valid_json_output (a_output result) = Returned valid /\
         negb valid && invalid_json_escalate (escalation_rules policy)
         = false) /\
      (exists e,
         final tier tier_idx (a_token_count result) = Raised e /\
         f = Raise e) /\
      db_writes w' = InsertEvent (exec_ev tier result) :: db_writes w)).
Proof.
  unfold attempt, bind at 1.
  pose proof (execute_on_tier_frame tier (model_of tier) (prompt request)
                (context request) w) as Hfr.
  destruct (execute_on_tier env tier (model_of tier) (prompt request)
              (context request) w) as [result w1] eqn:Hex.
  cbn [snd] in Hfr. destruct Hfr as [Hdb Hatt].
  intro H. exists result, w1. split; [reflexivity |].
  unfold bind, ghost_attempt, log_event, db_write, accept in H.
  assert (Hev : forall b, a_success result = b ->
            {| ev_task_id := task_id; ev_decision_id := decision_id;
               ev_type := "execution"; ev_tier := Tier_value tier;
               ev_model := model_of tier; ev_success := b;
               ev_latency_ms := a_latency_ms result;
               ev_token_count := a_token_count result;
               ev_error_message := a_error result |} = exec_ev tier result)
    by (intros b <-; reflexivity).
  destruct (a_success result) eqn:Hs.
  - destruct (_is_valid_json_output (a_output result)) as [valid | e] eqn:Hg.
    + destruct (negb valid && invalid_json_escalate (escalation_rules policy))
        eqn:Hrej.
      * cbn in H. inversion H; subst; clear H.
        cbn [attempted http_requests db_writes].
        rewrite Hdb, Hatt, (Hev _ eq_refl).
        split; [reflexivity |]. split; [reflexivity |].
        apply andb_true_iff in Hrej as [Hv Hflag].
        apply negb_true_iff in Hv. subst valid.
        right. right. left. auto.
      * destruct (final_decision policy decision tier tier_idx
                    (a_token_count result)) as [fin | e] eqn:Hf;
          cbn in H; inversion H; subst; clear H;
          cbn [attempted http_requests db_writes];
          rewrite Hdb, Hatt, (Hev _ eq_refl);
          (split; [reflexivity |]); (split; [reflexivity |]).
        -- right. right. right. left. split; [reflexivity |].
           split; [exists valid; auto |]. split; [exists fin; auto |].
           reflexivity.
        -- right. right. right. right. split; [reflexivity |].
           split; [exists valid; auto |]. split; [exists e; auto |].
           reflexivity.
    + cbn in H. inversion H; subst; clear H.
      cbn [attempted http_requests db_writes].
      rewrite Hdb, Hatt, (Hev _ eq_refl).
      split; [reflexivity |]. split; [reflexivity |].
      right. left. split; [reflexivity |]. split; [exists e; auto |].
      reflexivity.
  - cbn in H. inversion H; subst; clear H.
    cbn [attempted http_requests db_writes].
    rewrite Hdb, Hatt, (Hev _ eq_refl).
    split; [reflexivity |]. split; [reflexivity |].
    left. auto.
Qed.

(** *** The attempt loop of one tier *)

Lemma is_execution_on_exec (t : string) (tier : Tier) (r : AttemptResult) :
  is_execution_on t (exec_ev tier r) = (Tier_value tier =? t)%string.
Proof. reflexivity. Qed.

Lemma attempts_spec (n : nat) (tier : Tier) (tier_idx : nat) :
  forall (loc : Locals) (w : World) (f : Flow) (w' : World),
  attempts_ n tier tier_idx loc w = (f, w') ->
  exists d,
    db_writes w' = d ++ db_writes w /\
    count_type "final_result" d = 0%nat /\
    (forall t, (count_execution t d
                <= if (Tier_value tier =? t)%string then n else 0)%nat) /\
    (count_type "invalid_json_escalation" d
       <= count_type "execution" d)%nat /\
    ((1 <= n)%nat -> (1 <= count_type "execution" d)%nat) /\
    post (fun i => if Nat.eqb i tier_idx then Some tier else None)
      loc d w' f.
Proof.
  induction n as [| n IH]; intros loc w f w' H.
  - cbn in H. inversion H; subst; clear H. exists [].
    cbn. repeat split; auto; try lia.
  - cbn [attempts] in H. unfold bind in H.
    destruct (attempt_ tier tier_idx loc w) as [f1 w1] eqn:Ha.
    apply attempt_cases in Ha.
    destruct Ha as (result & w0 & _ & Hatt & _ & Hcase).
    destruct Hcase as [(Hs & -> & Hdb)
                      | [(Hs & (e & Hg & ->) & Hdb)
                      | [(Hs & Hg & Hflag & -> & Hdb)
                      | [(Hs & Hg & (fin & Hfin & ->) & Hdb)
                      | (Hs & Hg & (e & Hfin & ->) & Hdb)]]]].
    + (* failed: the loop goes on *)
      apply IH in H. destruct H as (d & Hd & Hfin & Hex & Hgate & Hone & Hpost).
      exists (d ++ [InsertEvent (exec_ev tier result)]).
      rewrite Hd, Hdb, <- app_assoc. split; [reflexivity |].
      rewrite !count_type_app, !count_type_event. cbn [has_type].
      split; [cbn; lia |]. split.
      { intro t. rewrite count_execution_app, count_execution_event.
        rewrite is_execution_on_exec. specialize (Hex t).
        cbn [count_execution events_of filter List.length].
        destruct (Tier_value tier =? t)%string; cbn; lia. }
      split; [cbn; lia |]. split; [cbn; lia |].
      destruct f; cbn [flow_post] in *; auto.
      * rewrite events_of_app, last_error_after_app. cbn.
        unfold has_type. cbn. rewrite Hs. cbn. exact Hpost.
      * rewrite events_of_app, last_error_after_app. cbn.
        unfold has_type. cbn. rewrite Hs. cbn. exact Hpost.
      * destruct Hpost as (i & tr & res & lat & d' & fin & Hi & Hv & Hr
                           & Hd' & Hh).
        exists i, tr, res, lat, (d' ++ [InsertEvent (exec_ev tier result)]),
          fin.
        rewrite Hd'. repeat split; auto.
    + (* the gate raises *)
      inversion H; subst; clear H.
      exists [InsertEvent (exec_ev tier result)].
      split; [exact Hdb |].
      rewrite !count_type_event. cbn [has_type].
      split; [cbn; lia |]. split.
      { intro t. rewrite count_execution_event, is_execution_on_exec.
        cbn. destruct (Tier_value tier =? t)%string; cbn; lia. }
      split; [cbn; lia |]. split; [cbn; lia |].
      exact I.
    + (* rejected by the gate *)
      inversion H; subst; clear H.
      exists [InsertEvent (gate_ev tier); InsertEvent (exec_ev tier result)].
      split; [exact Hdb |].
      rewrite !count_type_event. cbn [has_type].
      split; [cbn; lia |]. split.
      { intro t. rewrite !count_execution_event, is_execution_on_exec.
        cbn. destruct (Tier_value tier =? t)%string; cbn; lia. }
      split; [cbn; lia |]. split; [cbn; lia |].
      cbn. reflexivity.
    + (* accepted *)
      inversion H; subst; clear H.
      exists [PatchTaskStatus task_id "completed";
              InsertEvent (exec_ev tier result)].
      split; [exact Hdb |].
      rewrite !count_type_patch, !count_type_event. cbn [has_type].
      split; [cbn; lia |]. split.
      { intro t. rewrite count_execution_patch, count_execution_event,
          is_execution_on_exec.
        cbn. destruct (Tier_value tier =? t)%string; cbn; lia. }
      split; [cbn; lia |]. split; [cbn; lia |].
      cbn [flow_post].
      exists tier_idx, tier, result,
        (l_total_latency loc + a_latency_ms result), [], fin.
      rewrite Nat.eqb_refl, Hatt. repeat split; auto.
    + (* the constructor call raises *)
      inversion H; subst; clear H.
      exists [InsertEvent (exec_ev tier result)].
      split; [exact Hdb |].
      rewrite !count_type_event. cbn [has_type].
      split; [cbn; lia |]. split.
      { intro t. rewrite count_execution_event, is_execution_on_exec.
        cbn. destruct (Tier_value tier =? t)%string; cbn; lia. }
      split; [cbn; lia |]. split; [cbn; lia |].
      exact I.
Qed.

(** *** The loop over the tiers *)

Lemma flow_post_weaken (tier_of tier_of' : nat -> option Tier)
    (loc : Locals) (d : list DbWrite) (w' : World) (f : Flow) :
  (forall i t, tier_of i = Some t -> tier_of' i = Some t) ->
  post tier_of loc d w' f -> post tier_of' loc d w' f.
Proof.
  intros Hsub. destruct f; cbn [flow_post]; auto.
  intros (i & tr & res & lat & d' & fin & Hi & Hrest).
  exists i, tr, res, lat, d', fin. split; [auto | exact Hrest].
Qed.

Lemma after_attempts_writes (tier : Tier) (loc : Locals) (w : World) :
  exists d,
    db_writes (snd (after_attempts policy decision task_id decision_id
                      tier loc w)) = d ++ db_writes w /\
    attempted (snd (after_attempts policy decision task_id decision_id
                      tier loc w)) = attempted w /\
    (d = [] \/ exists e, d = [InsertEvent e] /\ ev_type e = "escalation").
Proof.
  unfold after_attempts.
  destruct (Tier_eqb tier LOCAL && _).
  - eexists [_]. cbn. split; [reflexivity |]. split; [reflexivity |].
    right. eexists. split; reflexivity.
  - exists []. cbn. auto.
Qed.

Lemma tiers_spec (rest : list Tier) :
  forall (tier_idx : nat) (loc : Locals) (w : World) (f : Flow) (w' : World),
  tiers_ rest tier_idx loc w = (f, w') ->
  exists d,
    db_writes w' = d ++ db_writes w /\
    count_type "final_result" d = 0%nat /\
    (forall t, (count_execution t d <= total_budget policy t rest)%nat) /\
    (count_type "invalid_json_escalation" d
       <= count_type "execution" d)%nat /\
    (match rest with
     | tier :: _ => (1 <= Py.range_len (max_attempts policy tier))%nat
     | [] => False
     end -> (1 <= count_type "execution" d)%nat) /\
    post (tier_at rest tier_idx) loc d w' f.
Proof.
  induction rest as [| tier rest IH]; intros tier_idx loc w f w' H.
  - cbn in H. inversion H; subst; clear H. exists [].
    cbn. repeat split; auto; try lia.
  - cbn [tiers] in H. unfold bind at 1 in H.
    destruct (attempts_ _ tier tier_idx loc w) as [f1 w1] eqn:Ha.
    apply attempts_spec in Ha.
    destruct Ha as (d1 & Hd1 & Hfin1 & Hex1 & Hgate1 & Hone1 & Hpost1).
    assert (Hret : f1 = f -> w1 = w' ->
              match f1 with Return _ | Raise _ => True | _ => False end ->
              exists d,
                db_writes w' = d ++ db_writes w /\
                count_type "final_result" d = 0%nat /\
                (forall t, (count_execution t d
                            <= total_budget policy t (tier :: rest))%nat) /\
                (count_type "invalid_json_escalation" d
                   <= count_type "execution" d)%nat /\
                ((1 <= Py.range_len (max_attempts policy tier))%nat ->
                 (1 <= count_type "execution" d)%nat) /\
                post (tier_at (tier :: rest) tier_idx) loc d w' f).
    { intros <- <- _. exists d1. repeat split; auto.
      - intro t. specialize (Hex1 t). cbn [total_budget].
        destruct (Tier_value tier =? t)%string; lia.
      - revert Hpost1. apply flow_post_weaken. intros i t Hi.
        destruct (Nat.eqb_spec i tier_idx) as [-> |]; [| discriminate].
        unfold tier_at. rewrite Nat.leb_refl, Nat.sub_diag. exact Hi. }
    assert (Hnext : forall loc1,
              (f1 = Continue loc1 \/ f1 = Break loc1) ->
              (after_attempts policy decision task_id decision_id tier loc1 ;;;
               tiers_ rest (S tier_idx) loc1) w1 = (f, w') ->
              exists d,
                db_writes w' = d ++ db_writes w /\
                count_type "final_result" d = 0%nat /\
                (forall t, (count_execution t d
                            <= total_budget policy t (tier :: rest))%nat) /\
                (count_type "invalid_json_escalation" d
                   <= count_type "execution" d)%nat /\
                ((1 <= Py.range_len (max_attempts policy tier))%nat ->
                 (1 <= count_type "execution" d)%nat) /\
                post (tier_at (tier :: rest) tier_idx) loc d w' f).
    { intros loc1 Hf1 Hrun. unfold bind in Hrun.
      destruct (after_attempts_writes tier loc1 w1)
        as (d2 & Hd2 & Hatt2 & Hshape).
      destruct (after_attempts policy decision task_id decision_id
                  tier loc1 w1) as [[] w2]. cbn [snd] in Hd2, Hatt2.
      apply IH in Hrun.
      destruct Hrun as (d3 & Hd3 & Hfin3 & Hex3 & Hgate3 & _ & Hpost3).
      assert (Hc2 : count_type "final_result" d2 = 0%nat /\
                    count_type "execution" d2 = 0%nat /\
                    count_type "invalid_json_escalation" d2 = 0%nat /\
                    (forall t, count_execution t d2 = 0%nat) /\
                    (forall p, last_error_after p (events_of d2) = p)).
      { destruct Hshape as [-> | (e & -> & He)]; [cbn; auto |].
        repeat split; try intro x;
          rewrite ?count_type_event, ?count_execution_event;
          cbn [events_of last_error_after];
          unfold is_execution_on, has_type; rewrite He; reflexivity. }
      destruct Hc2 as (Hfin2 & Hexe2 & Hgate2 & Hex2 & Hle2).
      exists (d3 ++ d2 ++ d1).
      rewrite Hd3, Hd2, Hd1, <- !app_assoc. split; [reflexivity |].
      rewrite !count_type_app. split; [lia |]. split.
      { intro t. rewrite !count_execution_app, Hex2. cbn [total_budget].
        specialize (Hex1 t). specialize (Hex3 t). lia. }
      split; [lia |]. split; [intro Hb; specialize (Hone1 Hb); lia |].
      assert (Hl1 : l_last_error loc1
                    = last_error_after (l_last_error loc) (events_of d1))
        by (destruct Hf1 as [-> | ->]; exact Hpost1).
      destruct f; cbn [flow_post] in *; auto.
      - rewrite !events_of_app, !last_error_after_app, Hle2, <- Hl1.
        exact Hpost3.
      - rewrite !events_of_app, !last_error_after_app, Hle2, <- Hl1.
        exact Hpost3.
      - destruct Hpost3 as (i & tr & res & lat & d' & fin & Hi & Hv & Hr
                            & Hd' & Hh).
        exists i, tr, res, lat, (d' ++ d2 ++ d1), fin.
        rewrite Hd'. repeat split; auto.
        unfold tier_at in *.
        destruct (Nat.leb_spec (S tier_idx) i) as [Hle |]; [| discriminate].
        destruct (Nat.leb_spec tier_idx i) as [_ | Hlt]; [| lia].
        replace (i - tier_idx)%nat with (S (i - S tier_idx)) by lia.
        exact Hi. }
    destruct f1 as [loc1 | loc1 | r | e].
    + apply (Hnext loc1); auto.
    + apply (Hnext loc1); auto.
    + inversion H; subst. apply Hret; auto.
    + inversion H; subst. apply Hret; auto.
Qed.

(** *** The whole executor *)

Lemma tier_at_skipn (chain : list Tier) (start i : nat) (t : Tier) :
  tier_at (skipn start chain) start i = Some t ->
  (start <= i)%nat /\ nth_error chain i = Some t.
Proof.
  unfold tier_at. destruct (Nat.leb_spec start i) as [Hle |]; [| discriminate].
  rewrite nth_error_skipn. replace (start + (i - start))%nat with i by lia.
  auto.
Qed.

(** What a run writes and returns. *)
Lemma run_spec (w : World) (o : Outcome RouterResult) (w' : World) :
  run_ w = (o, w') ->
  exists d,
    db_writes w' = d ++ db_writes w /\
    count_type "final_result" d = 0%nat /\
    (forall t, (count_execution t d
                <= total_budget policy t
                     (skipn (start_idx policy decision)
                        (fallback_chain policy)))%nat) /\
    (count_type "invalid_json_escalation" d
       <= count_type "execution" d)%nat /\
    (match skipn (start_idx policy decision) (fallback_chain policy) with
     | tier :: _ => (1 <= Py.range_len (max_attempts policy tier))%nat
     | [] => False
     end -> (1 <= count_type "execution" d)%nat) /\
    match o with
    | Returned r =>
        (exists i tier result lat d' fin,
            (start_idx policy decision <= i)%nat /\
            nth_error (fallback_chain policy) i = Some tier /\
            final tier i (a_token_count result) = Returned fin /\
            r = success_res tier fin result lat /\
            d = PatchTaskStatus task_id "completed"
                  :: InsertEvent (exec_ev tier result) :: d' /\
            hd_error (attempted w') = Some i)
        \/
        (exists loc d',
            r = exhausted decision task_id loc /\
            l_last_error loc = last_error_after None (events_of d) /\
            d = PatchTaskStatus task_id "failed" :: d')
    | Raised _ => True
    end.
Proof.
  unfold run_with_fallback, bind. fold initial_locals.
  destruct (tiers_ _ _ initial_locals w) as [f w1] eqn:Ht.
  apply tiers_spec in Ht.
  destruct Ht as (d & Hd & Hfin & Hex & Hgate & Hone & Hpost).
  assert (Hfail : forall loc, f = Continue loc \/ f = Break loc ->
            (Returned (exhausted decision task_id loc),
             snd (update_task_status task_id "failed" w1)) = (o, w') ->
            exists d0,
              db_writes w' = d0 ++ db_writes w /\
              count_type "final_result" d0 = 0%nat /\
              (forall t, (count_execution t d0
                          <= total_budget policy t
                               (skipn (start_idx policy decision)
                                  (fallback_chain policy)))%nat) /\
              (count_type "invalid_json_escalation" d0
                 <= count_type "execution" d0)%nat /\
              (match skipn (start_idx policy decision)
                       (fallback_chain policy) with
               | tier :: _ => (1 <= Py.range_len (max_attempts policy tier))%nat
               | [] => False
               end -> (1 <= count_type "execution" d0)%nat) /\
              match o with
              | Returned r =>
                  (exists i tier result lat d' fin,
                      (start_idx policy decision <= i)%nat /\
                      nth_error (fallback_chain policy) i = Some tier /\
                      final tier i (a_token_count result) = Returned fin /\
                      r = success_res tier fin result lat /\
                      d0 = PatchTaskStatus task_id "completed"
                             :: InsertEvent (exec_ev tier result) :: d' /\
                      hd_error (attempted w') = Some i)
                  \/
                  (exists loc d',
                      r = exhausted decision task_id loc /\
                      l_last_error loc = last_error_after None (events_of d0) /\
                      d0 = PatchTaskStatus task_id "failed" :: d')
              | Raised _ => True
              end).
  { intros loc Hf Hout. inversion Hout; subst o w'; clear Hout.
    exists (PatchTaskStatus task_id "failed" :: d).
    cbn [snd update_task_status db_write db_writes].
    rewrite Hd. split; [reflexivity |].
    rewrite !count_type_patch. split; [exact Hfin |].
    split; [intro t; rewrite count_execution_patch; apply Hex |].
    split; [exact Hgate |]. split; [exact Hone |].
    right. exists loc, d.
    split; [reflexivity |]. split; [| reflexivity].
    cbn [events_of]. destruct Hf as [-> | ->]; exact Hpost. }
  destruct f as [loc | loc | r | e]; intro H.
  - apply (Hfail loc); auto.
  - apply (Hfail loc); auto.
  - inversion H; subst o w'; clear H. exists d.
    repeat split; auto.
    cbn [flow_post] in Hpost.
    destruct Hpost as (i & tr & res & lat & d' & fin & Hi & Hv & Hr
                       & Hd' & Hh).
    apply tier_at_skipn in Hi. destruct Hi as [Hle Hnth].
    left. exists i, tr, res, lat, d', fin. auto 10.
  - inversion H; subst o w'; clear H. exists d. repeat split; auto.
Qed.

Lemma last_error_after_quiet (prev : option string) (evs : list Event) :
  List.length (filter (has_type "execution") evs) = 0%nat ->
  List.length (filter (has_type "invalid_json_escalation") evs) = 0%nat ->
  last_error_after prev evs = prev.
Proof.
  induction evs as [| e evs IH]; [reflexivity |].
  cbn [filter last_error_after].
  destruct (has_type "invalid_json_escalation" e); [discriminate |].
  destruct (has_type "execution" e); [discriminate |].
  cbn [andb]. exact IH.
Qed.

Lemma NoDup_skipn {A : Type} (n : nat) (l : list A) :
  NoDup l -> NoDup (skipn n l).
Proof.
  revert l. induction n as [| n IH]; intros l H; [exact H |].
  destruct l as [| x l]; [exact H |].
  cbn [skipn]. apply IH. now inversion H.
Qed.

Lemma total_budget_absent (x : Tier) (rest : list Tier) :
  ~ In x rest -> total_budget policy (Tier_value x) rest = 0%nat.
Proof.
  induction rest as [| tier rest IH]; intro Hn; [reflexivity |].
  cbn [total_budget].
  destruct (String.eqb_spec (Tier_value tier) (Tier_value x)) as [He | _].
  - apply Tier_value_inj in He. exfalso. apply Hn. now left.
  - apply IH. intro Hin. apply Hn. now right.
Qed.

(** A chain that names no tier twice allows a tier its own budget and no
    more. *)
Lemma total_budget_NoDup (x : Tier) (rest : list Tier) :
  NoDup rest ->
  (total_budget policy (Tier_value x) rest
   <= Py.range_len (max_attempts policy x))%nat.
Proof.
  induction rest as [| tier rest IH]; intro Hnd; [cbn; lia |].
  inversion Hnd as [| ? ? Hnotin Hnd']; subst.
  cbn [total_budget].
  destruct (String.eqb_spec (Tier_value tier) (Tier_value x)) as [He | _].
  - apply Tier_value_inj in He. subst tier.
    rewrite total_budget_absent by exact Hnotin. lia.
  - specialize (IH Hnd'). lia.
Qed.

(** What the constructor call under [# Success] returns, when it
    returns: [steps] is [float(escalation)] and [thousands] is
    [token_count / 1000]. *)
Lemma final_decision_fields (tier : Tier) (i : nat)
    (token_count : TokenCount) (fin : RouterDecision) :
  final tier i token_count = Returned fin ->
  exists steps thousands,
    Py.float_of_int (escalation_at policy decision i) = Returned steps /\
    per_thousand token_count = Returned thousands /\
    fin = {| route := tier;
             model := model_of tier;
             reason := (reason decision
                          ++ (if (0 <? escalation_at policy decision i)%Z
                              then "; escalated "
                                   ++ Py.str_int
                                        (escalation_at policy decision i)
                                   ++ "x"
                              else ""))%string;
             confidence :=
               Py.max (Py.decimal 5 10)
                 (Py.fsub (confidence decision)
                    (Py.fmul steps (Py.decimal 15 100)));
             escalation_level := escalation_at policy decision i;
             cost_estimate := Py.round (Py.fmul (rate tier) thousands) 6 |} /\
    RouterDecision_valid fin = true.
Proof.
  unfold final_decision, estimate_cost.
  destruct (Py.float_of_int _) as [steps | e]; [| discriminate].
  destruct (per_thousand token_count) as [thousands | e]; [| discriminate].
  intro H. apply new_RouterDecision_fields in H. destruct H as [-> Hv].
  exists steps, thousands. repeat split. exact Hv.
Qed.

(** C1 (as amended). When the executor returns a Result: on success, the
    escalation level of its Decision is the chain position of the tier
    that produced the output (the position of the last adapter call)
    minus the start position, and that position holds the tier used; on
    failure, the Result carries the original Decision unchanged, whatever
    tiers were attempted. *)
Theorem escalation_level_of_result (w : World) (r : RouterResult)
    (w' : World) :
  run_ w = (Returned r, w') ->
  (res_success r = true ->
   exists i,
     hd_error (attempted w') = Some i /\
     (start_idx policy decision <= i)%nat /\
     nth_error (fallback_chain policy) i = Some (res_tier_used r) /\
     escalation_level (res_decision r)
     = Z.of_nat i - Z.of_nat (start_idx policy decision)) /\
  (res_success r = false -> res_decision r = decision).
Proof.
  intro H. apply run_spec in H.
  destruct H as (d & _ & _ & _ & _ & _ & [Hok | Hko]).
  - destruct Hok as (i & tier & result & lat & d' & fin & Hle & Hnth & Hfin
                     & -> & _ & Hh).
    apply final_decision_fields in Hfin.
    destruct Hfin as (steps & thousands & _ & _ & -> & _).
    split; [| discriminate].
    intros _. exists i. cbn. auto.
  - destruct Hko as (loc & d' & -> & _).
    split; [discriminate | reflexivity].
Qed.

(** C6 (as amended). When the executor returns a success Result, the
    output was accepted at a chain position [i] at or after the start
    position; with escalation = [i] minus the start position, the Result's
    Decision holds the tier at [i], that tier's model, the original reason
    with "; escalated Nx" appended exactly when escalation > 0, escalation
    level = escalation, and, in Python's float arithmetic, confidence
    [max(0.5, original - escalation * 0.15)] and cost estimate
    [round(rate * (token_count / 1000), 6)], where [rate] is the tier's
    and token_count is that of the accepted attempt: [steps] is the float
    of the escalation and [thousands] the quotient [token_count / 1000],
    both of which were computed without an exception, and each operation
    rounds to the nearest float.  The last two registry writes are that
    attempt's execution event and the status patch to completed. *)
Theorem accepted_result (w : World) (r : RouterResult) (w' : World) :
  run_ w = (Returned r, w') ->
  res_success r = true ->
  exists i tier result d' steps thousands,
    hd_error (attempted w') = Some i /\
    (start_idx policy decision <= i)%nat /\
    nth_error (fallback_chain policy) i = Some tier /\
    db_writes w' = PatchTaskStatus task_id "completed"
                     :: InsertEvent (exec_ev tier result)
                     :: d' ++ db_writes w /\
    let escalation := Z.of_nat i - Z.of_nat (start_idx policy decision) in
    Py.float_of_int escalation = Returned steps /\
    per_thousand (a_token_count result) = Returned thousands /\
    res_decision r
    = {| route := tier;
         model := Py.dict_get (models policy) (Tier_value tier)
                    (model decision);
         reason := (reason decision
                      ++ (if (0 <? escalation)%Z
                          then "; escalated " ++ Py.str_int escalation ++ "x"
                          else ""))%string;
         confidence :=
           Py.max (Py.decimal 5 10)
             (Py.fsub (confidence decision)
                (Py.fmul steps (Py.decimal 15 100)));
         escalation_level := escalation;
         cost_estimate := Py.round (Py.fmul (rate tier) thousands) 6 |} /\
    res_tier_used r = tier /\
    res_model_used r = Py.dict_get (models policy) (Tier_value tier)
                         (model decision) /\
    res_output r = a_output result.
Proof.
  intros H Hs. apply run_spec in H.
  destruct H as (d & Hd & _ & _ & _ & _ & [Hok | Hko]).
  - destruct Hok as (i & tier & result & lat & d' & fin & Hle & Hnth & Hfin
                     & -> & -> & Hh).
    apply final_decision_fields in Hfin.
    destruct Hfin as (steps & thousands & Hsteps & Hth & -> & _).
    exists i, tier, result, d', steps, thousands. repeat split; auto.
  - destruct Hko as (loc & d' & -> & _). discriminate.
Qed.

(** C8. When the loop over the tiers runs off the end of the chain, the
    executor patches the task status to failed and returns the failure
    Result; every failure Result has success false, no output, the
    originally decided tier and model, and the error text "All tiers
    exhausted. Last error: " followed by the last error recorded in the
    audit trail, which is None when no attempt was made; a chain of
    length zero gives that Result at once, with no adapter call. *)
Theorem exhausted_result (w : World) (o : Outcome RouterResult)
    (w' : World) :
  run_ w = (o, w') ->
  (forall loc w1,
     tiers_ (skipn (start_idx policy decision) (fallback_chain policy))
       (start_idx policy decision) initial_locals w = (Continue loc, w1) ->
     o = Returned (exhausted decision task_id loc) /\
     db_writes w' = PatchTaskStatus task_id "failed" :: db_writes w1) /\
  (forall r,
     o = Returned r -> res_success r = false ->
     res_tier_used r = route decision /\
     res_model_used r = model decision /\
     res_output r = JNull /\
     res_error r
     = Some ("All tiers exhausted. Last error: "
               ++ Py.str_opt
                    (last_error_after None (events_of (emitted w w'))))%string /\
     hd_error (db_writes w') = Some (PatchTaskStatus task_id "failed") /\
     (count_type "execution" (emitted w w') = 0%nat ->
      res_error r = Some "All tiers exhausted. Last error: None")) /\
  (fallback_chain policy = [] ->
   o = Returned (exhausted decision task_id initial_locals) /\
   res_error (exhausted decision task_id initial_locals)
   = Some "All tiers exhausted. Last error: None" /\
   db_writes w' = PatchTaskStatus task_id "failed" :: db_writes w /\
   http_requests w' = http_requests w /\
   attempted w' = attempted w).
Proof.
  intro H. split; [| split].
  - intros loc w1 Ht. unfold run_with_fallback, bind in H.
    fold initial_locals in H. rewrite Ht in H. cbn in H.
    inversion H; subst. auto.
  - intros r -> Hs. apply run_spec in H.
    destruct H as (d & Hd & _ & _ & Hgate & _ & [Hok | Hko]).
    + destruct Hok as (i & tier & result & lat & d' & fin & _ & _ & _ & ->
                       & _).
      discriminate.
    + destruct Hko as (loc & d' & -> & Hl & ->).
      rewrite (emitted_app _ _ _ Hd), Hd, <- Hl.
      rewrite !count_type_patch in Hgate. rewrite !count_type_patch.
      cbn [exhausted res_tier_used res_model_used res_output res_error
           hd_error app].
      repeat split; auto.
      intro Hnone. cbn [events_of] in Hl. rewrite Hl.
      rewrite last_error_after_quiet; [reflexivity | exact Hnone |].
      unfold count_type in Hgate, Hnone. lia.
  - intro Hnil. unfold run_with_fallback, bind in H. rewrite Hnil in H.
    fold initial_locals in H.
    replace (skipn _ []) with (@nil Tier) in H by (now destruct (start_idx _ _)).
    cbn in H. inversion H; subst. cbn. auto.
Qed.

(** Without the assumption on the chain: a tier gets no more [execution]
    events than the chain, from the start position on, grants it. *)
Lemma execution_budget (w : World) (o : Outcome RouterResult) (w' : World)
    (t : string) :
  run_ w = (o, w') ->
  (count_execution t (emitted w w')
   <= total_budget policy t
        (skipn (start_idx policy decision) (fallback_chain policy)))%nat.
Proof.
  intro H. apply run_spec in H.
  destruct H as (d & Hd & _ & Hex & _). rewrite (emitted_app _ _ _ Hd).
  apply Hex.
Qed.

(** C2 (as amended). For a run of the executor under a policy whose
    fallback chain names no tier twice, the [execution] events written
    with tier local number at most [max_local_retries] (none when that is
    zero or negative), and those written with any other tier number at
    most one. *)
Theorem retry_budget (w : World) (o : Outcome RouterResult) (w' : World) :
  run_ w = (o, w') ->
  NoDup (fallback_chain policy) ->
  Z.of_nat (count_execution "local" (emitted w w'))
    <= Z.max 0 (max_local_retries policy) /\
  (forall tier, tier <> LOCAL ->
     (count_execution (Tier_value tier) (emitted w w') <= 1)%nat).
Proof.
  intros H Hnd.
  pose proof (NoDup_skipn (start_idx policy decision) _ Hnd) as Hnd'.
  split.
  - pose proof (execution_budget w o w' "local" H) as Hb.
    pose proof (total_budget_NoDup LOCAL _ Hnd') as Ht.
    cbn [Tier_value] in Ht. unfold max_attempts, Py.range_len in Ht.
    cbn [Tier_eqb] in Ht. lia.
  - intros tier Hne.
    pose proof (execution_budget w o w' (Tier_value tier) H) as Hb.
    pose proof (total_budget_NoDup tier _ Hnd') as Ht.
    unfold max_attempts, Py.range_len in Ht.
    apply Tier_eqb_neq in Hne. rewrite Hne in Ht.
    change (Z.to_nat 1) with 1%nat in Ht. lia.
Qed.

End FallbackProperties.

(** ** The /run pipeline *)

Lemma find_start_bound (t : Tier) (chain : list Tier) (i : nat) :
  find_start t chain i = 0%nat
  \/ (i <= find_start t chain i < i + List.length chain)%nat.
Proof.
  revert i. induction chain as [| t' chain IH]; intro i; [now left |].
  cbn [find_start List.length]. destruct (Tier_eqb t' t).
  - right. lia.
  - destruct (IH (S i)) as [-> | Hb]; [now left | right; lia].
Qed.

(** The executor starts inside a chain that is not empty. *)
Lemma start_idx_lt (policy : RoutingPolicy) (decision : RouterDecision) :
  fallback_chain policy <> [] ->
  (start_idx policy decision < List.length (fallback_chain policy))%nat.
Proof.
  intro Hne. unfold start_idx.
  destruct (fallback_chain policy) as [| t chain]; [contradiction |].
  destruct (find_start_bound (route decision) (t :: chain) 0) as [-> | Hb];
    cbn [List.length] in *; lia.
Qed.

Lemma first_tier_budget (policy : RoutingPolicy) (decision : RouterDecision) :
  fallback_chain policy <> [] ->
  1 <= max_local_retries policy ->
  match skipn (start_idx policy decision) (fallback_chain policy) with
  | tier :: _ => (1 <= Py.range_len (max_attempts policy tier))%nat
  | [] => False
  end.
Proof.
  intros Hne Hretries. pose proof (start_idx_lt policy decision Hne) as Hlt.
  destruct (skipn _ _) as [| tier rest] eqn:Hs.
  - apply (f_equal (@List.length Tier)) in Hs.
    rewrite length_skipn in Hs. cbn in Hs. lia.
  - unfold max_attempts, Py.range_len. destruct (Tier_eqb tier LOCAL); lia.
Qed.

Section PipelineProperties.

Context {JL : JsonLoads}.
Variable env : Env.

(** C3 (as amended). A /run request that returns a Result has written
    exactly one [final_result] event, as its last registry write, whose
    success field is the Result's; it has written at least one
    [execution] event when the policy read for the request has a
    fallback chain that is not empty and [max_local_retries] of at least
    one. *)
Theorem audit_totality (request : RunRequest) (w : World)
    (r : RouterResult) (w' : World) :
  handle_run env request w = (Returned r, w') ->
  count_type "final_result" (emitted w w') = 1%nat /\
  (exists e d,
     emitted w w' = InsertEvent e :: d /\
     ev_type e = "final_result" /\
     ev_success e = res_success r) /\
  (fallback_chain (fst (get_routing_policy env w)) <> [] ->
   1 <= max_local_retries (fst (get_routing_policy env w)) ->
   (1 <= count_type "execution" (emitted w w'))%nat).
Proof.
  unfold handle_run.
  cbv beta iota zeta delta
    [bind get_routing_policy get_governance log_task update_task_status
     log_decision log_event db_write ret fst snd].
  set (policy := match registry_policy env with
                 | Some p => p
                 | None => default_RoutingPolicy
                 end).
  set (governance := match registry_governance env with
                     | Some g => g
                     | None => default_Governance
                     end).
  set (tid := if Py.truthy_opt (inserted_task_id env)
              then Py.or_empty (inserted_task_id env) else uuid4 env).
  cbn [db_writes http_requests attempted].
  destruct (compute_decision request policy governance)
    as [decision | e] eqn:Hd; [| discriminate].
  match goal with
  | |- context [run_with_fallback ?e ?rq ?p ?d ?t ?i ?w0] =>
      destruct (run_with_fallback e rq p d t i w0) as [o w1] eqn:Hrun
  end.
  apply run_spec in Hrun.
  destruct Hrun as (d & Hw1 & Hfin & _ & _ & Hone & _).
  cbn [db_writes] in Hw1.
  destruct o as [result | e]; [| discriminate].
  intro H. inversion H; subst r w'; clear H.
  match goal with
  | |- context [emitted w ?w2] =>
      assert (Hem : db_writes w2
                    = (InsertEvent
                         {| ev_task_id := tid;
                            ev_decision_id := inserted_decision_id env;
                            ev_type := "final_result";
                            ev_tier := Tier_value (res_tier_used result);
                            ev_model := res_model_used result;
                            ev_success := res_success result;
                            ev_latency_ms := res_latency_ms result;
                            ev_token_count := TokInt 0;
                            ev_error_message := res_error result |}
                         :: d ++ [PatchTaskStatus tid "executing";
                                  InsertDecision tid decision policy
                                    (level governance);
                                  PatchTaskStatus tid "routing";
                                  InsertTask
                                    {| t_task_type := task_type request;
                                       t_payload := run_payload request;
                                       t_source := source request;
                                       t_sensitivity :=
                                         Sensitivity_value
                                           (sensitivity request) |}])
                      ++ db_writes w)
        by (cbn [db_writes]; rewrite Hw1; cbn [app];
            rewrite <- app_assoc; reflexivity)
  end.
  rewrite (emitted_app _ _ _ Hem).
  rewrite !count_type_event, !count_type_app. cbn [has_type ev_type].
  split; [rewrite Hfin; reflexivity |].
  split; [eexists; eexists; split; [reflexivity | split; reflexivity] |].
  intros Hne Hretries.
  specialize (Hone (first_tier_budget policy decision Hne Hretries)).
  change ((if ("final_result" =? "execution")%string then 1 else 0)%nat)
    with 0%nat.
  lia.
Qed.

End PipelineProperties.

(** ** The JSON gate and the unconfigured adapters *)

Section GateProperties.

Context {JL : JsonLoads}.
Variables (env : Env) (request : RunRequest) (policy : RoutingPolicy)
          (decision : RouterDecision)
          (task_id : string) (decision_id : option string).

Local Abbreviation model_of := (model_for policy decision).
Local Abbreviation exec_ev :=
  (execution_event policy decision task_id decision_id).
Local Abbreviation gate_ev := (gate_event policy decision task_id decision_id).
Local Abbreviation final := (final_decision policy decision).
Local Abbreviation success_res := (success_result policy decision task_id).
Local Abbreviation attempts_ :=
  (attempts env request policy decision task_id decision_id).
Local Abbreviation tiers_ :=
  (tiers env request policy decision task_id decision_id).
Local Abbreviation after_ :=
  (after_attempts policy decision task_id decision_id).



(** The chain positions a loop adds to the ghost history are put in
    front of those that were there. *)
Lemma attempts_attempted (n : nat) (tier : Tier) (tier_idx : nat) :
  forall (loc : Locals) (w : World) (f : Flow) (w' : World),
  attempts_ n tier tier_idx loc w = (f, w') ->
  exists a, attempted w' = a ++ attempted w.
Proof.
  induction n as [| n IH]; intros loc w f w' H.
  - cbn in H. inversion H; subst. exists []. reflexivity.
  - cbn [attempts] in H. unfold bind in H.
    destruct (attempt env request policy decision task_id decision_id
                tier tier_idx loc w) as [f1 w1] eqn:Ha.
    apply attempt_cases in Ha.
    destruct Ha as (result & w0 & _ & Hatt & _ & _).
    destruct f1 as [loc1 | loc1 | r | e];
      try (inversion H; subst; exists [tier_idx]; exact Hatt).
    apply IH in H. destruct H as (a & Ha).
    exists (a ++ [tier_idx]). rewrite Ha, Hatt, <- app_assoc. reflexivity.
Qed.

Lemma tiers_attempted (rest : list Tier) :
  forall (tier_idx : nat) (loc : Locals) (w : World) (f : Flow) (w' : World),
  tiers_ rest tier_idx loc w = (f, w') ->
  exists a, attempted w' = a ++ attempted w.
Proof.
  induction rest as [| tier rest IH]; intros tier_idx loc w f w' H.
  - cbn in H. inversion H; subst. exists []. reflexivity.
  - cbn [tiers] in H. unfold bind at 1 in H.
    destruct (attempts_ _ tier tier_idx loc w) as [f1 w1] eqn:Ha.
    apply attempts_attempted in Ha. destruct Ha as (a1 & Ha1).
    assert (Hnext : forall loc1,
              (after_ tier loc1 ;;; tiers_ rest (S tier_idx) loc1) w1
              = (f, w') ->
              exists a, attempted w' = a ++ attempted w).
    { intros loc1 Hrun. unfold bind in Hrun.
      destruct (after_attempts_writes policy decision task_id decision_id
                  tier loc1 w1) as (d2 & _ & Hatt2 & _).
      destruct (after_ tier loc1 w1) as [[] w2]. cbn [snd] in Hatt2.
      apply IH in Hrun. destruct Hrun as (a3 & Ha3).
      exists (a3 ++ a1). rewrite Ha3, Hatt2, Ha1, <- app_assoc.
      reflexivity. }
    destruct f1 as [loc1 | loc1 | r | e];
      try (apply (Hnext loc1); exact H);
      inversion H; subst; exists a1; exact Ha1.
Qed.

(** One pass of the tier loop: the attempt loop of the first tier, and
    then, unless it returned or raised, the rest of the chain. *)
Lemma tiers_cons_run (tier : Tier) (rest : list Tier) (tier_idx : nat)
    (loc : Locals) (w : World) (f : Flow) (w' : World) :
  tiers_ (tier :: rest) tier_idx loc w = (f, w') ->
  exists f1 w1,
    attempts_ (Py.range_len (max_attempts policy tier)) tier tier_idx loc w
    = (f1, w1) /\
    match f1 with
    | Continue l | Break l =>
        (after_ tier l ;;; tiers_ rest (S tier_idx) l) w1 = (f, w')
    | _ => (f1, w1) = (f, w')
    end.
Proof.
  intro H. cbn [tiers] in H. unfold bind at 1 in H.
  destruct (attempts_ _ tier tier_idx loc w) as [f1 w1].
  exists f1, w1. split; [reflexivity |].
  destruct f1; exact H.
Qed.

(** An attempt loop with an attempt to make begins with an adapter
    call, made in the world the loop starts in. *)
Lemma attempts_first_attempt (n : nat) (tier : Tier) (tier_idx : nat)
    (loc : Locals) (w : World) (f : Flow) (w' : World) :
  attempts_ (S n) tier tier_idx loc w = (f, w') ->
  exists result w1 a d,
    execute_on_tier env tier (model_of tier) (prompt request)
      (context request) w = (result, w1) /\
    attempted w' = a ++ tier_idx :: attempted w /\
    db_writes w' = d ++ InsertEvent (exec_ev tier result) :: db_writes w.
Proof.
  intro H. cbn [attempts] in H. unfold bind in H.
  destruct (attempt env request policy decision task_id decision_id
              tier tier_idx loc w) as [f1 w1] eqn:Ha.
  apply attempt_cases in Ha.
  destruct Ha as (result & w0 & Hex & Hatt & _ & Hcase).
  exists result, w0.
  assert (Hdb : exists d1,
            db_writes w1 = d1 ++ InsertEvent (exec_ev tier result)
                                   :: db_writes w).
  { destruct Hcase as [(_ & _ & Hdb)
                      | [(_ & _ & Hdb)
                      | [(_ & _ & _ & _ & Hdb)
                      | [(_ & _ & _ & Hdb)
                      | (_ & _ & _ & Hdb)]]]];
      rewrite Hdb;
      [exists [] | exists [] | eexists [_] | eexists [_] | exists []];
      reflexivity. }
  destruct Hdb as (d1 & Hdb). clear Hcase.
  destruct f1 as [l1 | l1 | r | e];
    try (inversion H; subst; exists [], d1; repeat split; assumption).
  pose proof (attempts_attempted _ _ _ _ _ _ _ H) as (a2 & Ha2).
  apply attempts_spec in H. destruct H as (d2 & Hd2 & _).
  exists a2, (d2 ++ d1). rewrite Ha2, Hatt, Hd2, Hdb, <- app_assoc.
  repeat split. exact Hex.
Qed.

(** The tier loop begins with an adapter call on its first tier, when
    that tier has an attempt to make: the call is made in the world the
    loop starts in, its chain position is the oldest the loop adds to
    the history, and its execution event the oldest write it adds to the
    trail. *)
Lemma tiers_first_attempt (tier : Tier) (rest : list Tier)
    (tier_idx : nat) (loc : Locals) (w : World) (f : Flow) (w' : World) :
  tiers_ (tier :: rest) tier_idx loc w = (f, w') ->
  (1 <= Py.range_len (max_attempts policy tier))%nat ->
  exists result w1 a d,
    execute_on_tier env tier (model_of tier) (prompt request)
      (context request) w = (result, w1) /\
    attempted w' = a ++ tier_idx :: attempted w /\
    db_writes w' = d ++ InsertEvent (exec_ev tier result) :: db_writes w.
Proof.
  intros H Hbudget. apply tiers_cons_run in H.
  destruct H as (f1 & w1 & Hloop & Hrun).
  destruct (Py.range_len (max_attempts policy tier)) as [| n]; [lia |].
  apply attempts_first_attempt in Hloop.
  destruct Hloop as (result & w0 & a2 & d2 & Hex & Ha2 & Hd2).
  exists result, w0.
  assert (Hgo : forall l,
            (after_ tier l ;;; tiers_ rest (S tier_idx) l) w1 = (f, w') ->
            exists a d,
              execute_on_tier env tier (model_of tier) (prompt request)
                (context request) w = (result, w0) /\
              attempted w' = a ++ tier_idx :: attempted w /\
              db_writes w' = d ++ InsertEvent (exec_ev tier result)
                                    :: db_writes w).
  { intros l Hr. unfold bind in Hr.
    destruct (after_attempts_writes policy decision task_id decision_id
                tier l w1) as (d3 & Hd3 & Hatt3 & _).
    destruct (after_ tier l w1) as [[] w3]. cbn [snd] in Hd3, Hatt3.
    pose proof (tiers_attempted _ _ _ _ _ _ Hr) as (a4 & Ha4).
    apply tiers_spec in Hr. destruct Hr as (d4 & Hd4 & _).
    exists (a4 ++ a2), (d4 ++ d3 ++ d2).
    rewrite Ha4, Hatt3, Ha2, Hd4, Hd3, Hd2, <- !app_assoc.
    repeat split. exact Hex. }
  destruct f1 as [l | l | r | e];
    try (apply (Hgo l); exact Hrun);
    inversion Hrun; subst; exists a2, d2; repeat split; assumption.
Qed.

(** C9. Without its API key, the market adapter and the premium adapter
    return at once a failed result (no output, latency 0, token count 0,
    the error "<KEY> not configured") and leave the world as it was, so
    no HTTP request is issued.  In the executor the attempt on such a
    tier is an ordinary failed one: it writes one execution event, with
    success false and that error, sets [last_error], issues no request
    and lets the loop go on; the tier has no other attempt, and the tier
    loop continues with the rest of the chain at the next position.
    However the run ends, that execution event stays in the trail and
    the position is in the history of attempts; and when the rest of the
    chain begins with a tier that has an attempt to make, that tier's
    adapter is called next, at the following position, and its execution
    event follows in the trail. *)
Theorem unconfigured_tier :
  (OPENROUTER_API_KEY env = EmptyString ->
   forall (prompt model : string) (context system_prompt : option string)
          (w : World),
     OpenRouterAdapter_generate env prompt model context system_prompt w
     = ({| a_success := false; a_output := JNull; a_latency_ms := 0;
           a_token_count := TokInt 0;
           a_error := Some "OPENROUTER_API_KEY not configured" |}, w)) /\
  (ANTHROPIC_API_KEY env = EmptyString ->
   forall (prompt model : string) (context system_prompt : option string)
          (w : World),
     ClaudeAdapter_generate env prompt model context system_prompt w
     = ({| a_success := false; a_output := JNull; a_latency_ms := 0;
           a_token_count := TokInt 0;
           a_error := Some "ANTHROPIC_API_KEY not configured" |}, w)) /\
  (forall (tier : Tier) (name : string),
     api_key env tier = Some (name, EmptyString) ->
     forall (rest : list Tier) (tier_idx : nat) (loc : Locals) (w : World),
       let ev :=
         {| ev_task_id := task_id;
            ev_decision_id := decision_id;
            ev_type := "execution";
            ev_tier := Tier_value tier;
            ev_model := model_of tier;
            ev_success := false;
            ev_latency_ms := 0;
            ev_token_count := TokInt 0;
            ev_error_message := Some (name ++ " not configured")%string |} in
       let loc' :=
         {| l_local_fail_count := l_local_fail_count loc;
            l_last_error := Some (name ++ " not configured")%string;
            l_total_latency := l_total_latency loc + 0 |} in
       let w_ev :=
         {| db_writes := InsertEvent ev :: db_writes w;
            http_requests := http_requests w;
            attempted := tier_idx :: attempted w |} in
       attempt env request policy decision task_id decision_id
         tier tier_idx loc w = (Continue loc', w_ev) /\
       attempts_ (Py.range_len (max_attempts policy tier)) tier tier_idx
         loc w = (Continue loc', w_ev) /\
       tiers_ (tier :: rest) tier_idx loc w
       = tiers_ rest (S tier_idx) loc' w_ev /\
       (forall (f : Flow) (wf : World),
          tiers_ (tier :: rest) tier_idx loc w = (f, wf) ->
          (exists d, db_writes wf = d ++ InsertEvent ev :: db_writes w) /\
          (exists a, attempted wf = a ++ tier_idx :: attempted w) /\
          (forall (next : Tier) (rest' : list Tier),
             rest = next :: rest' ->
             (1 <= Py.range_len (max_attempts policy next))%nat ->
             exists result w1 a d,
               execute_on_tier env next (model_of next) (prompt request)
                 (context request) w_ev = (result, w1) /\
               attempted wf
               = a ++ S tier_idx :: tier_idx :: attempted w /\
               db_writes wf
               = d ++ InsertEvent (exec_ev next result)
                        :: InsertEvent ev :: db_writes w))).
Proof.
  split; [| split].
  - intros Hkey prompt model context system_prompt w.
    unfold OpenRouterAdapter_generate, OpenRouterAdapter_is_configured.
    rewrite Hkey. reflexivity.
  - intros Hkey prompt model context system_prompt w.
    unfold ClaudeAdapter_generate, ClaudeAdapter_is_configured.
    rewrite Hkey. reflexivity.
  - intros tier name Hkey rest tier_idx loc w ev loc' w_ev.
    assert (Hattempt : attempt env request policy decision task_id
                         decision_id tier tier_idx loc w
                       = (Continue loc', w_ev)).
    { subst ev loc' w_ev.
      destruct tier; cbn [api_key] in Hkey; inversion Hkey as [[Hn Hk]];
        clear Hkey; unfold attempt, bind, ghost_attempt;
        cbn [execute_on_tier Tier_eqb];
        unfold OpenRouterAdapter_generate, OpenRouterAdapter_is_configured,
          ClaudeAdapter_generate, ClaudeAdapter_is_configured;
        rewrite Hk; reflexivity. }
    assert (Hbudget : Py.range_len (max_attempts policy tier) = 1%nat).
    { destruct tier; cbn [api_key] in Hkey; try discriminate;
        reflexivity. }
    assert (Hattempts : attempts_ (Py.range_len (max_attempts policy tier))
                          tier tier_idx loc w = (Continue loc', w_ev)).
    { rewrite Hbudget. cbn [attempts]. unfold bind. rewrite Hattempt.
      reflexivity. }
    assert (Htiers : tiers_ (tier :: rest) tier_idx loc w
                     = tiers_ rest (S tier_idx) loc' w_ev).
    { cbn [tiers]. unfold bind at 1. rewrite Hattempts.
      unfold bind, after_attempts.
      destruct tier; cbn [api_key] in Hkey; try discriminate;
        reflexivity. }
    split; [exact Hattempt |]. split; [exact Hattempts |].
    split; [exact Htiers |].
    intros f wf Hrun. rewrite Htiers in Hrun.
    split; [| split].
    + apply tiers_spec in Hrun. destruct Hrun as (d & Hd & _).
      exists d. exact Hd.
    + apply tiers_attempted in Hrun. destruct Hrun as (a & Ha).
      exists a. exact Ha.
    + intros next rest' -> Hnext.
      apply tiers_first_attempt in Hrun; [| exact Hnext].
      destruct Hrun as (result & w1 & a & d & Hex & Ha & Hd).
      exists result, w1, a, d. repeat split; assumption.
Qed.

Lemma length_append (a b : string) :
  String.length (a ++ b)%string = (String.length a + String.length b)%nat.
Proof. induction a as [| c a IH]; cbn; [reflexivity | now rewrite IH]. Qed.

(** The confidence of a Decision of the engine, lowered by up to three
    steps of 0.15 and held at 0.5 from below, is computed without an
    exception and is within the schema's bounds. *)
Lemma lowered_confidence_valid (c : Py.float) (escalation : Z) :
  In c [Py.decimal 95 100; Py.decimal 85 100; Py.decimal 90 100] ->
  0 <= escalation <= 3 ->
  exists steps,
    Py.float_of_int escalation = Returned steps /\
    Py.fle zero
      (Py.max (Py.decimal 5 10)
         (Py.fsub c (Py.fmul steps (Py.decimal 15 100))))
    && Py.fle
         (Py.max (Py.decimal 5 10)
            (Py.fsub c (Py.fmul steps (Py.decimal 15 100))))
         one = true.
Proof.
  intros Hc He.
  assert (Hcases : escalation = 0 \/ escalation = 1 \/ escalation = 2
                   \/ escalation = 3) by lia.
  destruct Hcases as [-> | [-> | [-> | ->]]];
    destruct Hc as [<- | [<- | [<- | []]]];
    (eexists; split; [vm_compute; reflexivity | vm_compute; reflexivity]).
Qed.

(** The constructor call for the final Decision of an accepted attempt
    returns one when the original Decision is one of the engine's, the
    adapter reports a token count that is an int, not negative and small
    enough to be divided as a float, and the attempt is at most three
    positions past the start. *)
Lemma final_decision_returns (tier : Tier) (tier_idx : nat)
    (token_count : Z) :
  RouterDecision_valid decision = true ->
  In (confidence decision)
    [Py.decimal 95 100; Py.decimal 85 100; Py.decimal 90 100] ->
  0 <= token_count < 2 ^ 1023 ->
  0 <= escalation_at policy decision tier_idx <= 3 ->
  exists fin, final tier tier_idx (TokInt token_count) = Returned fin.
Proof.
  intros Hd Hc Ht He. unfold final_decision.
  destruct (lowered_confidence_valid _ _ Hc He) as (steps & -> & Hconf).
  destruct (estimate_cost_returns (Tier_value tier) token_count Ht)
    as (cost & -> & Hcost).
  eexists. apply new_RouterDecision_returns.
  unfold RouterDecision_valid in *.
  cbn [reason confidence escalation_level cost_estimate].
  apply andb_true_iff in Hconf. destruct Hconf as [Hc0 Hc1].
  rewrite Hc0, Hc1, Hcost.
  repeat (apply andb_true_iff in Hd; destruct Hd as [Hd ?]).
  destruct He as [He0 He3].
  apply Z.leb_le in He0, He3. rewrite He0, He3.
  rewrite !andb_true_r.
  apply Z.leb_le in Hd. apply Z.leb_le. unfold Py.len in *.
  rewrite length_append. lia.
Qed.

Lemma NoDup_chain_length (chain : list Tier) :
  NoDup chain -> (List.length chain <= 3)%nat.
Proof.
  intro H.
  apply (NoDup_incl_length (l' := [LOCAL; MARKET; PREMIUM])) in H;
    [exact H |].
  intros t _. destruct t; cbn; auto.
Qed.

(** What a successful result of an adapter holds, for backends that
    report sane token counts and answer nothing the gate cannot take. *)
Lemma read_outcome_sane (provider : string) (rq : HttpRequest) (k : nat) :
  tokens_nonneg env ->
  gate_catches env ->
  a_success (read_outcome provider (backend env rq k)) = true ->
  (exists n,
     a_token_count (read_outcome provider (backend env rq k)) = TokInt n /\
     0 <= n < 2 ^ 1023) /\
  (exists valid,
     _is_valid_json_output
       (a_output (read_outcome provider (backend env rq k)))
     = Returned valid).
Proof.
  intros Hn Hg. specialize (Hn rq k). specialize (Hg rq k).
  destruct (backend env rq k)
    as [lat status text content tc late | lat | lat msg];
    cbn [read_outcome]; try discriminate.
  destruct (negb (status =? 200)); [discriminate |].
  specialize (Hn _ _ _ _ _ _ eq_refl).
  specialize (Hg lat status text content tc late).
  destruct (json_loads content) as [parsed | | e message] eqn:Hl;
    cbn [a_success a_token_count a_output]; try discriminate;
    intros _; (split; [exact Hn |]).
  - destruct parsed as [| b | lit | s | items | members];
      cbn [_is_valid_json_output]; try (eexists; reflexivity).
    destruct (json_loads s) as [v | | e message] eqn:Hs;
      try (eexists; reflexivity).
    rewrite (Hg s e message eq_refl eq_refl Hs). eexists; reflexivity.
  - cbn [_is_valid_json_output]. rewrite Hl. eexists; reflexivity.
Qed.

Lemma execute_on_tier_sane (tier : Tier) (m p : string)
    (c : option string) (w : World) :
  tokens_nonneg env ->
  gate_catches env ->
  a_success (fst (execute_on_tier env tier m p c w)) = true ->
  (exists n,
     a_token_count (fst (execute_on_tier env tier m p c w)) = TokInt n /\
     0 <= n < 2 ^ 1023) /\
  (exists valid,
     _is_valid_json_output
       (a_output (fst (execute_on_tier env tier m p c w)))
     = Returned valid).
Proof.
  intros Hn Hg.
  destruct tier; cbn [execute_on_tier];
    unfold OllamaAdapter_generate, OpenRouterAdapter_generate,
      ClaudeAdapter_generate, bind, http_post, ret;
    try destruct (negb (OpenRouterAdapter_is_configured env));
    try destruct (negb (ClaudeAdapter_is_configured env));
    cbn [fst]; try (cbn; discriminate);
    apply read_outcome_sane; assumption.
Qed.

(** No exception escapes the attempt loop of a tier within three
    positions of the start. *)
Lemma attempts_no_raise (n : nat) (tier : Tier) (tier_idx : nat) :
  tokens_nonneg env ->
  gate_catches env ->
  RouterDecision_valid decision = true ->
  In (confidence decision)
    [Py.decimal 95 100; Py.decimal 85 100; Py.decimal 90 100] ->
  0 <= escalation_at policy decision tier_idx <= 3 ->
  forall (loc : Locals) (w : World) (f : Flow) (w' : World),
  attempts_ n tier tier_idx loc w = (f, w') ->
  forall e, f <> Raise e.
Proof.
  intros Hn Hg Hd Hc He. induction n as [| n IH]; intros loc w f w' H e.
  - cbn in H. inversion H. discriminate.
  - cbn [attempts] in H. unfold bind in H.
    destruct (attempt env request policy decision task_id decision_id
                tier tier_idx loc w) as [f1 w1] eqn:Ha.
    apply attempt_cases in Ha.
    destruct Ha as (result & w0 & Hex & _ & _ & Hcase).
    pose proof (execute_on_tier_sane tier (model_of tier)
                  (prompt request) (context request) w Hn Hg) as Hsane.
    rewrite Hex in Hsane. cbn [fst] in Hsane.
    destruct Hcase as [(_ & -> & _)
                      | [(Hs & (e1 & Hgate & _) & _)
                      | [(_ & _ & _ & -> & _)
                      | [(_ & _ & (fin & _ & ->) & _)
                      | (Hs & _ & (e1 & Hfin & _) & _)]]]].
    + eapply IH. exact H.
    + destruct (Hsane Hs) as (_ & valid & Hv). congruence.
    + inversion H. discriminate.
    + inversion H. discriminate.
    + destruct (Hsane Hs) as ((k & Hk & Hrange) & _).
      destruct (final_decision_returns tier tier_idx k Hd Hc Hrange He)
        as (fin & Hfin').
      rewrite Hk in Hfin. congruence.
Qed.

Lemma tiers_no_raise (rest : list Tier) :
  tokens_nonneg env ->
  gate_catches env ->
  RouterDecision_valid decision = true ->
  In (confidence decision)
    [Py.decimal 95 100; Py.decimal 85 100; Py.decimal 90 100] ->
  forall (tier_idx : nat),
  (start_idx policy decision <= tier_idx)%nat ->
  (tier_idx + List.length rest <= start_idx policy decision + 4)%nat ->
  forall (loc : Locals) (w : World) (f : Flow) (w' : World),
  tiers_ rest tier_idx loc w = (f, w') ->
  forall e, f <> Raise e.
Proof.
  intros Hn Hg Hd Hc. induction rest as [| tier rest IH];
    intros tier_idx Hlo Hhi loc w f w' H e.
  - cbn in H. inversion H. discriminate.
  - cbn [tiers] in H. unfold bind at 1 in H. cbn [List.length] in Hhi.
    destruct (attempts_ _ tier tier_idx loc w) as [f1 w1] eqn:Ha.
    assert (He : 0 <= escalation_at policy decision tier_idx <= 3)
      by (unfold escalation_at; lia).
    pose proof (attempts_no_raise _ tier tier_idx Hn Hg Hd Hc He _ _ _ _ Ha)
      as Hnr.
    destruct f1 as [l1 | l1 | r | e1].
    + unfold bind in H. destruct (after_ tier l1 w1) as [[] w2].
      eapply (IH (S tier_idx)); [lia | lia | exact H].
    + unfold bind in H. destruct (after_ tier l1 w1) as [[] w2].
      eapply (IH (S tier_idx)); [lia | lia | exact H].
    + inversion H. discriminate.
    + exfalso. exact (Hnr e1 eq_refl).
Qed.

(** Under a chain that names no tier twice, with an original Decision
    of the engine, backends that report sane token counts and nothing
    that makes the gate raise, the executor always returns a Result. *)
Lemma run_returns (w : World) :
  NoDup (fallback_chain policy) ->
  tokens_nonneg env ->
  gate_catches env ->
  RouterDecision_valid decision = true ->
  In (confidence decision)
    [Py.decimal 95 100; Py.decimal 85 100; Py.decimal 90 100] ->
  exists r w',
    run_with_fallback env request policy decision task_id decision_id w
    = (Returned r, w').
Proof.
  intros Hnd Hn Hg Hd Hc.
  destruct (run_with_fallback env request policy decision task_id
              decision_id w) as [o w'] eqn:Hrun.
  destruct o as [r | e]; [exists r, w'; reflexivity |].
  exfalso. unfold run_with_fallback, bind in Hrun.
  destruct (tiers_ _ _ _ w) as [f w1] eqn:Ht.
  apply NoDup_chain_length in Hnd.
  eapply tiers_no_raise in Ht;
    [| exact Hn | exact Hg | exact Hd | exact Hc | apply Nat.le_refl |].
  - destruct f; try discriminate. inversion Hrun; subst. apply Ht. reflexivity.
  - rewrite length_skipn. lia.
Qed.

End GateProperties.

(** A /run request returns a Result whenever its texts are Python
    strings, the policy read for it has a chain that names no tier
    twice and a [local_ratio] whose percentage has an int value (needed
    only when the default rule is reached), and the backends report sane
    token counts and nothing that makes the gate raise. *)
Lemma handle_run_returns {JL : JsonLoads} (env : Env) (request : RunRequest)
    (w : World) :
  RunRequest_sized request ->
  NoDup (fallback_chain (fst (get_routing_policy env w))) ->
  (exists percent,
     Py.int_of_float
       (Py.fmul (local_ratio (fst (get_routing_policy env w)))
          (Py.decimal 100 1)) = Returned percent) ->
  tokens_nonneg env ->
  gate_catches env ->
  exists r w', handle_run env request w = (Returned r, w').
Proof.
  intros Hsized Hnd (percent & Hratio) Hn Hg. unfold handle_run.
  cbv beta iota zeta delta
    [bind get_routing_policy get_governance log_task update_task_status
     log_decision log_event db_write ret fst snd] in *.
  assert (Hd : exists d,
            compute_decision request
              match registry_policy env with
              | Some p => p
              | None => default_RoutingPolicy
              end
              match registry_governance env with
              | Some g => g
              | None => default_Governance
              end = Returned d).
  { destruct (compute_decision_cases request
                match registry_policy env with
                | Some p => p
                | None => default_RoutingPolicy
                end
                match registry_governance env with
                | Some g => g
                | None => default_Governance
                end Hsized)
      as [(_ & _ & cost & _ & H) | [(_ & _ & _ & cost & _ & H)
                                   | (_ & _ & H)]];
      try (eexists; exact H).
    rewrite Hratio in H. eexists; exact H. }
  destruct Hd as (d & Hd). rewrite Hd.
  destruct (compute_decision_valid _ _ _ _ Hd) as [Hv Hc].
  match goal with
  | |- context [run_with_fallback ?e ?rq ?p ?d0 ?t ?i ?w0] =>
      destruct (run_returns e rq p d0 t i w0 Hnd Hn Hg Hv Hc)
        as (r & w' & Hrun);
      rewrite Hrun
  end.
  eexists. eexists. reflexivity.
Qed.

(** C10 (as amended). A successful adapter result comes from a 200 answer
    of the backend whose text [json.loads] either parses or rejects with
    its decode error, and its output depends on the answer's text alone:
    text that parses as a mapping or a sequence is stored parsed and is
    valid; text that parses as a number, a boolean or null is stored as
    that scalar and is invalid; text that parses as a JSON string is
    stored as the decoded string, on which the gate calls [json.loads]
    again: it is valid when that parse succeeds, invalid when it fails
    with the decode error or a [TypeError], and the gate raises any other
    exception of that parse; text that does not parse is stored raw, and
    the gate's second parse of it fails too, so it is invalid. *)
Theorem gate_on_adapter_output {JL : JsonLoads} (env : Env) (tier : Tier)
    (model prompt : string) (context : option string) (w : World) :
  let result := fst (execute_on_tier env tier model prompt context w) in
  a_success result = true ->
  exists rq latency text content token_count late,
    backend env rq (List.length (http_requests w))
    = Response latency 200 text content token_count late /\
    match json_loads content with
    | Parsed (JDict members) =>
        a_output result = JDict members /\
        _is_valid_json_output (a_output result) = Returned true
    | Parsed (JList items) =>
        a_output result = JList items /\
        _is_valid_json_output (a_output result) = Returned true
    | Parsed (JString s) =>
        a_output result = JString s /\
        _is_valid_json_output (a_output result)
        = match json_loads s with
          | Parsed _ => Returned true
          | JSONDecodeError => Returned false
          | LoadsError TypeError _ => Returned false
          | LoadsError e _ => Raised e
          end
    | Parsed scalar =>
        a_output result = scalar /\
        _is_valid_json_output (a_output result) = Returned false
    | JSONDecodeError =>
        a_output result = JString content /\
        _is_valid_json_output (a_output result) = Returned false
    | LoadsError _ _ => False
    end.
Proof.
  assert (Hread : forall provider o,
            a_success (read_outcome provider o) = true ->
            exists latency text content token_count late,
              o = Response latency 200 text content token_count late /\
              match json_loads content with
              | Parsed (JDict members) =>
                  a_output (read_outcome provider o) = JDict members /\
                  _is_valid_json_output (a_output (read_outcome provider o))
                  = Returned true
              | Parsed (JList items) =>
                  a_output (read_outcome provider o) = JList items /\
                  _is_valid_json_output (a_output (read_outcome provider o))
                  = Returned true
              | Parsed (JString s) =>
                  a_output (read_outcome provider o) = JString s /\
                  _is_valid_json_output (a_output (read_outcome provider o))
                  = match json_loads s with
                    | Parsed _ => Returned true
                    | JSONDecodeError => Returned false
                    | LoadsError TypeError _ => Returned false
                    | LoadsError e _ => Raised e
                    end
              | Parsed scalar =>
                  a_output (read_outcome provider o) = scalar /\
                  _is_valid_json_output (a_output (read_outcome provider o))
                  = Returned false
              | JSONDecodeError =>
                  a_output (read_outcome provider o) = JString content /\
                  _is_valid_json_output (a_output (read_outcome provider o))
                  = Returned false
              | LoadsError _ _ => False
              end).
  { intros provider o.
    destruct o as [lat status text content tc late | lat | lat msg];
      cbn [read_outcome]; try discriminate.
    destruct (Z.eqb_spec status 200) as [-> | Hne]; cbn [negb];
      [| discriminate].
    intro Hs. exists lat, text, content, tc, late. split; [reflexivity |].
    destruct (json_loads content)
      as [[| b | lit | s | items | members] | | e message] eqn:Hl;
      cbn [a_output a_success] in *; cbn [_is_valid_json_output];
      try discriminate; auto.
    rewrite Hl. auto. }
  intros result Hs. subst result.
  destruct tier; cbn [execute_on_tier] in *;
    unfold OllamaAdapter_generate, OpenRouterAdapter_generate,
      ClaudeAdapter_generate, bind, http_post, ret in *;
    try destruct (negb (OpenRouterAdapter_is_configured env));
    try destruct (negb (ClaudeAdapter_is_configured env));
    cbn [fst] in *; try discriminate;
    apply Hread in Hs;
    destruct Hs as (lat & text & content & tc & late & Ho & Hm);
    eexists _, lat, text, content, tc, late; (split; [exact Ho | exact Hm]).
Qed.

(** ** Concrete runs *)

Lemma escalation_level_of_result_witness :
  exists r w',
    Scenario.run Scenario.local_down Scenario.request_hi
      default_RoutingPolicy Scenario.decision_local = (Returned r, w') /\
    ((res_success r = true ->
      exists i,
        hd_error (attempted w') = Some i /\
        (start_idx default_RoutingPolicy Scenario.decision_local <= i)%nat /\
        nth_error (fallback_chain default_RoutingPolicy) i
        = Some (res_tier_used r) /\
        escalation_level (res_decision r)
        = Z.of_nat i
          - Z.of_nat (start_idx default_RoutingPolicy Scenario.decision_local)) /\
     (res_success r = false -> res_decision r = Scenario.decision_local)).
Proof.
  eexists. eexists. split; [vm_compute; reflexivity |].
  apply (escalation_level_of_result (JL := PyJson.loads) Scenario.local_down
           Scenario.request_hi default_RoutingPolicy Scenario.decision_local
           "task-1" (Some "decision-1") empty_World).
  vm_compute. reflexivity.
Defined.

(** S4, read off the run: local fails twice, market answers; the Result
    is one position past the start. *)
Example local_down_escalates_once :
  exists r w',
    Scenario.run Scenario.local_down Scenario.request_hi
      default_RoutingPolicy Scenario.decision_local = (Returned r, w') /\
    res_success r = true /\
    res_tier_used r = MARKET /\
    escalation_level (res_decision r) = 1 /\
    confidence (res_decision r) = Py.decimal 75 100 /\
    attempted w' = [1; 0; 0]%nat /\
    count_execution "local" (db_writes w') = 2%nat /\
    count_type "escalation" (db_writes w') = 1%nat /\
    count_execution "market" (db_writes w') = 1%nat.
Proof.
  eexists. eexists. split; [vm_compute; reflexivity |].
  repeat split; vm_compute; reflexivity.
Qed.

(** C1 as stated fails on failure: with every backend down the last
    attempt is at chain position 2 and the start position is 0, yet the
    failure Result carries escalation level 0, that of the original
    Decision. *)
Lemma escalation_level_on_failure_counterexample :
  exists r w',
    Scenario.run Scenario.all_down Scenario.request_hi
      default_RoutingPolicy Scenario.decision_local = (Returned r, w') /\
    RunRequest_valid Scenario.request_hi = true /\
    RouterDecision_valid Scenario.decision_local = true /\
    res_success r = false /\
    hd_error (attempted w') = Some 2%nat /\
    start_idx default_RoutingPolicy Scenario.decision_local = 0%nat /\
    escalation_level (res_decision r) = 0 /\
    escalation_level (res_decision r) <> Z.of_nat 2 - Z.of_nat 0.
Proof.
  eexists. eexists. split; [vm_compute; reflexivity |].
  repeat split; try (vm_compute; reflexivity).
  vm_compute. discriminate.
Qed.

(** S1: the default route, answered by the local tier. *)
Example default_local_success :
  exists r w',
    Scenario.serve Scenario.all_up Scenario.request_hi = (Returned r, w') /\
    res_success r = true /\
    res_tier_used r = LOCAL /\
    escalation_level (res_decision r) = 0 /\
    reason (res_decision r)
    = "Default routing to local tier (80% local policy)" /\
    res_output r = JDict [("label", JString "greeting")].
Proof.
  eexists. eexists. split; [vm_compute; reflexivity |].
  repeat split; vm_compute; reflexivity.
Qed.

(** S2: a sensitive request is decided for premium at level 2 and
    answered there; the Result's Decision counts the tiers skipped by the
    executor, which is none. *)
Example sensitive_goes_premium :
  exists d r w',
    compute_decision Scenario.request_leak default_RoutingPolicy
      default_Governance = Returned d /\
    escalation_level d = 2 /\
    Scenario.serve Scenario.all_up Scenario.request_leak = (Returned r, w') /\
    res_tier_used r = PREMIUM /\
    escalation_level (res_decision r) = 0 /\
    confidence (res_decision r) = Py.decimal 95 100 /\
    cost_estimate (res_decision r) = Py.decimal 12 100000.
Proof.
  eexists. eexists. eexists. split; [vm_compute; reflexivity |].
  split; [reflexivity |]. split; [vm_compute; reflexivity |].
  repeat split; vm_compute; reflexivity.
Qed.

(** S3: the oversized context is decided for market and answered
    there. *)
Example overflow_goes_market :
  match fst (Scenario.serve Scenario.all_up Scenario.request_overflow) with
  | Returned r =>
      res_success r = true /\
      res_tier_used r = MARKET /\
      route (res_decision r) = MARKET
  | Raised _ => False
  end /\
  count_execution "local"
    (db_writes (snd (Scenario.serve Scenario.all_up
                       Scenario.request_overflow))) = 0%nat /\
  count_execution "market"
    (db_writes (snd (Scenario.serve Scenario.all_up
                       Scenario.request_overflow))) = 1%nat.
Proof. vm_compute. repeat split; reflexivity. Qed.

(** The Decision used in the runs is the engine's own. *)
Example decision_local_is_computed :
  compute_decision Scenario.request_hi default_RoutingPolicy
    default_Governance = Returned Scenario.decision_local.
Proof. vm_compute. reflexivity. Qed.

Lemma retry_budget_witness :
  exists o w',
    Scenario.run Scenario.local_down Scenario.request_hi
      default_RoutingPolicy Scenario.decision_local = (o, w') /\
    NoDup (fallback_chain default_RoutingPolicy) /\
    Z.of_nat (count_execution "local" (emitted empty_World w'))
      <= Z.max 0 (max_local_retries default_RoutingPolicy) /\
    (forall tier, tier <> LOCAL ->
       (count_execution (Tier_value tier) (emitted empty_World w') <= 1)%nat).
Proof.
  assert (Hnd : NoDup (fallback_chain default_RoutingPolicy)).
  { cbn. repeat constructor; cbn; intuition discriminate. }
  eexists. eexists. split; [vm_compute; reflexivity |].
  split; [exact Hnd |].
  eapply (retry_budget (JL := PyJson.loads) Scenario.local_down
           Scenario.request_hi default_RoutingPolicy Scenario.decision_local
           "task-1" (Some "decision-1") empty_World);
    [vm_compute; reflexivity | exact Hnd].
Defined.

(** C2 as stated fails under a policy whose chain names a tier twice:
    with the chain market, market and the market backend down, one
    request writes two execution events with tier market. *)
Lemma retry_budget_counterexample :
  exists o w',
    Scenario.run Scenario.all_down Scenario.request_hi
      Scenario.market_twice Scenario.decision_local = (o, w') /\
    RunRequest_valid Scenario.request_hi = true /\
    compute_decision Scenario.request_hi Scenario.market_twice
      default_Governance = Returned Scenario.decision_local /\
    count_execution (Tier_value MARKET) (emitted empty_World w') = 2%nat /\
    ~ (count_execution (Tier_value MARKET) (emitted empty_World w') <= 1)%nat.
Proof.
  eexists. eexists. split; [vm_compute; reflexivity |].
  split; [reflexivity |]. split; [vm_compute; reflexivity |].
  split; [vm_compute; reflexivity |].
  vm_compute. intro H. inversion H as [| ? H']. inversion H'.
Qed.

Lemma audit_totality_witness :
  exists r w',
    Scenario.serve Scenario.local_babbles Scenario.request_hi
    = (Returned r, w') /\
    count_type "final_result" (emitted empty_World w') = 1%nat /\
    (exists e d,
       emitted empty_World w' = InsertEvent e :: d /\
       ev_type e = "final_result" /\
       ev_success e = res_success r) /\
    (fallback_chain
       (fst (get_routing_policy Scenario.local_babbles empty_World)) <> [] ->
     1 <= max_local_retries
            (fst (get_routing_policy Scenario.local_babbles empty_World)) ->
     (1 <= count_type "execution" (emitted empty_World w'))%nat).
Proof.
  eexists. eexists. split; [vm_compute; reflexivity |].
  apply (audit_totality (JL := PyJson.loads) Scenario.local_babbles
           Scenario.request_hi empty_World).
  vm_compute. reflexivity.
Defined.

(** S5, read off the pipeline: the local answer is not JSON, the gate
    escalates after one local attempt, market answers. *)
Example local_babbles_escalates :
  exists r w',
    Scenario.serve Scenario.local_babbles Scenario.request_hi
    = (Returned r, w') /\
    res_success r = true /\
    res_tier_used r = MARKET /\
    count_execution "local" (db_writes w') = 1%nat /\
    count_type "invalid_json_escalation" (db_writes w') = 1%nat /\
    count_execution "market" (db_writes w') = 1%nat /\
    count_type "final_result" (db_writes w') = 1%nat.
Proof.
  eexists. eexists. split; [vm_compute; reflexivity |].
  repeat split; vm_compute; reflexivity.
Qed.

(** C3 as stated fails when the registry holds a policy with a chain of
    length zero: the request returns a Result, with its one final_result
    event, and no execution event at all. *)
Lemma audit_totality_counterexample :
  exists r w',
    Scenario.serve
      (Scenario.with_policy Scenario.local_down Scenario.no_chain)
      Scenario.request_hi = (Returned r, w') /\
    RunRequest_valid Scenario.request_hi = true /\
    count_type "final_result" (emitted empty_World w') = 1%nat /\
    count_type "execution" (emitted empty_World w') = 0%nat /\
    ~ (1 <= count_type "execution" (emitted empty_World w'))%nat.
Proof.
  eexists. eexists. split; [vm_compute; reflexivity |].
  repeat split; try (vm_compute; reflexivity).
  vm_compute. intro H. inversion H.
Qed.

Lemma accepted_result_witness :
  exists r w',
    Scenario.run Scenario.local_down Scenario.request_hi
      default_RoutingPolicy Scenario.decision_local = (Returned r, w') /\
    res_success r = true /\
    exists i tier result d' steps thousands,
      hd_error (attempted w') = Some i /\
      (start_idx default_RoutingPolicy Scenario.decision_local <= i)%nat /\
      nth_error (fallback_chain default_RoutingPolicy) i = Some tier /\
      db_writes w'
      = PatchTaskStatus "task-1" "completed"
          :: InsertEvent
               (execution_event default_RoutingPolicy Scenario.decision_local
                  "task-1" (Some "decision-1") tier result)
          :: d' ++ db_writes empty_World /\
      let escalation :=
        Z.of_nat i
        - Z.of_nat (start_idx default_RoutingPolicy Scenario.decision_local) in
      Py.float_of_int escalation = Returned steps /\
      per_thousand (a_token_count result) = Returned thousands /\
      res_decision r
      = {| route := tier;
           model := Py.dict_get (models default_RoutingPolicy)
                      (Tier_value tier) (model Scenario.decision_local);
           reason := (reason Scenario.decision_local
                        ++ (if (0 <? escalation)%Z
                            then "; escalated " ++ Py.str_int escalation ++ "x"
                            else ""))%string;
           confidence :=
             Py.max (Py.decimal 5 10)
               (Py.fsub (confidence Scenario.decision_local)
                  (Py.fmul steps (Py.decimal 15 100)));
           escalation_level := escalation;
           cost_estimate := Py.round (Py.fmul (rate tier) thousands) 6 |} /\
      res_tier_used r = tier /\
      res_model_used r = Py.dict_get (models default_RoutingPolicy)
                           (Tier_value tier) (model Scenario.decision_local) /\
      res_output r = a_output result.
Proof.
  eexists. eexists. split; [vm_compute; reflexivity |].
  split; [reflexivity |].
  apply (accepted_result (JL := PyJson.loads) Scenario.local_down
           Scenario.request_hi default_RoutingPolicy Scenario.decision_local
           "task-1" (Some "decision-1") empty_World);
    [vm_compute; reflexivity | reflexivity].
Defined.

(** C6 as stated fails on the cost: the market tier accepts an output
    that cost 1234 tokens; rate * tokens / 1000 is 0.0009872, whose
    nearest float is not what the Decision holds, and neither is the
    float product 0.0008 * (1234 / 1000): the Decision holds the float
    nearest to 0.000987. *)
Lemma accepted_cost_counterexample :
  exists r w' e d thousands,
    Scenario.run Scenario.local_down Scenario.request_hi
      default_RoutingPolicy Scenario.decision_local = (Returned r, w') /\
    res_success r = true /\
    res_tier_used r = MARKET /\
    db_writes w' = PatchTaskStatus "task-1" "completed" :: InsertEvent e :: d /\
    ev_type e = "execution" /\
    ev_token_count e = TokInt 1234 /\
    Py.true_div_int 1234 1000 = Returned thousands /\
    cost_estimate (res_decision r) = Py.decimal 987 1000000 /\
    cost_estimate (res_decision r) <> Py.decimal 9872 10000000 /\
    cost_estimate (res_decision r) <> Py.fmul (rate MARKET) thousands.
Proof.
  eexists. eexists. eexists. eexists. eexists.
  split; [vm_compute; reflexivity |].
  split; [reflexivity |]. split; [reflexivity |].
  split; [vm_compute; reflexivity |]. split; [reflexivity |].
  split; [reflexivity |]. split; [vm_compute; reflexivity |].
  split; [vm_compute; reflexivity |].
  split; vm_compute; discriminate.
Qed.

(** The confidence is lowered in float arithmetic: two tiers past a
    local decision of confidence 0.9, the Decision holds
    0.9 - 2 * 0.15 = 0.6000000000000001, one unit in the last place
    above the float nearest to 0.6. *)
Example lowered_confidence_in_floats :
  exists r w',
    Scenario.run Scenario.premium_only Scenario.request_hi
      default_RoutingPolicy Scenario.decision_local = (Returned r, w') /\
    res_tier_used r = PREMIUM /\
    escalation_level (res_decision r) = 2 /\
    confidence (res_decision r) = S754_finite false 5404319552844596 (-53) /\
    Py.decimal 6 10 = S754_finite false 5404319552844595 (-53).
Proof.
  eexists. eexists. split; [vm_compute; reflexivity |].
  repeat split; vm_compute; reflexivity.
Qed.


Lemma exhausted_result_witness :
  exists r w',
    Scenario.run Scenario.all_down Scenario.request_hi
      default_RoutingPolicy Scenario.decision_local = (Returned r, w') /\
    res_success r = false /\
    res_tier_used r = LOCAL /\
    res_model_used r = "llama3.1:8b" /\
    res_output r = JNull /\
    res_error r
    = Some "All tiers exhausted. Last error: Claude returned 500: Internal Server Error" /\
    hd_error (db_writes w') = Some (PatchTaskStatus "task-1" "failed").
Proof.
  eexists. eexists. split; [vm_compute; reflexivity |].
  split; [reflexivity |].
  match goal with
  | |- res_tier_used ?r = _ /\ _ /\ _ /\ _ /\ hd_error (db_writes ?w') = _ =>
      destruct (proj1 (proj2
                  (exhausted_result (JL := PyJson.loads) Scenario.all_down
                     Scenario.request_hi default_RoutingPolicy
                     Scenario.decision_local "task-1" (Some "decision-1")
                     empty_World (Returned r) w'
                     ltac:(vm_compute; reflexivity)))
                r eq_refl eq_refl)
        as (Ht & Hm & Ho & He & Hh & _)
  end.
  split; [exact Ht |]. split; [exact Hm |]. split; [exact Ho |].
  split; [rewrite He; vm_compute; reflexivity | exact Hh].
Defined.

(** A chain of length zero: the failure Result at once, nothing asked of
    any backend. *)
Example no_chain_fails_at_once :
  Scenario.run Scenario.all_down Scenario.request_hi Scenario.no_chain
    Scenario.decision_local
  = (Returned
       {| res_task_id := "task-1";
          res_decision := Scenario.decision_local;
          res_output := JNull;
          res_success := false;
          res_tier_used := LOCAL;
          res_model_used := "llama3.1:8b";
          res_latency_ms := 0;
          res_error := Some "All tiers exhausted. Last error: None" |},
     {| db_writes := [PatchTaskStatus "task-1" "failed"];
        http_requests := [];
        attempted := [] |}).
Proof. vm_compute. reflexivity. Qed.

Lemma unconfigured_tier_witness :
  api_key (Scenario.without_keys Scenario.all_down) MARKET
  = Some ("OPENROUTER_API_KEY", EmptyString) /\
  OpenRouterAdapter_generate (JL := PyJson.loads)
    (Scenario.without_keys Scenario.all_down) "hi"
    "meta-llama/llama-3.1-70b-instruct" None (Some SYSTEM_PROMPT) empty_World
  = ({| a_success := false; a_output := JNull; a_latency_ms := 0;
        a_token_count := TokInt 0;
        a_error := Some "OPENROUTER_API_KEY not configured" |}, empty_World) /\
  tiers (JL := PyJson.loads) (Scenario.without_keys Scenario.all_down)
    Scenario.request_hi default_RoutingPolicy Scenario.decision_local
    "task-1" (Some "decision-1") [MARKET; PREMIUM] 1 initial_locals empty_World
  = tiers (JL := PyJson.loads) (Scenario.without_keys Scenario.all_down)
      Scenario.request_hi default_RoutingPolicy Scenario.decision_local
      "task-1" (Some "decision-1") [PREMIUM] 2
      {| l_local_fail_count := 0;
         l_last_error := Some "OPENROUTER_API_KEY not configured";
         l_total_latency := 0 |}
      {| db_writes :=
           [InsertEvent
              {| ev_task_id := "task-1";
                 ev_decision_id := Some "decision-1";
                 ev_type := "execution";
                 ev_tier := "market";
                 ev_model := "meta-llama/llama-3.1-70b-instruct";
                 ev_success := false;
                 ev_latency_ms := 0;
                 ev_token_count := TokInt 0;
                 ev_error_message :=
                   Some "OPENROUTER_API_KEY not configured" |}];
         http_requests := [];
         attempted := [1%nat] |}.
Proof.
  split; [reflexivity |]. split.
  - apply (proj1 (unconfigured_tier (JL := PyJson.loads)
                    (Scenario.without_keys Scenario.all_down)
                    Scenario.request_hi default_RoutingPolicy
                    Scenario.decision_local "task-1" (Some "decision-1"))).
    reflexivity.
  - exact (proj1 (proj2 (proj2
             (proj2 (proj2 (unconfigured_tier (JL := PyJson.loads)
                              (Scenario.without_keys Scenario.all_down)
                              Scenario.request_hi default_RoutingPolicy
                              Scenario.decision_local "task-1"
                              (Some "decision-1")))
                MARKET "OPENROUTER_API_KEY" eq_refl [PREMIUM] 1%nat
                initial_locals empty_World)))).
Defined.

(** The same tiers, run to the end: the market tier's execution event
    is the oldest write, the premium tier's follows it, and the
    positions 1 and 2 were attempted in that order. *)
Example unconfigured_tiers_trail :
  exists f wf e1 e2,
    tiers (JL := PyJson.loads) (Scenario.without_keys Scenario.all_down)
      Scenario.request_hi default_RoutingPolicy Scenario.decision_local
      "task-1" (Some "decision-1") [MARKET; PREMIUM] 1 initial_locals
      empty_World = (f, wf) /\
    db_writes wf = [InsertEvent e2; InsertEvent e1] /\
    ev_tier e1 = "market" /\ ev_tier e2 = "premium" /\
    ev_error_message e2 = Some "ANTHROPIC_API_KEY not configured" /\
    attempted wf = [2; 1]%nat /\
    http_requests wf = [].
Proof.
  eexists. eexists. eexists. eexists.
  split; [vm_compute; reflexivity |].
  repeat split; reflexivity.
Qed.

(** Without keys, a run that starts on the local tier ends on the premium
    tier's missing key, having asked only the local backend. *)
Example without_keys_run :
  exists r w',
    Scenario.run (Scenario.without_keys Scenario.all_down)
      Scenario.request_hi default_RoutingPolicy Scenario.decision_local
    = (Returned r, w') /\
    res_success r = false /\
    res_error r
    = Some "All tiers exhausted. Last error: ANTHROPIC_API_KEY not configured" /\
    attempted w' = [2; 1; 0; 0]%nat /\
    map rq_backend (http_requests w') = [Ollama; Ollama].
Proof.
  eexists. eexists. split; [vm_compute; reflexivity |].
  repeat split; vm_compute; reflexivity.
Qed.

Lemma gate_on_adapter_output_witness :
  let result :=
    fst (execute_on_tier (JL := PyJson.loads)
           (Scenario.stub (Scenario.ok Scenario.greeting 12)
              Scenario.http500 Scenario.http500)
           LOCAL "llama3.1:8b" "hi" None empty_World) in
  a_success result = true /\
  a_output result = JDict [("label", JString "greeting")] /\
  exists rq latency text content token_count late,
    backend (Scenario.stub (Scenario.ok Scenario.greeting 12)
               Scenario.http500 Scenario.http500)
      rq (List.length (http_requests empty_World))
    = Response latency 200 text content token_count late /\
    match PyJson.loads content with
    | Parsed (JDict members) =>
        a_output result = JDict members /\
        _is_valid_json_output (JL := PyJson.loads) (a_output result)
        = Returned true
    | Parsed (JList items) =>
        a_output result = JList items /\
        _is_valid_json_output (JL := PyJson.loads) (a_output result)
        = Returned true
    | Parsed (JString s) =>
        a_output result = JString s /\
        _is_valid_json_output (JL := PyJson.loads) (a_output result)
        = match PyJson.loads s with
          | Parsed _ => Returned true
          | JSONDecodeError => Returned false
          | LoadsError TypeError _ => Returned false
          | LoadsError e _ => Raised e
          end
    | Parsed scalar =>
        a_output result = scalar /\
        _is_valid_json_output (JL := PyJson.loads) (a_output result)
        = Returned false
    | JSONDecodeError =>
        a_output result = JString content /\
        _is_valid_json_output (JL := PyJson.loads) (a_output result)
        = Returned false
    | LoadsError _ _ => False
    end.
Proof.
  cbv zeta. split; [vm_compute; reflexivity |].
  split; [vm_compute; reflexivity |].
  apply (gate_on_adapter_output (JL := PyJson.loads)
           (Scenario.stub (Scenario.ok Scenario.greeting 12)
              Scenario.http500 Scenario.http500)
           LOCAL "llama3.1:8b" "hi" None empty_World).
  vm_compute. reflexivity.
Defined.

(** C10 as stated fails on a JSON string whose text is itself JSON: the
    backend text quote-4-2-quote parses to the string 42, which is
    neither a mapping nor a sequence, and the gate accepts it because its
    own parse of 42 succeeds. *)
Lemma gate_accepts_json_in_string_counterexample :
  let result :=
    fst (execute_on_tier (JL := PyJson.loads) Scenario.local_quotes
           LOCAL "llama3.1:8b" "hi" None empty_World) in
  a_success result = true /\
  PyJson.loads (Scenario.quoted "42") = Parsed (JString "42") /\
  a_output result = JString "42" /\
  is_container (a_output result) = false /\
  _is_valid_json_output (JL := PyJson.loads) (a_output result)
  = Returned true /\
  _is_valid_json_output (JL := PyJson.loads) (a_output result)
  <> Returned (is_container (a_output result)).
Proof.
  cbv zeta. repeat split; try (vm_compute; reflexivity).
  vm_compute. discriminate.
Qed.

(** The texts 42 and true are valid JSON, yet as adapter outputs they are
    scalars and the gate rejects them. *)
Example scalars_are_rejected :
  _is_valid_json_output (JL := PyJson.loads)
    (a_output (read_outcome (JL := PyJson.loads) "Ollama"
                 (Scenario.ok "42" 3))) = Returned false /\
  _is_valid_json_output (JL := PyJson.loads)
    (a_output (read_outcome (JL := PyJson.loads) "Ollama"
                 (Scenario.ok "true" 3))) = Returned false.
Proof. repeat split; vm_compute; reflexivity. Qed.

(** The gate raises what it does not catch: a backend that answers with
    a JSON string of 4,301 digits gets a successful adapter result whose
    output is that string of digits, and the gate's parse of it raises
    the [ValueError] of the integer conversion; the request ends with
    that exception, after its execution event and with no final_result
    event. *)
Example gate_raises_on_long_integer :
  let result :=
    fst (execute_on_tier (JL := PyJson.loads) Scenario.local_long_integer
           LOCAL "llama3.1:8b" "hi" None empty_World) in
  a_success result = true /\
  a_output result = JString (Scenario.ones 4301) /\
  _is_valid_json_output (JL := PyJson.loads) (a_output result)
  = Raised ValueError /\
  exists w',
    Scenario.serve Scenario.local_long_integer Scenario.request_hi
    = (Raised ValueError, w') /\
    count_type "execution" (db_writes w') = 1%nat /\
    count_type "final_result" (db_writes w') = 0%nat.
Proof.
  cbv zeta. split; [vm_compute; reflexivity |].
  split; [vm_compute; reflexivity |].
  split; [vm_compute; reflexivity |].
  eexists. split; [vm_compute; reflexivity |].
  split; vm_compute; reflexivity.
Qed.

(** A usage whose [total_tokens] is null makes the cost estimate of the
    accepted output raise a [TypeError], and the request ends with it. *)
Example null_usage_raises :
  exists w',
    Scenario.serve Scenario.market_null_usage Scenario.request_hi
    = (Raised TypeError, w') /\
    count_execution "market" (db_writes w') = 1%nat /\
    count_type "final_result" (db_writes w') = 0%nat.
Proof.
  eexists. split; [vm_compute; reflexivity |].
  split; vm_compute; reflexivity.
Qed.

(** * What the rest of the code keeps *)

(** ** The decision engine, beyond the two escalation rules *)

(** X1. The decision engine raises only from its default rule: for a
    request whose texts are Python strings, the engine raises an
    exception exactly when neither escalation rule applies and
    [int(local_ratio * 100)] raises it, which is an [OverflowError] for
    an infinite product and a [ValueError] for NaN; every Decision it
    returns passes the schema of [RouterDecision] and is routed to
    premium at level 2, to market at level 1 or to local at level 0. *)
Theorem decision_raises_only_on_ratio (request : RunRequest)
    (policy : RoutingPolicy) (governance : Governance) :
  RunRequest_sized request ->
  (forall e,
     compute_decision request policy governance = Raised e <->
     ~ (sensitivity request = HIGH /\
        premium_trigger policy = "sensitivity_high_only") /\
     ~ (context_threshold_tokens policy < estimated_total request /\
        context_overflow_escalate (escalation_rules policy) = true) /\
     Py.int_of_float (Py.fmul (local_ratio policy) (Py.decimal 100 1))
     = Raised e) /\
  (forall e,
     Py.int_of_float (Py.fmul (local_ratio policy) (Py.decimal 100 1))
     = Raised e ->
     e = OverflowError \/ e = ValueError) /\
  (forall d,
     compute_decision request policy governance = Returned d ->
     RouterDecision_valid d = true /\
     ((route d = PREMIUM /\ escalation_level d = 2)
      \/ (route d = MARKET /\ escalation_level d = 1)
      \/ (route d = LOCAL /\ escalation_level d = 0))).
Proof.
  intro Hsized. split; [| split].
  - intro e.
    destruct (compute_decision_cases request policy governance Hsized)
      as [(Hs & Ht & cost & _ & Hd) | [(N1 & Hlt & Hflag & cost & _ & Hd)
                                      | (N1 & N2 & Hd)]].
    + rewrite Hd. split; [discriminate |].
      intros (N1 & _). exfalso. apply N1. split; assumption.
    + rewrite Hd. split; [discriminate |].
      intros (_ & N2 & _). exfalso. apply N2. split; assumption.
    + destruct (Py.int_of_float _) as [percent | e']; rewrite Hd.
      * split; [discriminate |]. intros (_ & _ & H). discriminate.
      * split.
        -- intro H. inversion H. subst. auto.
        -- intros (_ & _ & H). inversion H. reflexivity.
  - intros e. unfold Py.int_of_float.
    destruct (Py.fmul _ _); intro H; inversion H; auto.
  - intros d Hd.
    split; [exact (proj1 (compute_decision_valid _ _ _ _ Hd)) |].
    destruct (compute_decision_cases request policy governance Hsized)
      as [(_ & _ & cost & _ & Hd') | [(_ & _ & _ & cost & _ & Hd')
                                     | (_ & _ & Hd')]].
    + rewrite Hd' in Hd. inversion Hd. left. split; reflexivity.
    + rewrite Hd' in Hd. inversion Hd. right. left. split; reflexivity.
    + destruct (Py.int_of_float _); rewrite Hd' in Hd; inversion Hd.
      right. right. split; reflexivity.
Qed.

Lemma decision_raises_only_on_ratio_witness :
  RunRequest_sized Scenario.request_hi /\
  compute_decision Scenario.request_hi Calls.ratio_infinite
    default_Governance = Raised OverflowError.
Proof.
  assert (Hsized : RunRequest_sized Scenario.request_hi)
    by (split; apply Z.leb_le; vm_compute; reflexivity).
  split; [exact Hsized |].
  apply (proj1 (decision_raises_only_on_ratio Scenario.request_hi
                  Calls.ratio_infinite default_Governance Hsized)
           OverflowError).
  split; [intros [H _]; discriminate |].
  split; [intros [H _]; vm_compute in H; discriminate |].
  vm_compute. reflexivity.
Defined.

(** The default policy, whose ratio 0.8 times 100 is exactly 80, and a
    ratio of 0.29, whose product 28.999999999999996 is cut to 28. *)
Example ratio_percentages :
  Py.int_of_float (Py.fmul (Py.decimal 80 100) (Py.decimal 100 1))
  = Returned 80 /\
  Py.int_of_float (Py.fmul (Py.decimal 29 100) (Py.decimal 100 1))
  = Returned 28.
Proof. split; vm_compute; reflexivity. Qed.

(** X2. Sensitivity matters only through the premium trigger: under a
    policy whose [premium_trigger] is not the string
    "sensitivity_high_only", a request gets the same Decision whatever
    its sensitivity, so a high-sensitivity request is routed like any
    other. *)
Theorem sensitivity_ignored_without_trigger (request : RunRequest)
    (policy : RoutingPolicy) (governance : Governance) (s : Sensitivity) :
  premium_trigger policy <> "sensitivity_high_only" ->
  compute_decision (with_sensitivity request s) policy governance
  = compute_decision request policy governance.
Proof.
  intro Hne. apply String.eqb_neq in Hne.
  unfold compute_decision. cbn [with_sensitivity sensitivity prompt context].
  rewrite Hne, !andb_false_r. reflexivity.
Qed.

Lemma sensitivity_ignored_without_trigger_witness :
  premium_trigger Calls.never_premium <> "sensitivity_high_only" /\
  compute_decision (with_sensitivity Scenario.request_hi HIGH)
    Calls.never_premium default_Governance
  = compute_decision Scenario.request_hi Calls.never_premium
      default_Governance.
Proof.
  split; [discriminate |].
  apply sensitivity_ignored_without_trigger. discriminate.
Defined.

(** X3. The Decision depends on the request only through its
    sensitivity and the two token estimates, and not at all on the
    governance record: requests that agree on those get the same
    Decision under the same policy, whatever their task type, source,
    metadata and exact text. *)
Theorem decision_depends_on_estimates (r1 r2 : RunRequest)
    (policy : RoutingPolicy) (g1 g2 : Governance) :
  sensitivity r1 = sensitivity r2 ->
  estimate_tokens (prompt r1) = estimate_tokens (prompt r2) ->
  estimate_tokens (Py.or_empty (context r1))
  = estimate_tokens (Py.or_empty (context r2)) ->
  compute_decision r1 policy g1 = compute_decision r2 policy g2.
Proof.
  intros Hs Hp Hc. unfold compute_decision. rewrite Hs, Hp, Hc. reflexivity.
Qed.

Lemma decision_depends_on_estimates_witness :
  sensitivity Scenario.request_hi = sensitivity Calls.request_hello /\
  estimate_tokens (prompt Scenario.request_hi)
  = estimate_tokens (prompt Calls.request_hello) /\
  estimate_tokens (Py.or_empty (context Scenario.request_hi))
  = estimate_tokens (Py.or_empty (context Calls.request_hello)) /\
  compute_decision Scenario.request_hi default_RoutingPolicy
    default_Governance
  = compute_decision Calls.request_hello default_RoutingPolicy
      Calls.strict_governance.
Proof.
  split; [reflexivity |]. split; [reflexivity |]. split; [reflexivity |].
  apply decision_depends_on_estimates; reflexivity.
Defined.

(** X4. The token estimate of a request is never below 2, one for the
    prompt and one for the context even when there is none; so under a
    policy with [context_overflow_escalate] set and a threshold of 1 or
    less, no request is routed to local: the engine returns the Decision
    of the premium rule or else that of the context rule, for every
    request whose texts are Python strings, and beyond that size its
    only other outcome is the [OverflowError] of the cost estimate. *)
Theorem low_threshold_routes_to_market (request : RunRequest)
    (policy : RoutingPolicy) (governance : Governance) :
  context_threshold_tokens policy <= 1 ->
  context_overflow_escalate (escalation_rules policy) = true ->
  2 <= estimated_total request /\
  (RunRequest_sized request ->
   exists d,
     compute_decision request policy governance = Returned d /\
     route d <> LOCAL) /\
  (forall d,
     compute_decision request policy governance = Returned d ->
     route d <> LOCAL) /\
  (forall e,
     compute_decision request policy governance = Raised e ->
     e = OverflowError).
Proof.
  intros Hthr Hflag.
  assert (Hpos : 2 <= estimated_total request)
    by (unfold estimated_total; lia).
  split; [exact Hpos |]. split; [| split].
  - intro Hsized.
    destruct (compute_decision_cases request policy governance Hsized)
      as [(_ & _ & cost & _ & Hd) | [(_ & _ & _ & cost & _ & Hd)
                                    | (_ & Hno & _)]].
    + eexists. split; [exact Hd | discriminate].
    + eexists. split; [exact Hd | discriminate].
    + exfalso. apply Hno. split; [lia | exact Hflag].
  - intros d Hd.
    destruct (compute_decision_returned _ _ _ _ Hd)
      as [(_ & _ & -> & _) | [(_ & _ & _ & -> & _) | (_ & Hno & _)]];
      try discriminate.
    exfalso. apply Hno. split; [lia | exact Hflag].
  - intros e. unfold compute_decision.
    change (estimate_tokens (prompt request)
            + estimate_tokens (Py.or_empty (context request)))
      with (estimated_total request).
    assert (Hlt : (context_threshold_tokens policy
                   <? estimated_total request) = true)
      by (apply Z.ltb_lt; lia).
    rewrite Hlt, Hflag. cbn [andb].
    assert (Hn : 0 <= estimated_total request * 2) by lia.
    assert (Hcost : forall tier x,
              estimate_cost tier (TokInt (estimated_total request * 2))
              = Raised x -> x = OverflowError).
    { intros tier x Hx.
      destruct (estimate_cost_nonneg tier _ Hn) as [H | (c & H & _)];
        rewrite H in Hx; inversion Hx; reflexivity. }
    assert (Hnew : forall t m r c l cost,
              Py.fle zero c && Py.fle c one = true ->
              (1 <=? Py.len r) = true -> (0 <=? l) && (l <=? 3) = true ->
              Py.fle zero cost = true ->
              new_RouterDecision t m r c l cost <> Raised e).
    { intros t m r c l cost Hc Hr Hl Hv. unfold new_RouterDecision,
        RouterDecision_valid.
      cbn [reason confidence escalation_level cost_estimate].
      apply andb_true_iff in Hc as [Hc0 Hc1].
      apply andb_true_iff in Hl as [Hl0 Hl3].
      rewrite Hr, Hc0, Hc1, Hl0, Hl3, Hv. discriminate. }
    destruct (_ && _).
    + destruct (estimate_cost_nonneg "premium" _ Hn) as [-> | (c & -> & Hv)].
      * intro H. inversion H. reflexivity.
      * intro H. exfalso. revert H. apply Hnew;
          [vm_compute; reflexivity | reflexivity | reflexivity | exact Hv].
    + destruct (estimate_cost_nonneg "market" _ Hn) as [-> | (c & -> & Hv)].
      * intro H. inversion H. reflexivity.
      * intro H. exfalso. revert H. apply Hnew;
          [vm_compute; reflexivity | apply len_append_literal
          | reflexivity | exact Hv].
Qed.

Lemma low_threshold_routes_to_market_witness :
  context_threshold_tokens Calls.threshold_one <= 1 /\
  context_overflow_escalate (escalation_rules Calls.threshold_one) = true /\
  RunRequest_sized Scenario.request_hi /\
  exists d,
    compute_decision Scenario.request_hi Calls.threshold_one
      default_Governance = Returned d /\
    route d <> LOCAL.
Proof.
  assert (Hsized : RunRequest_sized Scenario.request_hi)
    by (split; apply Z.leb_le; vm_compute; reflexivity).
  assert (Hthr : context_threshold_tokens Calls.threshold_one <= 1)
    by (cbn; lia).
  split; [exact Hthr |]. split; [reflexivity |]. split; [exact Hsized |].
  exact (proj1 (proj2 (low_threshold_routes_to_market Scenario.request_hi
                         Calls.threshold_one default_Governance Hthr
                         eq_refl)) Hsized).
Defined.

(** *** The cost estimate *)

(** A tier name without a rate costs nothing: the estimate is the zero
    that the product of the default rate 0.0 and the quotient
    [token_count / 1000] is, when that quotient is a float. *)
Lemma estimate_cost_unpriced (tier : string) (n : Z) :
  tier <> "market" -> tier <> "premium" ->
  estimate_cost tier (TokInt n)
  = match Py.true_div_int n 1000 with
    | Raised e => Raised e
    | Returned _ => Returned (S754_zero (n <? 0))
    end.
Proof.
  intros Hm Hp. unfold estimate_cost, per_thousand, COST_PER_1K.
  cbn [Py.dict_get].
  apply String.eqb_neq in Hm, Hp.
  rewrite (String.eqb_sym "market"), (String.eqb_sym "premium"), Hm, Hp.
  assert (Hrate : (if ("local" =? tier)%string then zero else zero) = zero)
    by (destruct ("local" =? tier)%string; reflexivity).
  rewrite Hrate. unfold Py.true_div_int.
  pose proof (nearest_quotient_shape n 1000) as S.
  destruct (Py.nearest_quotient n 1000) as [s | s | | s m e];
    try reflexivity; try contradiction.
  - subst s. reflexivity.
  - destruct S as [-> _]. reflexivity.
Qed.

(** X7. Only the market and premium tiers have a price: for every
    other tier name, known or not, and every token count that is an
    int, the estimate is a zero, negative for a negative count, unless
    the count is so large that its division by 1000 raises an
    [OverflowError]; for a count from 0 up to 1023 bits it is 0.0. *)
Theorem only_hosted_tiers_cost (tier : string) (n : Z) :
  tier <> "market" -> tier <> "premium" ->
  (estimate_cost tier (TokInt n) = Raised OverflowError
   \/ estimate_cost tier (TokInt n) = Returned (S754_zero (n <? 0))) /\
  (0 <= n < 2 ^ 1023 -> estimate_cost tier (TokInt n) = Returned zero).
Proof.
  intros Hm Hp. rewrite (estimate_cost_unpriced tier n Hm Hp). split.
  - unfold Py.true_div_int.
    destruct (Py.nearest_quotient n 1000); auto.
  - intro Hn. destruct (true_div_int_returns n 1000 Hn) as (x & -> & _).
    replace (n <? 0) with false by (symmetry; apply Z.ltb_ge; lia).
    reflexivity.
Qed.

Lemma only_hosted_tiers_cost_witness :
  "local" <> "market" /\ "local" <> "premium" /\
  estimate_cost "local" (TokInt 5200) = Returned zero.
Proof.
  assert (Hm : "local" <> "market") by discriminate.
  assert (Hp : "local" <> "premium") by discriminate.
  split; [exact Hm |]. split; [exact Hp |].
  apply (proj2 (only_hosted_tiers_cost "local" 5200 Hm Hp)).
  split; [lia | apply Z.ltb_lt; vm_compute; reflexivity].
Defined.

(** A count beyond the floats: dividing ten to the power 400 by 1000
    raises, whatever the tier. *)
Example estimate_cost_overflows :
  estimate_cost "local" (TokInt (10 ^ 400)) = Raised OverflowError /\
  estimate_cost "market" (TokInt (10 ^ 400)) = Raised OverflowError /\
  estimate_cost "market" TokNone = Raised TypeError.
Proof. repeat split; vm_compute; reflexivity. Qed.

(** *** The Decision against the estimates and the executor *)

Lemma dict_get_default_twice {V : Type} (d : Py.dict V) (k : string)
    (x : V) :
  Py.dict_get d k (Py.dict_get d k x) = Py.dict_get d k x.
Proof.
  induction d as [| [k' v] d IH]; cbn [Py.dict_get]; [reflexivity |].
  destruct (k' =? k)%string; [reflexivity | exact IH].
Qed.

(** X8. The executor runs the decided tier on the decided model:
    for a Decision the engine computed under a policy, the model the
    executor looks up for the decided tier under the same policy is the
    Decision's model, whether the policy names a model for that tier or
    the engine fell back on its built-in default. *)
Theorem decided_model_is_used (request : RunRequest)
    (policy : RoutingPolicy) (governance : Governance)
    (d : RouterDecision) :
  compute_decision request policy governance = Returned d ->
  model_for policy d (route d) = model d.
Proof.
  unfold compute_decision, model_for.
  destruct (_ && _).
  - destruct (estimate_cost _ _); [| discriminate].
    intro H. apply new_RouterDecision_fields in H as [-> _].
    cbn [route model Tier_value]. apply dict_get_default_twice.
  - destruct (_ && _).
    + destruct (estimate_cost _ _); [| discriminate].
      intro H. apply new_RouterDecision_fields in H as [-> _].
      cbn [route model Tier_value]. apply dict_get_default_twice.
    + destruct (Py.int_of_float _); [| discriminate].
      intro H. apply new_RouterDecision_fields in H as [-> _].
      cbn [route model Tier_value]. apply dict_get_default_twice.
Qed.

Lemma decided_model_is_used_witness :
  exists d,
    compute_decision Scenario.request_leak Calls.no_models
      default_Governance = Returned d /\
    model_for Calls.no_models d (route d) = model d.
Proof.
  eexists. split; [vm_compute; reflexivity |].
  apply (decided_model_is_used Scenario.request_leak Calls.no_models
           default_Governance).
  vm_compute. reflexivity.
Defined.

(** X9. The cost a Decision announces is the engine's estimate, on
    the decided tier, for twice the estimated tokens of the request: for
    a Decision of the premium or the market rule it is what that
    estimate returned; the written-out zero of the default route is what
    the estimate for the local tier returns for every request whose
    texts are Python strings, the estimate raising an [OverflowError]
    beyond that size where the default route, which does not call it,
    still announces zero. *)
Theorem decision_cost_is_estimate (request : RunRequest)
    (policy : RoutingPolicy) (governance : Governance)
    (d : RouterDecision) :
  compute_decision request policy governance = Returned d ->
  (route d <> LOCAL ->
   estimate_cost (Tier_value (route d))
     (TokInt (estimated_total request * 2))
   = Returned (cost_estimate d)) /\
  (RunRequest_sized request ->
   estimate_cost (Tier_value (route d))
     (TokInt (estimated_total request * 2))
   = Returned (cost_estimate d)) /\
  (estimate_cost (Tier_value (route d))
     (TokInt (estimated_total request * 2))
   = Returned (cost_estimate d)
   \/ route d = LOCAL /\ cost_estimate d = zero /\
      estimate_cost (Tier_value (route d))
        (TokInt (estimated_total request * 2))
      = Raised OverflowError).
Proof.
  intro Hd.
  assert (Hpos : 0 <= estimated_total request * 2)
    by (unfold estimated_total; lia).
  destruct (compute_decision_returned _ _ _ _ Hd)
    as [(_ & _ & Hr & _ & _ & _ & Hc) | [(_ & _ & _ & Hr & _ & _ & Hc)
                                        | (_ & _ & Hr & _ & _ & Hz)]];
    rewrite Hr in *; cbn [Tier_value] in *.
  - repeat split; auto.
  - repeat split; auto.
  - rewrite Hz.
    rewrite estimate_cost_unpriced by discriminate.
    replace (estimated_total request * 2 <? 0) with false
      by (symmetry; apply Z.ltb_ge; lia).
    split; [intro H; contradiction |]. split.
    + intro Hsized.
      destruct (estimated_total_bounds request Hsized) as [_ Hfit].
      destruct (true_div_int_returns _ 1000 Hfit) as (x & -> & _).
      reflexivity.
    + unfold Py.true_div_int.
      pose proof (nearest_quotient_shape (estimated_total request * 2) 1000)
        as S.
      destruct (Py.nearest_quotient _ _) as [s | s | | s m e];
        try contradiction; auto.
Qed.

Lemma decision_cost_is_estimate_witness :
  RunRequest_sized Scenario.request_overflow /\
  exists d,
    compute_decision Scenario.request_overflow default_RoutingPolicy
      default_Governance = Returned d /\
    estimate_cost (Tier_value (route d))
      (TokInt (estimated_total Scenario.request_overflow * 2))
    = Returned (cost_estimate d).
Proof.
  assert (Hsized : RunRequest_sized Scenario.request_overflow)
    by (split; apply Z.leb_le; vm_compute; reflexivity).
  split; [exact Hsized |].
  eexists. split; [vm_compute; reflexivity |].
  refine (proj1 (proj2 (decision_cost_is_estimate Scenario.request_overflow
                          default_RoutingPolicy default_Governance _ _))
            Hsized).
  vm_compute. reflexivity.
Defined.

(** ** The adapters and the fallback executor *)

Lemma latency_sum_app (a b : list Event) :
  latency_sum (a ++ b) = latency_sum a + latency_sum b.
Proof. induction a as [| e a IH]; cbn [latency_sum app]; lia. Qed.

Lemma failed_local_app (a b : list Event) :
  failed_local (a ++ b) = (failed_local a + failed_local b)%nat.
Proof. unfold failed_local. now rewrite filter_app, length_app. Qed.

Lemma patches_app (a b : list DbWrite) :
  patches (a ++ b) = patches a ++ patches b.
Proof.
  induction a as [| x a IH]; [reflexivity |].
  destruct x; cbn [patches app]; now rewrite IH.
Qed.

Lemma Tier_value_local (tier : Tier) :
  (Tier_value tier =? "local")%string = Tier_eqb tier LOCAL.
Proof. now destruct tier. Qed.

Lemma never_back_app (newer older : list nat) :
  never_back newer -> never_back older ->
  (forall i j, In i newer -> In j older -> (j <= i)%nat) ->
  never_back (newer ++ older).
Proof.
  unfold never_back. intros Hn Ho Hcross.
  induction newer as [| i newer IH]; [exact Ho |].
  cbn [app]. inversion Hn as [| ? ? Hn' Hi]; subst. constructor.
  - apply IH; [exact Hn' |]. intros i' j Hi' Hj.
    apply Hcross; [now right | exact Hj].
  - apply Forall_app. split; [exact Hi |].
    apply Forall_forall. intros j Hj. apply Hcross; [now left | exact Hj].
Qed.

Lemma never_back_repeat (i : nat) (n : nat) : never_back (repeat i n).
Proof.
  unfold never_back. induction n as [| n IH]; cbn [repeat]; constructor.
  - exact IH.
  - apply Forall_forall. intros j Hj. apply repeat_spec in Hj. lia.
Qed.

Lemma escalations_earned_app (threshold before : Z) (a b : list DbWrite) :
  escalations_earned threshold
    (before + Z.of_nat (failed_local (events_of b))) a ->
  escalations_earned threshold before b ->
  escalations_earned threshold before (a ++ b).
Proof.
  intros Ha Hb. induction a as [| x a IH]; [exact Hb |].
  cbn [app escalations_earned] in *. destruct Ha as [Hx Ha].
  split; [| exact (IH Ha)].
  destruct x; auto.
  rewrite events_of_app, failed_local_app, Nat2Z.inj_add.
  replace (before + (Z.of_nat (failed_local (events_of a))
                     + Z.of_nat (failed_local (events_of b))))
    with (before + Z.of_nat (failed_local (events_of b))
          + Z.of_nat (failed_local (events_of a))) by lia.
  exact Hx.
Qed.

Lemma escalations_earned_quiet (threshold before : Z) (d : list DbWrite) :
  Forall (fun e => has_type "escalation" e = false) (events_of d) ->
  escalations_earned threshold before d.
Proof.
  induction d as [| x d IH]; intro H; [exact I |].
  cbn [escalations_earned]. destruct x; cbn [events_of] in H;
    try (split; [exact I | exact (IH H)]).
  inversion H; subst. split; [| auto]. intro He. congruence.
Qed.

Lemma count_type_quiet (d : list DbWrite) :
  Forall (fun e => has_type "escalation" e = false) (events_of d) ->
  count_type "escalation" d = 0%nat.
Proof.
  unfold count_type. induction (events_of d) as [| e evs IH]; intro H;
    [reflexivity |].
  inversion H; subst. cbn [filter]. rewrite H2. auto.
Qed.

Section TraceProperties.

Context {JL : JsonLoads}.
Variables (env : Env) (request : RunRequest) (policy : RoutingPolicy)
          (decision : RouterDecision)
          (task_id : string) (decision_id : option string).

Local Abbreviation model_of := (model_for policy decision).
Local Abbreviation exec_ev :=
  (execution_event policy decision task_id decision_id).
Local Abbreviation gate_ev := (gate_event policy decision task_id decision_id).
Local Abbreviation attempt_ :=
  (attempt env request policy decision task_id decision_id).
Local Abbreviation attempts_ :=
  (attempts env request policy decision task_id decision_id).
Local Abbreviation tiers_ :=
  (tiers env request policy decision task_id decision_id).
Local Abbreviation run_ :=
  (run_with_fallback env request policy decision task_id decision_id).
Local Abbreviation sent tier :=
  (request_for tier (model_of tier) (prompt request) (context request)).

Lemma latency_sum_exec (tier : Tier) (result : AttemptResult) :
  latency_sum [exec_ev tier result] = a_latency_ms result.
Proof. cbn. lia. Qed.

Lemma failed_local_exec (tier : Tier) (result : AttemptResult) :
  failed_local [exec_ev tier result]
  = if Tier_eqb tier LOCAL && negb (a_success result) then 1%nat else 0%nat.
Proof.
  unfold failed_local. cbn [filter]. unfold is_local_failure.
  rewrite is_execution_on_exec, Tier_value_local.
  cbn [execution_event ev_success].
  now destruct (Tier_eqb tier LOCAL && negb (a_success result)).
Qed.

Lemma latency_sum_gate (tier : Tier) (evs : list Event) :
  latency_sum (gate_ev tier :: evs) = latency_sum evs.
Proof. reflexivity. Qed.

Lemma failed_local_gate (tier : Tier) (evs : list Event) :
  failed_local (gate_ev tier :: evs) = failed_local evs.
Proof. reflexivity. Qed.

(** An adapter call issues no request, or the one request of its tier. *)
Lemma execute_on_tier_requests (tier : Tier) (m p : string)
    (c : option string) (w : World) :
  http_requests (snd (execute_on_tier env tier m p c w)) = http_requests w
  \/ http_requests (snd (execute_on_tier env tier m p c w))
     = request_for tier m p c :: http_requests w.
Proof.
  destruct tier; cbn [execute_on_tier];
    unfold OllamaAdapter_generate, OpenRouterAdapter_generate,
      ClaudeAdapter_generate, bind, ret, http_post;
    try destruct (OpenRouterAdapter_is_configured env);
    try destruct (ClaudeAdapter_is_configured env);
    cbn [negb snd http_requests];
    solve [left; reflexivity | right; reflexivity].
Qed.

Lemma read_outcome_shape (provider : string) (o : HttpOutcome) :
  a_success (read_outcome provider o) = true /\
  a_error (read_outcome provider o) = None
  \/ a_success (read_outcome provider o) = false /\
     a_error (read_outcome provider o) <> None /\
     a_output (read_outcome provider o) = JNull /\
     a_token_count (read_outcome provider o) = TokInt 0.
Proof.
  destruct o as [latency status text content tokens late | latency
                | latency message]; cbn [read_outcome];
    [destruct (negb (status =? 200)); [| destruct (json_loads content)]
    |..];
    solve [left; cbn; auto
          | right; cbn; repeat split; try reflexivity; discriminate].
Qed.

(** X10. What every adapter call gives back, whatever the tier and the
    backend's answer: success exactly when there is no error text; on
    failure no output and the token count 0; no registry write; and
    at most one POST, addressed to the backend of the tier asked for,
    with the model asked for, the engine's system prompt and the user
    message built from the prompt and the context. *)
Theorem adapter_result_shape (tier : Tier) (m p : string)
    (c : option string) (w : World) :
  let result := fst (execute_on_tier env tier m p c w) in
  let w1 := snd (execute_on_tier env tier m p c w) in
  (a_success result = true /\ a_error result = None
   \/ a_success result = false /\ a_error result <> None /\
      a_output result = JNull /\ a_token_count result = TokInt 0) /\
  (http_requests w1 = http_requests w
   \/ http_requests w1 = request_for tier m p c :: http_requests w) /\
  db_writes w1 = db_writes w.
Proof.
  cbv zeta. split; [| split].
  - destruct tier; cbn [execute_on_tier];
      unfold OllamaAdapter_generate, OpenRouterAdapter_generate,
        ClaudeAdapter_generate, bind, ret, http_post;
      try destruct (OpenRouterAdapter_is_configured env);
      try destruct (ClaudeAdapter_is_configured env);
      cbn [fst snd negb];
      solve [apply read_outcome_shape
            | right; cbn; repeat split; try reflexivity; discriminate].
  - apply execute_on_tier_requests.
  - apply execute_on_tier_frame.
Qed.

Lemma attempts_trace (n : nat) (tier : Tier) (tier_idx : nat) :
  forall (loc : Locals) (w : World) (f : Flow) (w' : World),
  attempts_ n tier tier_idx loc w = (f, w') ->
  exists d rs,
    db_writes w' = d ++ db_writes w /\
    attempted w'
    = repeat tier_idx (count_type "execution" d) ++ attempted w /\
    http_requests w' = rs ++ http_requests w /\
    (List.length rs <= count_type "execution" d)%nat /\
    Forall (eq (sent tier)) rs /\
    Forall (executor_write task_id decision_id) d /\
    Forall (fun e => has_type "escalation" e = false) (events_of d) /\
    patches d = match f with
                | Return _ => [(task_id, "completed")]
                | _ => []
                end /\
    trace_post policy loc d f.
Proof.
  induction n as [| n IH]; intros loc w f w' H.
  - cbn in H. inversion H; subst; clear H. exists [], [].
    cbn. repeat split; auto; lia.
  - cbn [attempts] in H. unfold bind in H.
    destruct (attempt_ tier tier_idx loc w) as [f1 w1] eqn:Ha.
    apply attempt_cases in Ha.
    destruct Ha as (result & w0 & Hex & Hatt & Hreq & Hcase).
    pose proof (execute_on_tier_requests tier (model_of tier)
                  (prompt request) (context request) w) as Hrq.
    rewrite Hex in Hrq. cbn [snd] in Hrq. rewrite <- Hreq in Hrq.
    assert (Hrs : exists rs1, http_requests w1 = rs1 ++ http_requests w /\
                    (List.length rs1 <= 1)%nat /\
                    Forall (eq (sent tier)) rs1).
    { destruct Hrq as [Hrq | Hrq]; rewrite Hrq.
      - exists []. cbn. auto.
      - exists [sent tier]. cbn. auto. }
    clear Hrq. destruct Hrs as (rs1 & Hrs1 & Hlen1 & Hall1).
    assert (Hwrite : executor_write task_id decision_id
                       (InsertEvent (exec_ev tier result)))
      by (cbn; auto).
    assert (Hgate : executor_write task_id decision_id
                      (InsertEvent (gate_ev tier)))
      by (cbn; auto).
    assert (Hdone : executor_write task_id decision_id
                      (PatchTaskStatus task_id "completed"))
      by (cbn; auto).
    destruct Hcase as [(Hs & -> & Hdb)
                      | [(Hs & (e & Hg & ->) & Hdb)
                      | [(Hs & Hg & Hflag & -> & Hdb)
                      | [(Hs & (valid & Hg & Hrej) & (fin & Hfin & ->) & Hdb)
                      | (Hs & (valid & Hg & Hrej) & (e & Hfin & ->)
                         & Hdb)]]]].
    + (* failed: the loop goes on *)
      apply IH in H.
      destruct H as (d & rs & Hd & Ha & Hr & Hlen & Hall & Hw & Hq & Hp & Hpost).
      exists (d ++ [InsertEvent (exec_ev tier result)]), (rs ++ rs1).
      rewrite Hd, Hdb, <- app_assoc. split; [reflexivity |].
      rewrite count_type_app, count_type_event.
      change (has_type "execution" (exec_ev tier result)) with true.
      cbv iota. change (count_type "execution" []) with 0%nat.
      rewrite Nat.add_0_r.
      split.
      { rewrite Ha, Hatt, Nat.add_1_r.
        change (repeat tier_idx (S (count_type "execution" d)))
          with (tier_idx :: repeat tier_idx (count_type "execution" d)).
        rewrite repeat_cons, <- app_assoc. reflexivity. }
      split; [rewrite Hr, Hrs1, app_assoc; reflexivity |].
      split; [rewrite length_app; lia |].
      split; [apply Forall_app; auto |].
      split; [apply Forall_app; auto |].
      split.
      { rewrite events_of_app. apply Forall_app. split; [exact Hq |].
        cbn. constructor; [reflexivity | constructor]. }
      split; [rewrite patches_app, Hp, app_nil_r; reflexivity |].
      pose proof (latency_sum_exec tier result) as Hlat.
      pose proof (failed_local_exec tier result) as Hfail.
      rewrite Hs in Hfail. cbn [negb] in Hfail. rewrite andb_true_r in Hfail.
      destruct f; cbn [trace_post] in *; auto;
        rewrite events_of_app, latency_sum_app, ?failed_local_app;
        cbn [events_of]; rewrite Hlat, ?Hfail;
        cbn [after_failure l_total_latency l_local_fail_count] in Hpost;
        destruct (Tier_eqb tier LOCAL); intuition lia.
    + (* the gate raises *)
      inversion H; subst; clear H.
      exists [InsertEvent (exec_ev tier result)], rs1.
      split; [exact Hdb |].
      change (count_type "execution" _) with 1%nat.
      split; [rewrite Hatt; reflexivity |].
      split; [exact Hrs1 |]. split; [exact Hlen1 |]. split; [exact Hall1 |].
      split; [repeat (apply Forall_cons; [assumption |]); apply Forall_nil |].
      split; [repeat constructor |].
      split; [reflexivity |].
      exact I.
    + (* rejected by the gate *)
      inversion H; subst; clear H.
      exists [InsertEvent (gate_ev tier); InsertEvent (exec_ev tier result)],
        rs1.
      split; [exact Hdb |].
      change (count_type "execution" _) with 1%nat.
      split; [rewrite Hatt; reflexivity |].
      split; [exact Hrs1 |]. split; [exact Hlen1 |]. split; [exact Hall1 |].
      split; [repeat (apply Forall_cons; [assumption |]); apply Forall_nil |].
      split; [repeat constructor |].
      split; [reflexivity |].
      cbn [trace_post events_of after_rejection l_total_latency
           l_local_fail_count].
      rewrite latency_sum_gate, failed_local_gate, latency_sum_exec,
        failed_local_exec, Hs, andb_false_r.
      cbn. lia.
    + (* accepted *)
      inversion H; subst; clear H.
      exists [PatchTaskStatus task_id "completed";
              InsertEvent (exec_ev tier result)], rs1.
      split; [exact Hdb |].
      change (count_type "execution" _) with 1%nat.
      split; [rewrite Hatt; reflexivity |].
      split; [exact Hrs1 |]. split; [exact Hlen1 |]. split; [exact Hall1 |].
      split; [repeat (apply Forall_cons; [assumption |]); apply Forall_nil |].
      split; [repeat constructor |].
      split; [reflexivity |].
      cbn [trace_post success_result res_success res_latency_ms res_output
           events_of].
      rewrite latency_sum_exec.
      split; [reflexivity |]. split; [reflexivity |].
      intro Hflag'. rewrite Hflag', andb_true_r in Hrej.
      apply negb_false_iff in Hrej. subst valid. exact Hg.
    + (* the constructor call raises *)
      inversion H; subst; clear H.
      exists [InsertEvent (exec_ev tier result)], rs1.
      split; [exact Hdb |].
      change (count_type "execution" _) with 1%nat.
      split; [rewrite Hatt; reflexivity |].
      split; [exact Hrs1 |]. split; [exact Hlen1 |]. split; [exact Hall1 |].
      split; [repeat (apply Forall_cons; [assumption |]); apply Forall_nil |].
      split; [repeat constructor |].
      split; [reflexivity |].
      exact I.
Qed.

Lemma after_attempts_trace (tier : Tier) (loc : Locals) (w : World) :
  exists d,
    db_writes (snd (after_attempts policy decision task_id decision_id
                      tier loc w)) = d ++ db_writes w /\
    attempted (snd (after_attempts policy decision task_id decision_id
                      tier loc w)) = attempted w /\
    http_requests (snd (after_attempts policy decision task_id decision_id
                          tier loc w)) = http_requests w /\
    Forall (executor_write task_id decision_id) d /\
    latency_sum (events_of d) = 0 /\
    failed_local (events_of d) = 0%nat /\
    patches d = [] /\
    count_type "execution" d = 0%nat /\
    (count_type "escalation" d
     <= if Tier_eqb tier LOCAL then 1 else 0)%nat /\
    escalations_earned (local_fail_count (escalation_rules policy))
      (l_local_fail_count loc) d.
Proof.
  unfold after_attempts.
  destruct (Tier_eqb tier LOCAL) eqn:Ht; cbn [andb];
    [destruct (local_fail_count (escalation_rules policy)
               <=? l_local_fail_count loc) eqn:Hthr |].
  - apply Tier_eqb_eq in Ht. subst tier. apply Z.leb_le in Hthr.
    eexists [_]. cbn [snd log_event db_write db_writes attempted
                      http_requests app].
    split; [reflexivity |]. split; [reflexivity |]. split; [reflexivity |].
    split.
    { constructor; [| constructor]. cbn.
      split; [reflexivity |]. split; [reflexivity |].
      right. right. repeat split. }
    split; [reflexivity |]. split; [reflexivity |]. split; [reflexivity |].
    split; [reflexivity |]. split; [cbn; lia |].
    cbn [escalations_earned events_of failed_local filter List.length
         ev_error_message].
    change (Z.of_nat 0) with 0. rewrite Z.add_0_r. auto.
  - exists []. cbn. repeat split; auto; lia.
  - exists []. cbn. repeat split; auto; lia.
Qed.

Lemma trace_post_later (loc loc' : Locals) (d1 d2 d3 : list DbWrite)
    (f : Flow) :
  l_total_latency loc'
  = l_total_latency loc + latency_sum (events_of d1) ->
  l_local_fail_count loc'
  = l_local_fail_count loc + Z.of_nat (failed_local (events_of d1)) ->
  latency_sum (events_of d2) = 0 ->
  failed_local (events_of d2) = 0%nat ->
  trace_post policy loc' d3 f ->
  trace_post policy loc (d3 ++ d2 ++ d1) f.
Proof.
  intros Hl Hc Hl2 Hc2.
  destruct f; cbn [trace_post]; auto;
    rewrite !events_of_app, !latency_sum_app, ?failed_local_app, Hl2, ?Hc2;
    intuition lia.
Qed.

Lemma local_entries_cons (tier : Tier) (rest : list Tier) :
  local_entries (tier :: rest)
  = ((if Tier_eqb tier LOCAL then 1 else 0) + local_entries rest)%nat.
Proof.
  unfold local_entries. cbn [filter]. now destruct (Tier_eqb tier LOCAL).
Qed.

Lemma tiers_trace (rest : list Tier) :
  forall (tier_idx : nat) (loc : Locals) (w : World) (f : Flow) (w' : World),
  tiers_ rest tier_idx loc w = (f, w') ->
  exists d a rs,
    db_writes w' = d ++ db_writes w /\
    attempted w' = a ++ attempted w /\
    http_requests w' = rs ++ http_requests w /\
    List.length a = count_type "execution" d /\
    Forall (fun i => (tier_idx <= i < tier_idx + List.length rest)%nat) a /\
    never_back a /\
    (List.length rs <= List.length a)%nat /\
    Forall (fun rq => exists tier, In tier rest /\ rq = sent tier) rs /\
    Forall (executor_write task_id decision_id) d /\
    escalations_earned (local_fail_count (escalation_rules policy))
      (l_local_fail_count loc) d /\
    (count_type "escalation" d <= local_entries rest)%nat /\
    patches d = match f with
                | Return _ => [(task_id, "completed")]
                | _ => []
                end /\
    trace_post policy loc d f.
Proof.
  induction rest as [| tier rest IH]; intros tier_idx loc w f w' H.
  - cbn in H. inversion H; subst; clear H. exists [], [], [].
    cbn. repeat split; auto; try lia. constructor.
  - cbn [tiers] in H. unfold bind at 1 in H.
    destruct (attempts_ _ tier tier_idx loc w) as [f1 w1] eqn:Ha.
    apply attempts_trace in Ha.
    destruct Ha as (d1 & rs1 & Hd1 & Ha1 & Hr1 & Hlen1 & Hall1 & Hw1 & Hq1
                    & Hp1 & Hpost1).
    set (k := count_type "execution" d1) in *.
    assert (Hbound1 : Forall (fun i => (tier_idx <= i
                                < tier_idx + List.length (tier :: rest))%nat)
                        (repeat tier_idx k)).
    { apply Forall_forall. intros i Hi. apply repeat_spec in Hi.
      cbn [List.length]. lia. }
    assert (Hsent1 : Forall (fun rq => exists t, In t (tier :: rest)
                                         /\ rq = sent t) rs1).
    { eapply Forall_impl; [| exact Hall1]. intros rq <-.
      exists tier. split; [now left | reflexivity]. }
    assert (Hstop : forall f0,
              f1 = f0 -> w1 = w' -> f = f0 ->
              match f0 with Return _ | Raise _ => True | _ => False end ->
              exists d a rs,
                db_writes w' = d ++ db_writes w /\
                attempted w' = a ++ attempted w /\
                http_requests w' = rs ++ http_requests w /\
                List.length a = count_type "execution" d /\
                Forall (fun i => (tier_idx <= i
                          < tier_idx + List.length (tier :: rest))%nat) a /\
                never_back a /\
                (List.length rs <= List.length a)%nat /\
                Forall (fun rq => exists t, In t (tier :: rest)
                                   /\ rq = sent t) rs /\
                Forall (executor_write task_id decision_id) d /\
                escalations_earned
                  (local_fail_count (escalation_rules policy))
                  (l_local_fail_count loc) d /\
                (count_type "escalation" d
                 <= local_entries (tier :: rest))%nat /\
                patches d = match f with
                            | Return _ => [(task_id, "completed")]
                            | _ => []
                            end /\
                trace_post policy loc d f).
    { intros f0 -> <- -> _. exists d1, (repeat tier_idx k), rs1.
      split; [exact Hd1 |]. split; [exact Ha1 |]. split; [exact Hr1 |].
      split; [apply repeat_length |]. split; [exact Hbound1 |].
      split; [apply never_back_repeat |].
      split; [rewrite repeat_length; exact Hlen1 |].
      split; [exact Hsent1 |]. split; [exact Hw1 |].
      split; [now apply escalations_earned_quiet |].
      split; [rewrite (count_type_quiet _ Hq1); lia |].
      split; [exact Hp1 | exact Hpost1]. }
    assert (Hgo : forall loc',
              (f1 = Continue loc' \/ f1 = Break loc') ->
              tiers_ rest (S tier_idx) loc'
                (snd (after_attempts policy decision task_id decision_id
                        tier loc' w1)) = (f, w') ->
              exists d a rs,
                db_writes w' = d ++ db_writes w /\
                attempted w' = a ++ attempted w /\
                http_requests w' = rs ++ http_requests w /\
                List.length a = count_type "execution" d /\
                Forall (fun i => (tier_idx <= i
                          < tier_idx + List.length (tier :: rest))%nat) a /\
                never_back a /\
                (List.length rs <= List.length a)%nat /\
                Forall (fun rq => exists t, In t (tier :: rest)
                                   /\ rq = sent t) rs /\
                Forall (executor_write task_id decision_id) d /\
                escalations_earned
                  (local_fail_count (escalation_rules policy))
                  (l_local_fail_count loc) d /\
                (count_type "escalation" d
                 <= local_entries (tier :: rest))%nat /\
                patches d = match f with
                            | Return _ => [(task_id, "completed")]
                            | _ => []
                            end /\
                trace_post policy loc d f).
    { intros loc' Hf1 Ht.
      assert (Hloc : l_total_latency loc'
                     = l_total_latency loc + latency_sum (events_of d1) /\
                     l_local_fail_count loc'
                     = l_local_fail_count loc
                       + Z.of_nat (failed_local (events_of d1)))
        by (destruct Hf1; subst f1; exact Hpost1).
      assert (Hp1' : patches d1 = [])
        by (destruct Hf1; subst f1; exact Hp1).
      destruct Hloc as [Hlat Hcnt].
      destruct (after_attempts_trace tier loc' w1)
        as (d2 & Hd2 & Ha2 & Hr2 & Hw2 & Hl2 & Hc2 & Hp2 & Hx2 & He2 & Hern2).
      apply IH in Ht.
      destruct Ht as (d3 & a3 & rs3 & Hd3 & Ha3 & Hr3 & Hlen3 & Hb3 & Hnb3
                      & Hrs3 & Hs3 & Hw3 & Hern3 & He3 & Hp3 & Hpost3).
      exists (d3 ++ d2 ++ d1), (a3 ++ repeat tier_idx k), (rs3 ++ rs1).
      split; [rewrite Hd3, Hd2, Hd1, <- !app_assoc; reflexivity |].
      split; [rewrite Ha3, Ha2, Ha1, <- app_assoc; reflexivity |].
      split; [rewrite Hr3, Hr2, Hr1, <- app_assoc; reflexivity |].
      split.
      { rewrite length_app, repeat_length, !count_type_app, Hx2, Hlen3.
        fold k. lia. }
      split.
      { apply Forall_app. split; [| exact Hbound1].
        eapply Forall_impl; [| exact Hb3]. cbn [List.length]. intros i Hi.
        cbn beta in Hi. lia. }
      split.
      { apply never_back_app;
          [exact Hnb3 | apply never_back_repeat |].
        intros i j Hi Hj. apply repeat_spec in Hj. subst j.
        rewrite Forall_forall in Hb3. specialize (Hb3 i Hi). cbn beta in Hb3.
        lia. }
      split; [rewrite !length_app, repeat_length; lia |].
      split.
      { apply Forall_app. split; [| exact Hsent1].
        eapply Forall_impl; [| exact Hs3]. intros rq (t & Hin & ->).
        exists t. split; [now right | reflexivity]. }
      split; [repeat (apply Forall_app; split); assumption |].
      split.
      { apply escalations_earned_app.
        - rewrite events_of_app, failed_local_app, Hc2, Nat.add_0_l, <- Hcnt.
          exact Hern3.
        - apply escalations_earned_app.
          + rewrite <- Hcnt. exact Hern2.
          + now apply escalations_earned_quiet. }
      split.
      { rewrite !count_type_app, (count_type_quiet _ Hq1), local_entries_cons.
        lia. }
      split; [rewrite !patches_app, Hp3, Hp2, Hp1', !app_nil_r; reflexivity |].
      now apply (trace_post_later loc loc'). }
    destruct f1 as [loc' | loc' | r | e].
    + unfold bind in H. apply (Hgo loc'); [now left |].
      destruct (after_attempts _ _ _ _ tier loc' w1). exact H.
    + unfold bind in H. apply (Hgo loc'); [now right |].
      destruct (after_attempts _ _ _ _ tier loc' w1). exact H.
    + inversion H; subst. now apply (Hstop (Return r)).
    + inversion H; subst. now apply (Hstop (Raise e)).
Qed.

Lemma In_skipn {A : Type} (n : nat) (l : list A) (x : A) :
  In x (skipn n l) -> In x l.
Proof.
  intro H. rewrite <- (firstn_skipn n l). apply in_or_app. now right.
Qed.

Lemma local_entries_skipn (n : nat) (chain : list Tier) :
  (local_entries (skipn n chain) <= local_entries chain)%nat.
Proof.
  unfold local_entries. rewrite <- (firstn_skipn n chain) at 2.
  rewrite filter_app, length_app. lia.
Qed.

(** The whole run of the executor, read against the writes, the adapter
    calls and the requests it added to the world. *)
Lemma run_trace (w : World) (o : Outcome RouterResult) (w' : World) :
  run_ w = (o, w') ->
  exists a rs,
    db_writes w' = emitted w w' ++ db_writes w /\
    attempted w' = a ++ attempted w /\
    http_requests w' = rs ++ http_requests w /\
    List.length a = count_type "execution" (emitted w w') /\
    Forall (fun i => (start_idx policy decision <= i
                      < List.length (fallback_chain policy))%nat) a /\
    never_back a /\
    (List.length rs <= List.length a)%nat /\
    Forall (fun rq => exists tier,
              In tier (fallback_chain policy) /\ rq = sent tier) rs /\
    Forall (executor_write task_id decision_id) (emitted w w') /\
    escalations_earned (local_fail_count (escalation_rules policy)) 0
      (emitted w w') /\
    (count_type "escalation" (emitted w w')
     <= local_entries (fallback_chain policy))%nat /\
    patches (emitted w w')
    = match o with
      | Returned r =>
          [(task_id, if res_success r then "completed" else "failed")]
      | Raised _ => []
      end /\
    match o with
    | Returned r =>
        res_latency_ms r = latency_sum (events_of (emitted w w')) /\
        (res_success r = true ->
         invalid_json_escalate (escalation_rules policy) = true ->
         _is_valid_json_output (res_output r) = Returned true)
    | Raised _ => True
    end.
Proof.
  unfold run_with_fallback, bind. intro H.
  destruct (tiers_ _ _ _ w) as [f w1] eqn:Ht.
  apply tiers_trace in Ht.
  destruct Ht as (d & a & rs & Hd & Ha & Hr & Hlen & Hb & Hnb & Hrs & Hs
                  & Hw & Hern & He & Hp & Hpost).
  cbn [l_local_fail_count] in Hern.
  assert (Hb' : Forall (fun i => (start_idx policy decision <= i
                          < List.length (fallback_chain policy))%nat) a).
  { eapply Forall_impl; [| exact Hb]. cbn beta. intros i Hi.
    rewrite length_skipn in Hi.
    destruct (find_start_bound (route decision) (fallback_chain policy) 0)
      as [H0 | H0]; unfold start_idx in *; lia. }
  assert (Hs' : Forall (fun rq => exists tier,
                          In tier (fallback_chain policy)
                          /\ rq = sent tier) rs).
  { eapply Forall_impl; [| exact Hs]. intros rq (t & Hin & ->).
    exists t. split; [now apply In_skipn in Hin | reflexivity]. }
  pose proof (local_entries_skipn (start_idx policy decision)
                (fallback_chain policy)) as Hle.
  assert (Hfail : forall loc,
            (f = Continue loc \/ f = Break loc) ->
            o = Returned (exhausted decision task_id loc) ->
            db_writes w' = PatchTaskStatus task_id "failed" :: db_writes w1 ->
            attempted w' = attempted w1 ->
            http_requests w' = http_requests w1 ->
            exists a rs,
              db_writes w' = emitted w w' ++ db_writes w /\
              attempted w' = a ++ attempted w /\
              http_requests w' = rs ++ http_requests w /\
              List.length a = count_type "execution" (emitted w w') /\
              Forall (fun i => (start_idx policy decision <= i
                          < List.length (fallback_chain policy))%nat) a /\
              never_back a /\
              (List.length rs <= List.length a)%nat /\
              Forall (fun rq => exists tier,
                        In tier (fallback_chain policy)
                        /\ rq = sent tier) rs /\
              Forall (executor_write task_id decision_id) (emitted w w') /\
              escalations_earned
                (local_fail_count (escalation_rules policy)) 0
                (emitted w w') /\
              (count_type "escalation" (emitted w w')
               <= local_entries (fallback_chain policy))%nat /\
              patches (emitted w w')
              = match o with
                | Returned r =>
                    [(task_id,
                      if res_success r then "completed" else "failed")]
                | Raised _ => []
                end /\
              match o with
              | Returned r =>
                  res_latency_ms r
                  = latency_sum (events_of (emitted w w')) /\
                  (res_success r = true ->
                   invalid_json_escalate (escalation_rules policy) = true ->
                   _is_valid_json_output (res_output r) = Returned true)
              | Raised _ => True
              end).
  { intros loc Hf -> Hdb Hatt Hreq.
    assert (Hpl : l_total_latency loc = latency_sum (events_of d))
      by (destruct Hf; subst f; cbn in Hpost; lia).
    assert (Hpp : patches d = []) by (destruct Hf; subst f; exact Hp).
    assert (Hem : db_writes w'
                  = (PatchTaskStatus task_id "failed" :: d) ++ db_writes w)
      by (rewrite Hdb, Hd; reflexivity).
    rewrite (emitted_app _ _ _ Hem).
    exists a, rs.
    split; [exact Hem |]. split; [congruence |]. split; [congruence |].
    rewrite count_type_patch.
    split; [exact Hlen |]. split; [exact Hb' |]. split; [exact Hnb |].
    split; [exact Hrs |]. split; [exact Hs' |].
    split; [constructor; [cbn; auto | exact Hw] |].
    split; [cbn [escalations_earned]; auto |].
    split; [rewrite count_type_patch; lia |].
    split; [cbn [patches exhausted res_success]; rewrite Hpp; reflexivity |].
    cbn [exhausted res_latency_ms res_success events_of].
    split; [exact Hpl | discriminate]. }
  destruct f as [loc | loc | r | e].
  - cbn in H. inversion H; subst. eapply Hfail; eauto.
  - cbn in H. inversion H; subst. eapply Hfail; eauto.
  - inversion H; subst. rewrite (emitted_app _ _ _ Hd).
    cbn [trace_post initial_locals l_total_latency] in Hpost.
    destruct Hpost as (Hok & Hlat & Hgate).
    exists a, rs. rewrite Hok.
    split; [exact Hd |]. split; [exact Ha |]. split; [exact Hr |].
    split; [exact Hlen |]. split; [exact Hb' |]. split; [exact Hnb |].
    split; [exact Hrs |]. split; [exact Hs' |]. split; [exact Hw |].
    split; [exact Hern |]. split; [lia |]. split; [exact Hp |].
    split; [lia | auto].
  - inversion H; subst. rewrite (emitted_app _ _ _ Hd).
    exists a, rs.
    split; [exact Hd |]. split; [exact Ha |]. split; [exact Hr |].
    split; [exact Hlen |]. split; [exact Hb' |]. split; [exact Hnb |].
    split; [exact Hrs |]. split; [exact Hs' |]. split; [exact Hw |].
    split; [exact Hern |]. split; [lia |]. split; [exact Hp | exact I].
Qed.

(** X11. The latency a Result reports, success or failure, is the sum
    of the latencies of the [execution] events the run wrote: every
    adapter call is counted once, the failed ones and the ones the JSON
    gate rejected included. *)
Theorem result_latency_is_sum (w : World) (r : RouterResult) (w' : World) :
  run_ w = (Returned r, w') ->
  res_latency_ms r = latency_sum (events_of (emitted w w')).
Proof.
  intro H. apply run_trace in H.
  destruct H as (a & rs & H). now decompose [and] H.
Qed.

(** X12. The executor writes nothing but its own trail: every write of
    a run is an [execution], [invalid_json_escalation] or [escalation]
    event that carries the run's task id and decision id, or a patch of
    that task to completed or failed; it inserts no task and no
    decision.  A run that returns patches the status exactly once, to
    completed for a success Result and to failed otherwise; a run that
    raises patches nothing, so the task keeps the status it had. *)
Theorem executor_writes_its_own_trail (w : World)
    (o : Outcome RouterResult) (w' : World) :
  run_ w = (o, w') ->
  Forall (executor_write task_id decision_id) (emitted w w') /\
  patches (emitted w w')
  = match o with
    | Returned r =>
        [(task_id, if res_success r then "completed" else "failed")]
    | Raised _ => []
    end.
Proof.
  intro H. apply run_trace in H.
  destruct H as (a & rs & H). now decompose [and] H.
Qed.

(** X13. The executor visits the chain forwards only: the adapter
    calls of a run, one per [execution] event, are made at chain
    positions between the start position and the end of the chain, and
    no call is made at a position before that of an earlier call. *)
Theorem attempts_never_go_back (w : World) (o : Outcome RouterResult)
    (w' : World) :
  run_ w = (o, w') ->
  exists a,
    attempted w' = a ++ attempted w /\
    List.length a = count_type "execution" (emitted w w') /\
    Forall (fun i => (start_idx policy decision <= i
                      < List.length (fallback_chain policy))%nat) a /\
    never_back a.
Proof.
  intro H. apply run_trace in H.
  destruct H as (a & rs & H). exists a. now decompose [and] H.
Qed.

(** X14. Every request a run sends to a backend is the request of a
    tier of the chain: it goes to that tier's backend with the model the
    policy gives the tier (the Decision's model when it gives none), the
    engine's system prompt and the user message built from the
    request's own prompt and context, which escalation never rewrites;
    and there are no more requests than [execution] events. *)
Theorem requests_carry_the_prompt (w : World) (o : Outcome RouterResult)
    (w' : World) :
  run_ w = (o, w') ->
  exists rs,
    http_requests w' = rs ++ http_requests w /\
    (List.length rs <= count_type "execution" (emitted w w'))%nat /\
    Forall (fun rq => exists tier,
              In tier (fallback_chain policy) /\
              rq = request_for tier (model_for policy decision tier)
                     (prompt request) (context request)) rs.
Proof.
  intro H. apply run_trace in H.
  destruct H as (a & rs & H). exists rs. decompose [and] H.
  repeat split; auto. lia.
Qed.

(** X15. An [escalation] event is earned: when the executor writes
    one, the failed [execution] events on the local tier written before
    it in the same run number at least
    [escalation_rules.local_fail_count], and its error text names that
    number; a run writes at most one such event per entry of the local
    tier in the chain. *)
Theorem escalation_events_are_earned (w : World)
    (o : Outcome RouterResult) (w' : World) :
  run_ w = (o, w') ->
  escalations_earned (local_fail_count (escalation_rules policy)) 0
    (emitted w w') /\
  (count_type "escalation" (emitted w w')
   <= local_entries (fallback_chain policy))%nat.
Proof.
  intro H. apply run_trace in H.
  destruct H as (a & rs & H). now decompose [and] H.
Qed.

(** X16. Under a policy that escalates on invalid JSON, the output of
    every success Result passes the JSON gate. *)
Theorem accepted_output_passes_gate (w : World) (r : RouterResult)
    (w' : World) :
  run_ w = (Returned r, w') ->
  res_success r = true ->
  invalid_json_escalate (escalation_rules policy) = true ->
  _is_valid_json_output (res_output r) = Returned true.
Proof.
  intro H. apply run_trace in H.
  destruct H as (a & rs & H). decompose [and] H. auto.
Qed.

End TraceProperties.

(** *** Where the executor starts *)

Lemma find_start_first (t : Tier) (chain : list Tier) (i : nat) :
  (exists k,
     find_start t chain i = (i + k)%nat /\
     nth_error chain k = Some t /\
     forall j, (j < k)%nat -> nth_error chain j <> Some t)
  \/ (~ In t chain /\ find_start t chain i = 0%nat).
Proof.
  revert i. induction chain as [| t' chain IH]; intro i.
  - right. split; [intros [] | reflexivity].
  - cbn [find_start]. destruct (Tier_eqb t' t) eqn:Heq.
    + apply Tier_eqb_eq in Heq. subst t'. left. exists 0%nat.
      split; [lia |]. split; [reflexivity |]. intros j Hj. lia.
    + apply Tier_eqb_neq in Heq.
      destruct (IH (S i)) as [(k & Hk & Hnth & Hfirst) | (Hnot & H0)].
      * left. exists (S k). split; [lia |]. split; [exact Hnth |].
        intros [| j] Hj; cbn [nth_error]; [congruence | apply Hfirst; lia].
      * right. split; [| exact H0]. intros [Hin | Hin]; auto.
Qed.

(** X17. The executor starts at the first position of the chain that
    holds the decided tier; when the chain does not name the decided
    tier at all it starts at the head of the chain, so the request is
    offered to tiers the Decision did not choose. *)
Theorem start_is_first_occurrence (policy : RoutingPolicy)
    (decision : RouterDecision) :
  (nth_error (fallback_chain policy) (start_idx policy decision)
   = Some (route decision) /\
   Forall (fun t => t <> route decision)
     (firstn (start_idx policy decision) (fallback_chain policy)))
  \/ (~ In (route decision) (fallback_chain policy) /\
      start_idx policy decision = 0%nat).
Proof.
  unfold start_idx.
  destruct (find_start_first (route decision) (fallback_chain policy) 0)
    as [(k & -> & Hnth & Hfirst) | Hnone]; [left | now right].
  cbn [Nat.add]. split; [exact Hnth |].
  apply Forall_forall. intros t Hin ->.
  apply In_nth_error in Hin. destruct Hin as (j & Hj).
  assert (Hlt : (j < k)%nat).
  { assert (Hsome : nth_error (firstn k (fallback_chain policy)) j <> None)
      by congruence.
    apply nth_error_Some in Hsome. rewrite length_firstn in Hsome. lia. }
  rewrite nth_error_firstn in Hj.
  destruct (Nat.ltb_spec j k); [| lia].
  exact (Hfirst j Hlt Hj).
Qed.

(** *** The local failure threshold *)

Section Threshold.

Context {JL : JsonLoads}.
Variables (env : Env) (request : RunRequest) (policy : RoutingPolicy)
          (decision : RouterDecision)
          (task_id : string) (decision_id : option string) (n : Z).

Local Abbreviation policy' := (with_threshold policy n).

(** An adapter call reads the world only through the number of requests
    issued so far. *)
Lemma execute_on_tier_blind (tier : Tier) (m p : string)
    (c : option string) (w1 w2 : World) :
  http_requests w1 = http_requests w2 ->
  fst (execute_on_tier env tier m p c w1)
  = fst (execute_on_tier env tier m p c w2) /\
  http_requests (snd (execute_on_tier env tier m p c w1))
  = http_requests (snd (execute_on_tier env tier m p c w2)).
Proof.
  intro H. destruct tier; cbn [execute_on_tier];
    unfold OllamaAdapter_generate, OpenRouterAdapter_generate,
      ClaudeAdapter_generate, bind, ret, http_post;
    try destruct (OpenRouterAdapter_is_configured env);
    try destruct (ClaudeAdapter_is_configured env);
    cbn [negb fst snd http_requests]; rewrite ?H; auto.
Qed.

Lemma attempt_blind (tier : Tier) (tier_idx : nat) (loc : Locals)
    (w1 w2 : World) :
  same_but_escalations w1 w2 ->
  fst (attempt env request policy' decision task_id decision_id
         tier tier_idx loc w1)
  = fst (attempt env request policy decision task_id decision_id
           tier tier_idx loc w2) /\
  same_but_escalations
    (snd (attempt env request policy' decision task_id decision_id
            tier tier_idx loc w1))
    (snd (attempt env request policy decision task_id decision_id
            tier tier_idx loc w2)).
Proof.
  intros (Hr & Ha & Hd).
  change (attempt env request policy' decision task_id decision_id
            tier tier_idx loc w1)
    with (attempt env request policy decision task_id decision_id
            tier tier_idx loc w1).
  unfold attempt, accept, bind, ghost_attempt, log_event,
    update_task_status, db_write, ret.
  pose proof (execute_on_tier_blind tier (model_for policy decision tier)
                (prompt request) (context request) w1 w2 Hr) as [Hres Hreq].
  pose proof (execute_on_tier_frame env tier (model_for policy decision tier)
                (prompt request) (context request) w1) as [Hdb1 Hat1].
  pose proof (execute_on_tier_frame env tier (model_for policy decision tier)
                (prompt request) (context request) w2) as [Hdb2 Hat2].
  destruct (execute_on_tier env tier (model_for policy decision tier)
              (prompt request) (context request) w1) as [r1 w10].
  destruct (execute_on_tier env tier (model_for policy decision tier)
              (prompt request) (context request) w2) as [r2 w20].
  cbn [fst snd] in *. subst r2.
  unfold same_but_escalations.
  destruct (a_success r1);
    [destruct (_is_valid_json_output (a_output r1)) as [valid | e];
       [destruct (negb valid
                  && invalid_json_escalate (escalation_rules policy));
          [| destruct (final_decision policy decision tier tier_idx
                         (a_token_count r1))] |] |];
    cbn [fst snd db_writes http_requests attempted without_escalations
         has_type ev_type String.eqb Ascii.eqb Bool.eqb];
    rewrite Hreq, Hat1, Hat2, Ha, Hdb1, Hdb2, Hd; auto.
Qed.

Lemma attempts_blind (k : nat) (tier : Tier) (tier_idx : nat) :
  forall (loc : Locals) (w1 w2 : World),
  same_but_escalations w1 w2 ->
  fst (attempts env request policy' decision task_id decision_id
         k tier tier_idx loc w1)
  = fst (attempts env request policy decision task_id decision_id
           k tier tier_idx loc w2) /\
  same_but_escalations
    (snd (attempts env request policy' decision task_id decision_id
            k tier tier_idx loc w1))
    (snd (attempts env request policy decision task_id decision_id
            k tier tier_idx loc w2)).
Proof.
  induction k as [| k IH]; intros loc w1 w2 Hsame; [now cbn |].
  cbn [attempts]. unfold bind.
  pose proof (attempt_blind tier tier_idx loc w1 w2 Hsame) as [Hf Hw].
  destruct (attempt env request policy' _ _ _ tier tier_idx loc w1)
    as [f1 w1'].
  destruct (attempt env request policy _ _ _ tier tier_idx loc w2)
    as [f2 w2'].
  cbn [fst snd] in Hf, Hw. subst f2.
  destruct f1; cbn [ret fst snd]; auto.
Qed.

Lemma after_attempts_blind (tier : Tier) (loc : Locals) (w1 w2 : World) :
  same_but_escalations w1 w2 ->
  same_but_escalations
    (snd (after_attempts policy' decision task_id decision_id tier loc w1))
    (snd (after_attempts policy decision task_id decision_id tier loc w2)).
Proof.
  intros (Hr & Ha & Hd). unfold after_attempts, same_but_escalations.
  destruct (Tier_eqb tier LOCAL && _); destruct (Tier_eqb tier LOCAL && _);
    cbn [log_event db_write ret snd db_writes http_requests attempted
         without_escalations has_type ev_type String.eqb Ascii.eqb
         Bool.eqb]; auto.
Qed.

Lemma tiers_blind (rest : list Tier) :
  forall (tier_idx : nat) (loc : Locals) (w1 w2 : World),
  same_but_escalations w1 w2 ->
  fst (tiers env request policy' decision task_id decision_id
         rest tier_idx loc w1)
  = fst (tiers env request policy decision task_id decision_id
           rest tier_idx loc w2) /\
  same_but_escalations
    (snd (tiers env request policy' decision task_id decision_id
            rest tier_idx loc w1))
    (snd (tiers env request policy decision task_id decision_id
            rest tier_idx loc w2)).
Proof.
  induction rest as [| tier rest IH]; intros tier_idx loc w1 w2 Hsame;
    [now cbn |].
  cbn [tiers]. unfold bind.
  change (max_attempts policy' tier) with (max_attempts policy tier).
  pose proof (attempts_blind (Py.range_len (max_attempts policy tier))
                tier tier_idx loc w1 w2 Hsame) as [Hf Hw].
  destruct (attempts env request policy' _ _ _ _ tier tier_idx loc w1)
    as [f1 w1'].
  destruct (attempts env request policy _ _ _ _ tier tier_idx loc w2)
    as [f2 w2'].
  cbn [fst snd] in Hf, Hw. subst f2.
  destruct f1 as [loc' | loc' | r | e].
  - pose proof (after_attempts_blind tier loc' w1' w2' Hw) as Haft.
    destruct (after_attempts policy' _ _ _ tier loc' w1') as [[] w1''].
    destruct (after_attempts policy _ _ _ tier loc' w2') as [[] w2''].
    cbn [snd] in Haft. apply IH. exact Haft.
  - pose proof (after_attempts_blind tier loc' w1' w2' Hw) as Haft.
    destruct (after_attempts policy' _ _ _ tier loc' w1') as [[] w1''].
    destruct (after_attempts policy _ _ _ tier loc' w2') as [[] w2''].
    cbn [snd] in Haft. apply IH. exact Haft.
  - cbn [ret fst snd]. auto.
  - cbn [ret fst snd]. auto.
Qed.

(** X18. The threshold [escalation_rules.local_fail_count] decides
    only whether [escalation] events are logged: under any other
    value of it the executor returns the same Result or raises the same
    error, calls the adapters at the same chain positions, sends the
    same requests and makes the same registry writes apart from
    [escalation] events.  The chain moves past the local tier once its
    attempts are used up, whatever the threshold. *)
Theorem threshold_only_logs (w : World) :
  fst (run_with_fallback env request (with_threshold policy n) decision
         task_id decision_id w)
  = fst (run_with_fallback env request policy decision
           task_id decision_id w) /\
  same_but_escalations
    (snd (run_with_fallback env request (with_threshold policy n) decision
            task_id decision_id w))
    (snd (run_with_fallback env request policy decision
            task_id decision_id w)).
Proof.
  unfold run_with_fallback, bind.
  change (start_idx policy' decision) with (start_idx policy decision).
  change (fallback_chain policy') with (fallback_chain policy).
  assert (Hsame : same_but_escalations w w) by (repeat split).
  pose proof (tiers_blind
                (skipn (start_idx policy decision) (fallback_chain policy))
                (start_idx policy decision)
                {| l_local_fail_count := 0; l_last_error := None;
                   l_total_latency := 0 |} w w Hsame) as [Hf Hw].
  destruct (tiers env request policy' _ _ _ _ _ _ w) as [f1 w1].
  destruct (tiers env request policy _ _ _ _ _ _ w) as [f2 w2].
  cbn [fst snd] in Hf, Hw. subst f2. destruct Hw as (Hr & Ha & Hd).
  unfold same_but_escalations.
  destruct f1; cbn [update_task_status db_write ret fst snd db_writes
                    http_requests attempted without_escalations];
    rewrite ?Hd; auto.
Qed.

End Threshold.

(** ** The pipeline and the endpoints *)

Lemma length_substring (n : nat) (s : string) :
  (String.length (String.substring 0 n s) <= n)%nat.
Proof.
  revert s. induction n as [| n IH]; intros [| c s]; cbn; try lia.
  specialize (IH s). lia.
Qed.

Section EndpointProperties.

Context {JL : JsonLoads}.
Variable env : Env.

Local Abbreviation policy_read :=
  (match registry_policy env with
   | Some p => p
   | None => default_RoutingPolicy
   end).
Local Abbreviation governance_read :=
  (match registry_governance env with
   | Some g => g
   | None => default_Governance
   end).

(** [handle_run], step by step: the two writes before the engine is
    asked; then, when the engine raises, nothing more; otherwise the
    Decision row and the patch to executing, the executor's run, and the
    final event behind a Result. *)
Lemma handle_run_steps (request : RunRequest) (w : World)
    (o : Outcome RouterResult) (w' : World) :
  handle_run env request w = (o, w') ->
  match compute_decision request policy_read governance_read with
  | Raised e =>
      o = Raised e /\
      db_writes w'
      = [PatchTaskStatus (task_id_of env) "routing";
         InsertTask (task_row request)] ++ db_writes w /\
      http_requests w' = http_requests w /\
      attempted w' = attempted w
  | Returned decision =>
      exists w0 o1 w1,
        db_writes w0
        = [PatchTaskStatus (task_id_of env) "executing";
           InsertDecision (task_id_of env) decision policy_read
             (level governance_read);
           PatchTaskStatus (task_id_of env) "routing";
           InsertTask (task_row request)] ++ db_writes w /\
        http_requests w0 = http_requests w /\
        attempted w0 = attempted w /\
        run_with_fallback env request policy_read decision (task_id_of env)
          (inserted_decision_id env) w0 = (o1, w1) /\
        o = o1 /\
        http_requests w' = http_requests w1 /\
        attempted w' = attempted w1 /\
        db_writes w'
        = match o1 with
          | Returned r =>
              InsertEvent (final_result_event (task_id_of env)
                             (inserted_decision_id env) r) :: db_writes w1
          | Raised _ => db_writes w1
          end
  end.
Proof.
  unfold handle_run.
  cbv beta iota zeta delta
    [bind get_routing_policy get_governance log_task update_task_status
     log_decision log_event db_write ret fst snd].
  fold (task_id_of env). fold (task_row request).
  cbn [db_writes http_requests attempted].
  destruct (compute_decision request policy_read governance_read)
    as [decision | e].
  - match goal with
    | |- context [run_with_fallback ?e ?rq ?p ?d ?t ?i ?w0] =>
        destruct (run_with_fallback e rq p d t i w0) as [o1 w1] eqn:Hrun;
        intro H; exists w0, o1, w1
    end.
    split; [reflexivity |]. split; [reflexivity |]. split; [reflexivity |].
    split; [exact Hrun |].
    destruct o1 as [r | e]; inversion H; subst; clear H;
      cbn [db_writes http_requests attempted]; auto 6.
  - intro H. inversion H; subst; clear H.
    cbn [db_writes http_requests attempted]. auto.
Qed.

Lemma executor_write_belongs (task_id : string)
    (decision_id : option string) (x : DbWrite) :
  executor_write task_id decision_id x -> belongs_to task_id decision_id x.
Proof. destruct x; cbn; tauto. Qed.

Lemma run_result_task_id (request : RunRequest) (policy : RoutingPolicy)
    (decision : RouterDecision) (task_id : string)
    (decision_id : option string) (w : World) (r : RouterResult)
    (w' : World) :
  run_with_fallback env request policy decision task_id decision_id w
  = (Returned r, w') ->
  res_task_id r = task_id.
Proof.
  intro H. apply run_spec in H.
  destruct H as (d & _ & _ & _ & _ & _ & [Hok | Hko]).
  - destruct Hok as (i & tier & result & lat & d' & fin & _ & _ & _ & ->
                     & _).
    reflexivity.
  - destruct Hko as (loc & d' & -> & _). reflexivity.
Qed.

(** What a /run request writes, by the outcome of the engine. *)
Lemma handle_run_trail (request : RunRequest) (w : World)
    (o : Outcome RouterResult) (w' : World) :
  handle_run env request w = (o, w') ->
  match compute_decision request policy_read governance_read with
  | Raised e =>
      o = Raised e /\
      emitted w w'
      = [PatchTaskStatus (task_id_of env) "routing";
         InsertTask (task_row request)]
  | Returned decision =>
      exists d,
        emitted w w'
        = d ++ [InsertDecision (task_id_of env) decision policy_read
                  (level governance_read);
                PatchTaskStatus (task_id_of env) "routing";
                InsertTask (task_row request)] /\
        Forall (belongs_to (task_id_of env) (inserted_decision_id env)) d /\
        patches d
        = match o with
          | Returned r =>
              [(task_id_of env,
                if res_success r then "completed" else "failed");
               (task_id_of env, "executing")]
          | Raised _ => [(task_id_of env, "executing")]
          end /\
        match o with
        | Returned r => res_task_id r = task_id_of env
        | Raised _ => True
        end
  end.
Proof.
  intro H. apply handle_run_steps in H.
  destruct (compute_decision request policy_read governance_read)
    as [decision | e].
  - destruct H as (w0 & o1 & w1 & Hw0 & _ & _ & Hrun & -> & _ & _ & Hw').
    pose proof Hrun as Htrace. apply run_trace in Htrace.
    destruct Htrace as (a & rs & Hw1 & _ & _ & _ & _ & _ & _ & _ & Hall
                        & _ & _ & Hp & _).
    assert (Hbel : Forall (belongs_to (task_id_of env)
                             (inserted_decision_id env)) (emitted w0 w1)).
    { eapply Forall_impl; [| exact Hall].
      intros x. apply executor_write_belongs. }
    rewrite Hw1, Hw0 in Hw'.
    destruct o1 as [r | e].
    + exists (InsertEvent (final_result_event (task_id_of env)
                             (inserted_decision_id env) r)
              :: emitted w0 w1
                 ++ [PatchTaskStatus (task_id_of env) "executing"]).
      split.
      { apply emitted_app. rewrite Hw'. cbn [app].
        rewrite <- !app_assoc. reflexivity. }
      split.
      { constructor; [cbn; auto |]. apply Forall_app. split; [exact Hbel |].
        constructor; [reflexivity | constructor]. }
      split.
      { cbn [patches]. rewrite patches_app, Hp. reflexivity. }
      exact (run_result_task_id _ _ _ _ _ _ _ _ Hrun).
    + exists (emitted w0 w1
              ++ [PatchTaskStatus (task_id_of env) "executing"]).
      split.
      { apply emitted_app. rewrite Hw'. rewrite <- !app_assoc.
        reflexivity. }
      split.
      { apply Forall_app. split; [exact Hbel |].
        constructor; [reflexivity | constructor]. }
      split; [| exact I].
      rewrite patches_app, Hp. reflexivity.
  - destruct H as (-> & Hw' & _). split; [reflexivity |].
    apply emitted_app. exact Hw'.
Qed.

(** X19. The status of the task of a /run request moves one way: it
    is patched to routing; when the engine returns a Decision, then to
    executing; and when the pipeline returns a Result, exactly once
    more, to completed for a success and to failed otherwise.  When the
    pipeline raises, the task is left in the status of the last patch:
    routing when the engine raised, executing when the executor did. *)
Theorem task_status_lifecycle (request : RunRequest) (w : World)
    (o : Outcome RouterResult) (w' : World) :
  handle_run env request w = (o, w') ->
  patches (emitted w w')
  = match o with
    | Returned r =>
        [(task_id_of env, if res_success r then "completed" else "failed");
         (task_id_of env, "executing"); (task_id_of env, "routing")]
    | Raised _ =>
        match compute_decision request policy_read governance_read with
        | Returned _ =>
            [(task_id_of env, "executing"); (task_id_of env, "routing")]
        | Raised _ => [(task_id_of env, "routing")]
        end
    end.
Proof.
  intro H. apply handle_run_trail in H.
  destruct (compute_decision request policy_read governance_read)
    as [decision | e].
  - destruct H as (d & -> & _ & Hp & _).
    rewrite patches_app, Hp. destruct o; reflexivity.
  - destruct H as (-> & ->). reflexivity.
Qed.

(** X20. Everything a /run request writes belongs to one task: the
    first write inserts the task row, whose payload holds at most the
    first 500 characters of the prompt and the length of the context;
    then comes the patch to routing.  When the engine raises, nothing
    more is written and the request ends with the engine's exception.
    Otherwise the next write inserts the Decision that
    [compute_decision] gives for the request under the policy and
    governance read; every later write is a status patch of that task
    or an event that names it and the decision id the registry returned;
    and the Result names the same task. *)
Theorem one_task_one_trail (request : RunRequest) (w : World)
    (o : Outcome RouterResult) (w' : World) :
  handle_run env request w = (o, w') ->
  (exists d,
     emitted w w'
     = d ++ [PatchTaskStatus (task_id_of env) "routing";
             InsertTask (task_row request)] /\
     match compute_decision request policy_read governance_read with
     | Raised e => d = [] /\ o = Raised e
     | Returned decision =>
         exists d',
           d = d' ++ [InsertDecision (task_id_of env) decision policy_read
                        (level governance_read)] /\
           Forall (belongs_to (task_id_of env) (inserted_decision_id env))
             d'
     end) /\
  (exists text,
     Py.dict_get (t_payload (task_row request)) "prompt" JNull
     = JString text /\
     Py.len text <= 500) /\
  Py.dict_get (t_payload (task_row request)) "context_length" JNull
  = JNumber (Py.str_int (Py.len (Py.or_empty (context request)))) /\
  match o with
  | Returned r => res_task_id r = task_id_of env
  | Raised _ => True
  end.
Proof.
  intro H. apply handle_run_trail in H.
  split; [| split; [| split]].
  - destruct (compute_decision request policy_read governance_read)
      as [decision | e].
    + destruct H as (d & Hem & Hbel & _).
      exists (d ++ [InsertDecision (task_id_of env) decision policy_read
                      (level governance_read)]).
      split; [rewrite Hem, <- app_assoc; reflexivity |].
      exists d. split; [reflexivity | exact Hbel].
    + destruct H as (-> & ->). exists []. split; [reflexivity |].
      split; reflexivity.
  - eexists. split; [reflexivity |].
    unfold Py.len. pose proof (length_substring 500 (prompt request)). lia.
  - reflexivity.
  - destruct (compute_decision request policy_read governance_read)
      as [decision | e].
    + destruct H as (d & _ & _ & _ & Hid). exact Hid.
    + destruct H as (-> & _). exact I.
Qed.

(** X21. /route previews /run: for a body that satisfies its schema
    it writes nothing to the registry and sends no request, and it ends
    as the engine does on a request with the body's prompt, context and
    sensitivity: with the engine's Decision beside the policy and
    governance read, or with the engine's exception.  A /run request
    with the same prompt, context and sensitivity, whatever its task
    type, source and metadata, inserts that Decision into the registry
    in the first case, and in the second ends with the same exception,
    having written its task row and the patch to routing only. *)
Theorem route_previews_run (body : RouteRequest) (request : RunRequest)
    (w0 w : World) (o : Outcome RouterResult) (w' : World) :
  RouteRequest_valid body = true ->
  prompt request = rt_prompt body ->
  context request = rt_context body ->
  sensitivity request = rt_sensitivity body ->
  handle_run env request w = (o, w') ->
  snd (post_route env body w0) = w0 /\
  match fst (post_route env body w0) with
  | Returned answer =>
      compute_decision request policy_read governance_read
      = Returned (rr_decision answer) /\
      rr_policy_used answer = policy_read /\
      rr_governance answer = governance_read /\
      In (InsertDecision (task_id_of env) (rr_decision answer)
            (rr_policy_used answer) (level (rr_governance answer)))
         (emitted w w')
  | Raised e =>
      compute_decision request policy_read governance_read = Raised e /\
      o = Raised e /\
      emitted w w'
      = [PatchTaskStatus (task_id_of env) "routing";
         InsertTask (task_row request)]
  end.
Proof.
  intros Hv Hp Hc Hs H. apply handle_run_trail in H.
  unfold post_route, bind, get_routing_policy, get_governance, ret.
  unfold new_RunRequest.
  change (RunRequest_valid (run_request_of body))
    with (RouteRequest_valid body).
  rewrite Hv.
  assert (Hsame : compute_decision (run_request_of body) policy_read
                    governance_read
                  = compute_decision request policy_read governance_read).
  { unfold compute_decision, run_request_of.
    cbn [prompt context sensitivity]. rewrite Hp, Hc, Hs. reflexivity. }
  rewrite Hsame.
  destruct (compute_decision request policy_read governance_read)
    as [decision | e]; cbn [fst snd]; (split; [reflexivity |]).
  - destruct H as (d & Hem & _).
    cbn [rr_decision rr_policy_used rr_governance].
    repeat (split; [reflexivity |]).
    rewrite Hem. apply in_or_app. right. now left.
  - destruct H as (Ho & Hem). auto.
Qed.

(** X22. The handler of /run returns a Result, and raises no
    HTTPException with status 500, whenever the
    texts of the request are Python strings, the policy read for it
    names no tier twice in its chain and has a [local_ratio] whose
    percentage has an int value, and the backends report token counts
    that are ints, not negative and small enough to be divided as
    floats, and answer with no JSON string that makes the gate's own
    parse raise what the gate does not catch; the Result is the one the
    pipeline returns. *)
Theorem run_endpoint_answers (describe : PyError -> string)
    (request : RunRequest) (w : World) :
  RunRequest_sized request ->
  NoDup (fallback_chain (fst (get_routing_policy env w))) ->
  (exists percent,
     Py.int_of_float
       (Py.fmul (local_ratio (fst (get_routing_policy env w)))
          (Py.decimal 100 1)) = Returned percent) ->
  tokens_nonneg env ->
  gate_catches env ->
  exists r,
    fst (post_run env describe request w) = Ok200 r /\
    fst (handle_run env request w) = Returned r.
Proof.
  intros Hsized Hnd Hratio Hn Hg.
  destruct (handle_run_returns env request w Hsized Hnd Hratio Hn Hg)
    as (r & w' & H).
  exists r. unfold post_run, bind, ret. rewrite H. split; reflexivity.
Qed.

(** X23. Every Result that /run returns carries a Decision that
    satisfies the schema's constraints (a reason, confidence between 0
    and 1, escalation level between 0 and 3, a cost estimate that is
    not negative), whether it is the Decision of the accepting tier or,
    on failure, the one the engine computed. *)
Theorem result_decision_is_valid (request : RunRequest) (w : World)
    (r : RouterResult) (w' : World) :
  handle_run env request w = (Returned r, w') ->
  RouterDecision_valid (res_decision r) = true.
Proof.
  intro H. apply handle_run_steps in H.
  destruct (compute_decision request policy_read governance_read)
    as [decision | e] eqn:Hdec; [| destruct H as (H & _); discriminate].
  destruct H as (w0 & o1 & w1 & _ & _ & _ & Hrun & <- & _).
  apply compute_decision_valid in Hdec. destruct Hdec as [Hdec _].
  apply run_spec in Hrun.
  destruct Hrun as (d & _ & _ & _ & _ & _ & [Hok | Hko]).
  - destruct Hok as (i & tier & result & lat & d' & fin & _ & _ & Hfin & ->
                     & _).
    apply final_decision_fields in Hfin.
    destruct Hfin as (steps & thousands & _ & _ & _ & Hv). exact Hv.
  - destruct Hko as (loc & d' & -> & _). exact Hdec.
Qed.

(** X24. /execute is one adapter call and nothing more: whatever the
    adapter returns is answered as it is, so an output that is not JSON
    is answered as a success; there is no retry and no escalation, at
    most one request is sent, to the backend of the tier asked for.  The
    registry gets three writes: first the task row, of type
    [direct_execute] and source [api], whose payload names the tier and
    the model and holds at most the first 500 characters of the prompt;
    then one [direct_execution] event without a decision id; then one
    status patch, to completed exactly when the adapter succeeded.  The
    model is the one the body names, else the policy's model for the
    tier, else [llama3.1:8b] whatever the tier. *)
Theorem direct_execution_trail (body : ExecuteRequest) (w : World) :
  let answer := fst (post_execute env body w) in
  let w' := snd (post_execute env body w) in
  let result := fst (execute_on_tier env (ex_tier body) (xr_model answer)
                       (ex_prompt body) (ex_context body) w) in
  xr_model answer
  = (if Py.truthy_opt (ex_model body)
     then Py.or_empty (ex_model body)
     else Py.dict_get (models policy_read) (Tier_value (ex_tier body))
            "llama3.1:8b") /\
  xr_success answer = a_success result /\
  xr_output answer = a_output result /\
  xr_error answer = a_error result /\
  xr_task_id answer = task_id_of env /\
  emitted w w'
  = [PatchTaskStatus (task_id_of env)
       (if a_success result then "completed" else "failed");
     InsertEvent
       {| ev_task_id := task_id_of env;
          ev_decision_id := None;
          ev_type := "direct_execution";
          ev_tier := Tier_value (ex_tier body);
          ev_model := xr_model answer;
          ev_success := a_success result;
          ev_latency_ms := a_latency_ms result;
          ev_token_count := a_token_count result;
          ev_error_message := a_error result |};
     InsertTask (direct_row body (xr_model answer))] /\
  t_payload (direct_row body (xr_model answer))
  = [("tier", JString (Tier_value (ex_tier body)));
     ("model", JString (xr_model answer));
     ("prompt", JString (String.substring 0 500 (ex_prompt body)))] /\
  Py.len (String.substring 0 500 (ex_prompt body)) <= 500 /\
  attempted w' = attempted w /\
  (http_requests w' = http_requests w
   \/ http_requests w'
      = request_for (ex_tier body) (xr_model answer) (ex_prompt body)
          (ex_context body) :: http_requests w).
Proof.
  cbv zeta.
  set (m := if Py.truthy_opt (ex_model body)
            then Py.or_empty (ex_model body)
            else Py.dict_get (models policy_read)
                   (Tier_value (ex_tier body)) "llama3.1:8b").
  set (w_row := {| db_writes := InsertTask (direct_row body m) :: db_writes w;
                   http_requests := http_requests w;
                   attempted := attempted w |}).
  set (call := execute_on_tier env (ex_tier body) m (ex_prompt body)
                 (ex_context body) w_row).
  assert (Heq : post_execute env body w
                = ({| xr_task_id := task_id_of env;
                      xr_tier := Tier_value (ex_tier body);
                      xr_model := m;
                      xr_success := a_success (fst call);
                      xr_output := a_output (fst call);
                      xr_latency_ms := a_latency_ms (fst call);
                      xr_token_count := a_token_count (fst call);
                      xr_error := a_error (fst call) |},
                   {| db_writes :=
                        PatchTaskStatus (task_id_of env)
                          (if a_success (fst call)
                           then "completed" else "failed")
                        :: InsertEvent
                             {| ev_task_id := task_id_of env;
                                ev_decision_id := None;
                                ev_type := "direct_execution";
                                ev_tier := Tier_value (ex_tier body);
                                ev_model := m;
                                ev_success := a_success (fst call);
                                ev_latency_ms := a_latency_ms (fst call);
                                ev_token_count := a_token_count (fst call);
                                ev_error_message := a_error (fst call) |}
                        :: db_writes (snd call);
                      http_requests := http_requests (snd call);
                      attempted := attempted (snd call) |})).
  { unfold post_execute, execute_model, call, w_row, m, task_id_of,
      direct_row.
    destruct (Py.truthy_opt (ex_model body));
      cbv beta iota zeta delta
        [bind ret get_routing_policy log_task log_event update_task_status
         db_write Sensitivity_value fst snd db_writes http_requests
         attempted];
      destruct (execute_on_tier env (ex_tier body) _ (ex_prompt body)
                  (ex_context body) _); reflexivity. }
  rewrite Heq.
  cbn [fst snd xr_model xr_success xr_output xr_error xr_task_id
       attempted http_requests].
  pose proof (execute_on_tier_frame env (ex_tier body) m (ex_prompt body)
                (ex_context body) w_row) as [Hdb Hat].
  pose proof (execute_on_tier_requests env (ex_tier body) m (ex_prompt body)
                (ex_context body) w_row) as Hrq.
  assert (Hblind : http_requests w_row = http_requests w) by reflexivity.
  pose proof (execute_on_tier_blind env (ex_tier body) m (ex_prompt body)
                (ex_context body) w_row w Hblind) as [Hres _].
  fold call in Hdb, Hat, Hrq, Hres. rewrite <- Hres.
  split; [reflexivity |]. split; [reflexivity |]. split; [reflexivity |].
  split; [reflexivity |]. split; [reflexivity |].
  split.
  { apply emitted_app. cbn [db_writes]. rewrite Hdb. reflexivity. }
  split; [reflexivity |].
  split.
  { unfold Py.len. pose proof (length_substring 500 (ex_prompt body)). lia. }
  split; [exact Hat | exact Hrq].
Qed.

End EndpointProperties.

(** ** Concrete runs of the rest of the service *)

Lemma result_latency_is_sum_witness :
  exists r w',
    Scenario.run Scenario.local_down Scenario.request_hi
      default_RoutingPolicy Scenario.decision_local = (Returned r, w') /\
    res_latency_ms r = latency_sum (events_of (emitted empty_World w')).
Proof.
  eexists. eexists. split; [vm_compute; reflexivity |].
  apply (result_latency_is_sum (JL := PyJson.loads) Scenario.local_down
           Scenario.request_hi default_RoutingPolicy Scenario.decision_local
           "task-1" (Some "decision-1") empty_World).
  vm_compute. reflexivity.
Defined.

(** The local tier fails twice for 35 ms each, the market tier answers
    in 120 ms: the Result reports 190 ms. *)
Example local_down_latency :
  exists r w',
    Scenario.run Scenario.local_down Scenario.request_hi
      default_RoutingPolicy Scenario.decision_local = (Returned r, w') /\
    res_latency_ms r = 190 /\
    patches (db_writes w') = [("task-1", "completed")] /\
    List.length (http_requests w') = 3%nat.
Proof.
  eexists. eexists. split; [vm_compute; reflexivity |].
  repeat split; vm_compute; reflexivity.
Qed.

Lemma executor_writes_its_own_trail_witness :
  exists o w',
    Scenario.run Scenario.local_down Scenario.request_hi
      default_RoutingPolicy Scenario.decision_local = (o, w') /\
    Forall (executor_write "task-1" (Some "decision-1"))
      (emitted empty_World w') /\
    patches (emitted empty_World w')
    = match o with
      | Returned r =>
          [("task-1", if res_success r then "completed" else "failed")]
      | Raised _ => []
      end.
Proof.
  eexists. eexists. split; [vm_compute; reflexivity |].
  eapply (executor_writes_its_own_trail (JL := PyJson.loads)
            Scenario.local_down Scenario.request_hi default_RoutingPolicy
            Scenario.decision_local "task-1" (Some "decision-1") empty_World).
  vm_compute. reflexivity.
Defined.

Lemma attempts_never_go_back_witness :
  exists o w',
    Scenario.run Scenario.local_down Scenario.request_hi
      default_RoutingPolicy Scenario.decision_local = (o, w') /\
    exists a,
      attempted w' = a ++ attempted empty_World /\
      List.length a = count_type "execution" (emitted empty_World w') /\
      Forall (fun i =>
                (start_idx default_RoutingPolicy Scenario.decision_local <= i
                 < List.length (fallback_chain default_RoutingPolicy))%nat)
        a /\
      never_back a.
Proof.
  eexists. eexists. split; [vm_compute; reflexivity |].
  eapply (attempts_never_go_back (JL := PyJson.loads)
            Scenario.local_down Scenario.request_hi default_RoutingPolicy
            Scenario.decision_local "task-1" (Some "decision-1") empty_World).
  vm_compute. reflexivity.
Defined.

Lemma requests_carry_the_prompt_witness :
  exists o w',
    Scenario.run Scenario.local_down Scenario.request_hi
      default_RoutingPolicy Scenario.decision_local = (o, w') /\
    exists rs,
      http_requests w' = rs ++ http_requests empty_World /\
      (List.length rs
       <= count_type "execution" (emitted empty_World w'))%nat /\
      Forall (fun rq => exists tier,
                In tier (fallback_chain default_RoutingPolicy) /\
                rq = request_for tier
                       (model_for default_RoutingPolicy
                          Scenario.decision_local tier)
                       (prompt Scenario.request_hi)
                       (context Scenario.request_hi)) rs.
Proof.
  eexists. eexists. split; [vm_compute; reflexivity |].
  eapply (requests_carry_the_prompt (JL := PyJson.loads)
            Scenario.local_down Scenario.request_hi default_RoutingPolicy
            Scenario.decision_local "task-1" (Some "decision-1") empty_World).
  vm_compute. reflexivity.
Defined.

Lemma escalation_events_are_earned_witness :
  exists o w',
    Scenario.run Scenario.local_down Scenario.request_hi
      default_RoutingPolicy Scenario.decision_local = (o, w') /\
    escalations_earned
      (local_fail_count (escalation_rules default_RoutingPolicy)) 0
      (emitted empty_World w') /\
    (count_type "escalation" (emitted empty_World w')
     <= local_entries (fallback_chain default_RoutingPolicy))%nat.
Proof.
  eexists. eexists. split; [vm_compute; reflexivity |].
  eapply (escalation_events_are_earned (JL := PyJson.loads)
            Scenario.local_down Scenario.request_hi default_RoutingPolicy
            Scenario.decision_local "task-1" (Some "decision-1") empty_World).
  vm_compute. reflexivity.
Defined.

Lemma accepted_output_passes_gate_witness :
  exists r w',
    Scenario.run Scenario.local_down Scenario.request_hi
      default_RoutingPolicy Scenario.decision_local = (Returned r, w') /\
    res_success r = true /\
    invalid_json_escalate (escalation_rules default_RoutingPolicy) = true /\
    _is_valid_json_output (JL := PyJson.loads) (res_output r) = Returned true.
Proof.
  eexists. eexists. split; [vm_compute; reflexivity |].
  split; [reflexivity |]. split; [reflexivity |].
  eapply (accepted_output_passes_gate (JL := PyJson.loads)
            Scenario.local_down Scenario.request_hi default_RoutingPolicy
            Scenario.decision_local "task-1" (Some "decision-1") empty_World);
    [vm_compute; reflexivity | reflexivity | reflexivity].
Defined.

(** A decision for the premium tier under a chain that does not name
    it: the executor starts at the head of the chain and the local tier
    answers. *)
Example absent_route_starts_at_head :
  exists r w',
    Scenario.run Scenario.all_up Scenario.request_leak
      Calls.hosted_only_market Calls.decision_premium = (Returned r, w') /\
    start_idx Calls.hosted_only_market Calls.decision_premium = 0%nat /\
    res_tier_used r = LOCAL /\
    attempted w' = [0%nat].
Proof.
  eexists. eexists. split; [vm_compute; reflexivity |].
  repeat split; vm_compute; reflexivity.
Qed.

Lemma task_status_lifecycle_witness :
  exists o w',
    Scenario.serve Scenario.local_down Scenario.request_hi = (o, w') /\
    patches (emitted empty_World w')
    = match o with
      | Returned r =>
          [(task_id_of Scenario.local_down,
            if res_success r then "completed" else "failed");
           (task_id_of Scenario.local_down, "executing");
           (task_id_of Scenario.local_down, "routing")]
      | Raised _ =>
          match compute_decision Scenario.request_hi default_RoutingPolicy
                  default_Governance with
          | Returned _ =>
              [(task_id_of Scenario.local_down, "executing");
               (task_id_of Scenario.local_down, "routing")]
          | Raised _ => [(task_id_of Scenario.local_down, "routing")]
          end
      end.
Proof.
  eexists. eexists. split; [vm_compute; reflexivity |].
  eapply (task_status_lifecycle (JL := PyJson.loads) Scenario.local_down
            Scenario.request_hi empty_World).
  vm_compute. reflexivity.
Defined.

(** Under a policy whose [local_ratio] is infinite, a request for the
    default route ends with the engine's [OverflowError]: /route raises
    it, and /run answers 500 having written the task row and the patch
    to routing, with no Decision row, no event and the task left in
    routing. *)
Example infinite_ratio_stops_the_pipeline :
  let env := Scenario.with_policy Scenario.all_up Calls.ratio_infinite in
  post_route env Calls.route_hi empty_World
  = (Raised OverflowError, empty_World) /\
  fst (post_run (JL := PyJson.loads) env Calls.describe Scenario.request_hi
         empty_World)
  = HTTPException 500 "cannot convert float infinity to integer" /\
  db_writes (snd (Scenario.serve env Scenario.request_hi))
  = [PatchTaskStatus "task-1" "routing";
     InsertTask (task_row Scenario.request_hi)] /\
  http_requests (snd (Scenario.serve env Scenario.request_hi)) = [].
Proof. cbv zeta. repeat split; vm_compute; reflexivity. Qed.

Lemma one_task_one_trail_witness :
  exists o w',
    Scenario.serve Scenario.local_down Calls.request_long = (o, w') /\
    (exists d,
       emitted empty_World w'
       = d ++ [PatchTaskStatus (task_id_of Scenario.local_down) "routing";
               InsertTask (task_row Calls.request_long)] /\
       match compute_decision Calls.request_long default_RoutingPolicy
               default_Governance with
       | Raised e => d = [] /\ o = Raised e
       | Returned decision =>
           exists d',
             d = d' ++ [InsertDecision (task_id_of Scenario.local_down)
                          decision default_RoutingPolicy
                          (level default_Governance)] /\
             Forall (belongs_to (task_id_of Scenario.local_down)
                       (inserted_decision_id Scenario.local_down)) d'
       end) /\
    (exists text,
       Py.dict_get (t_payload (task_row Calls.request_long)) "prompt" JNull
       = JString text /\
       Py.len text <= 500) /\
    Py.dict_get (t_payload (task_row Calls.request_long)) "context_length"
      JNull
    = JNumber (Py.str_int (Py.len (Py.or_empty
                                     (context Calls.request_long)))) /\
    match o with
    | Returned r => res_task_id r = task_id_of Scenario.local_down
    | Raised _ => True
    end.
Proof.
  eexists. eexists. split; [vm_compute; reflexivity |].
  eapply (one_task_one_trail (JL := PyJson.loads) Scenario.local_down
            Calls.request_long empty_World).
  vm_compute. reflexivity.
Defined.

(** The payload of that task row: 500 of the 600 characters of the
    prompt, and the length of the context as the number 3. *)
Example long_prompt_is_cut :
  Py.dict_get (t_payload (task_row Calls.request_long)) "prompt" JNull
  = JString (Scenario.filler 500) /\
  Py.dict_get (t_payload (task_row Calls.request_long)) "context_length"
    JNull = JNumber "3".
Proof. split; vm_compute; reflexivity. Qed.

Lemma route_previews_run_witness :
  exists o w',
    Scenario.serve Scenario.local_down Scenario.request_hi = (o, w') /\
    RouteRequest_valid Calls.route_hi = true /\
    prompt Scenario.request_hi = rt_prompt Calls.route_hi /\
    context Scenario.request_hi = rt_context Calls.route_hi /\
    sensitivity Scenario.request_hi = rt_sensitivity Calls.route_hi /\
    snd (post_route Scenario.local_down Calls.route_hi
           empty_World) = empty_World /\
    match fst (post_route Scenario.local_down
                 Calls.route_hi empty_World) with
    | Returned answer =>
        compute_decision Scenario.request_hi default_RoutingPolicy
          default_Governance = Returned (rr_decision answer) /\
        rr_policy_used answer = default_RoutingPolicy /\
        rr_governance answer = default_Governance /\
        In (InsertDecision (task_id_of Scenario.local_down)
              (rr_decision answer) (rr_policy_used answer)
              (level (rr_governance answer)))
           (emitted empty_World w')
    | Raised e =>
        compute_decision Scenario.request_hi default_RoutingPolicy
          default_Governance = Raised e /\
        o = Raised e /\
        emitted empty_World w'
        = [PatchTaskStatus (task_id_of Scenario.local_down) "routing";
           InsertTask (task_row Scenario.request_hi)]
    end.
Proof.
  eexists. eexists. split; [vm_compute; reflexivity |].
  split; [reflexivity |].
  split; [reflexivity |]. split; [reflexivity |]. split; [reflexivity |].
  eapply (route_previews_run (JL := PyJson.loads) Scenario.local_down
            Calls.route_hi Scenario.request_hi empty_World empty_World);
    [reflexivity | reflexivity | reflexivity | reflexivity
    | vm_compute; reflexivity].
Defined.

Lemma run_endpoint_answers_witness :
  RunRequest_sized Scenario.request_hi /\
  NoDup (fallback_chain
           (fst (get_routing_policy Scenario.all_up empty_World))) /\
  (exists percent,
     Py.int_of_float
       (Py.fmul (local_ratio
                   (fst (get_routing_policy Scenario.all_up empty_World)))
          (Py.decimal 100 1)) = Returned percent) /\
  tokens_nonneg Scenario.all_up /\
  gate_catches (JL := PyJson.loads) Scenario.all_up /\
  exists r,
    fst (post_run (JL := PyJson.loads) Scenario.all_up Calls.describe
           Scenario.request_hi empty_World) = Ok200 r /\
    fst (handle_run (JL := PyJson.loads) Scenario.all_up
           Scenario.request_hi empty_World) = Returned r.
Proof.
  assert (Hsized : RunRequest_sized Scenario.request_hi)
    by (split; apply Z.leb_le; vm_compute; reflexivity).
  assert (Hnd : NoDup (fallback_chain
                         (fst (get_routing_policy Scenario.all_up
                                 empty_World)))).
  { cbn. repeat constructor; cbn; intuition discriminate. }
  assert (Hratio : exists percent,
            Py.int_of_float
              (Py.fmul (local_ratio
                          (fst (get_routing_policy Scenario.all_up
                                  empty_World)))
                 (Py.decimal 100 1)) = Returned percent)
    by (exists 80; vm_compute; reflexivity).
  assert (Hn : tokens_nonneg Scenario.all_up).
  { intros rq n latency status text content token_count late.
    cbn. destruct (rq_backend rq); intro H; inversion H;
      (eexists; split; [reflexivity |]);
      (split; [lia | apply Z.ltb_lt; vm_compute; reflexivity]). }
  assert (Hg : gate_catches (JL := PyJson.loads) Scenario.all_up).
  { intros rq n latency status text content token_count late s e message.
    cbn. destruct (rq_backend rq); intro H; inversion H; subst;
      intro Hl; vm_compute in Hl; discriminate. }
  split; [exact Hsized |]. split; [exact Hnd |]. split; [exact Hratio |].
  split; [exact Hn |]. split; [exact Hg |].
  exact (run_endpoint_answers (JL := PyJson.loads) Scenario.all_up
           Calls.describe Scenario.request_hi empty_World Hsized Hnd
           Hratio Hn Hg).
Defined.

(** /execute on the premium tier without a model, under a policy that
    names no model: the request carries the local default model to the
    hosted backend. *)
Example execute_premium_with_local_model :
  http_requests
    (snd (post_execute (JL := PyJson.loads)
            (Scenario.with_policy Scenario.all_up Calls.no_models)
            Calls.execute_hi empty_World))
  = [request_for PREMIUM "llama3.1:8b" "hi" None].
Proof. vm_compute. reflexivity. Qed.

(** The three registry writes of that call, oldest last: the task
    row with its payload, the event, the status patch. *)
Example execute_writes_three_rows :
  db_writes
    (snd (post_execute (JL := PyJson.loads) Scenario.all_up
            Calls.execute_hi empty_World))
  = [PatchTaskStatus "task-1" "completed";
     InsertEvent
       {| ev_task_id := "task-1";
          ev_decision_id := None;
          ev_type := "direct_execution";
          ev_tier := "premium";
          ev_model := "claude-sonnet-4-20250514";
          ev_success := true;
          ev_latency_ms := 120;
          ev_token_count := TokInt 40;
          ev_error_message := None |};
     InsertTask
       {| t_task_type := "direct_execute";
          t_payload := [("tier", JString "premium");
                        ("model", JString "claude-sonnet-4-20250514");
                        ("prompt", JString "hi")];
          t_source := "api";
          t_sensitivity := "normal" |}].
Proof. vm_compute. reflexivity. Qed.

Lemma result_decision_is_valid_witness :
  exists r w',
    Scenario.serve Scenario.all_down Scenario.request_hi
    = (Returned r, w') /\
    RouterDecision_valid (res_decision r) = true.
Proof.
  eexists. eexists. split; [vm_compute; reflexivity |].
  eapply (result_decision_is_valid (JL := PyJson.loads) Scenario.all_down
            Scenario.request_hi empty_World).
  vm_compute. reflexivity.
Defined.
